(** * Irrlicht hook receiver stress harness: [tools/stress-test.py]

    A shallow embedding of the class [StressTestRunner] and the properties
    of it that the specification of the hook receiver relies on.

    Conventions of the embedding.
    - A Python [str] is a [string]; one [ascii] stands for one character.
      The fixed messages of the harness that contain symbols outside
      ASCII appear with those symbols in UTF-8.
    - A Python [int] is a [Z].
    - A Python [float] is a binary floating point number with the 53 bit
      significand of IEEE 754 binary64 and rounding to nearest, ties to
      even; the exponent is not bounded (module [PyFloat]).
    - A Python [dict] with string keys is an association list in insertion
      order (module [Json]).
    - The outside world (the random module, the hook binary, the USER
      variable, the log directory) is an [environment] of oracles; the
      state of the runner, the clock and the console are threaded through
      a state monad. *)

From Stdlib Require Import ZArith List Bool Ascii String Lia.
From Stdlib Require Import Decimal DecimalString DecimalZ FinFun.
Import ListNotations.

Local Open Scope string_scope.
Local Open Scope Z_scope.

(** ** Floating point numbers *)

Module PyFloat.

(** [mant * 2 ^ expo] *)
Record float := mk { mant : Z; expo : Z }.

(** [p * 2^e] for [0 <= p], rounded to 53 significant bits. *)
Definition round_pos (p e : Z) : float :=
  let k := Z.log2 p in
  if k <? 53 then mk p e
  else
    let s := k - 52 in
    let q := p / 2 ^ s in
    let r := p mod 2 ^ s in
    let half := 2 ^ (s - 1) in
    let up := (half <? r) || ((r =? half) && Z.odd q) in
    mk (if up then q + 1 else q) (e + s).

Definition round (p e : Z) : float :=
  if p <? 0
  then let f := round_pos (- p) e in mk (- mant f) (expo f)
  else round_pos p e.

(** [float(n)] *)
Definition of_int (n : Z) : float := round n 0.

Definition zero : float := mk 0 0.

(** Both mantissas on the smaller of the two exponents. *)
Definition align (a b : float) : Z * Z * Z :=
  let e := Z.min (expo a) (expo b) in
  (mant a * 2 ^ (expo a - e), mant b * 2 ^ (expo b - e), e).

Definition add (a b : float) : float :=
  let '(x, y, e) := align a b in round (x + y) e.

Definition sub (a b : float) : float :=
  let '(x, y, e) := align a b in round (x - y) e.

Definition mul (a b : float) : float :=
  round (mant a * mant b) (expo a + expo b).

(** [a / b]; [None] is ZeroDivisionError.  The quotient is taken with
    more than 55 bits and a sticky bit, then rounded. *)
Definition div (a b : float) : option float :=
  if mant b =? 0 then None
  else
    let sh := 56 + Z.log2 (Z.abs (mant b)) in
    let n := Z.abs (mant a) * 2 ^ sh in
    let d := Z.abs (mant b) in
    let p := 2 * (n / d) + (if n mod d =? 0 then 0 else 1) in
    let sgn := Z.sgn (mant a) * Z.sgn (mant b) in
    Some (round (sgn * p) (expo a - expo b - sh - 1)).

Definition ltb (a b : float) : bool :=
  let '(x, y, _) := align a b in x <? y.

Definition leb (a b : float) : bool :=
  let '(x, y, _) := align a b in x <=? y.

Definition eqb (a b : float) : bool :=
  let '(x, y, _) := align a b in x =? y.

Definition max (a b : float) : float := if ltb a b then b else a.

(** Truthiness of a float: false exactly for zero. *)
Definition truthy (a : float) : bool := negb (mant a =? 0).

(** [int(a)]: truncation towards zero. *)
Definition to_int (a : float) : Z :=
  if 0 <=? expo a then mant a * 2 ^ expo a
  else Z.quot (mant a) (2 ^ (- expo a)).

(** The literals of the harness. *)
Definition lit_0_95 : float := mk 8556839292003942 (-53).
Definition lit_0_1 : float := mk 3602879701896397 (-55).
Definition lit_1_0 : float := mk 1 0.

End PyFloat.

(** ** Strings *)

Module PyStr.

Definition dquote : ascii := "034"%char.
Definition backslash : ascii := "092"%char.

(** [s] between double quotes, verbatim. *)
Definition quoted (s : string) : string :=
  String dquote (s ++ String dquote "").

(** [len(s)] *)
Definition len (s : string) : Z := Z.of_nat (String.length s).

(** [s * n] *)
Definition repeat (s : string) (n : Z) : string :=
  Z.iter n (String.append s) "".

(** [s[:n]] *)
Definition take (n : nat) (s : string) : string := String.substring 0 n s.

(** [needle in hay] *)
Fixpoint contains (needle hay : string) : bool :=
  String.prefix needle hay ||
  match hay with
  | EmptyString => false
  | String _ hay' => contains needle hay'
  end.

(** [str(z)] *)
Definition of_int (z : Z) : string := NilZero.string_of_int (Z.to_int z).

(** [f"{z:02d}"] *)
Definition of_int_02d (z : Z) : string :=
  let s := of_int z in
  if (String.length s <? 2)%nat then "0" ++ s else s.

(** [f"{x:.1f}"]: the exact value of [x] rounded to one decimal, ties to
    even. *)
Definition of_float_1f (x : PyFloat.float) : string :=
  let m := Z.abs (PyFloat.mant x) * 10 in
  let e := PyFloat.expo x in
  let t :=
    if 0 <=? e then m * 2 ^ e
    else
      let d := 2 ^ (- e) in
      let q := m / d in
      let r := m mod d in
      if (d <? 2 * r) || ((2 * r =? d) && Z.odd q) then q + 1 else q in
  (if PyFloat.mant x <? 0 then "-" else "")
    ++ of_int (t / 10) ++ "." ++ of_int (t mod 10).

Definition is_digit (c : ascii) : bool :=
  let n := N_of_ascii c in ((48 <=? n) && (n <=? 57))%N.

(** A numeric string: one or more decimal digits. *)
Definition numeric (s : string) : bool :=
  negb (String.eqb s "") && forallb is_digit (list_ascii_of_string s).

Definition join (sep : string) (l : list string) : string :=
  String.concat sep l.

End PyStr.

(** ** JSON values and [json.dumps] *)

Module Json.

#[warnings="-register-all"]
Inductive json :=
| JNull
| JBool (b : bool)
| JInt (z : Z)
| JStr (s : string)
| JArr (l : list json)
| JObj (kvs : list (string * json)).

(** A dict is a [JObj]; these are its operations on the association
    list, which keeps the order of insertion as a Python dict does. *)
Definition dict := list (string * json).

Fixpoint dict_get (k : string) (d : dict) : option json :=
  match d with
  | [] => None
  | (k', v) :: d' => if String.eqb k k' then Some v else dict_get k d'
  end.

(** [d[k] = v]: an existing key keeps its place. *)
Fixpoint dict_set (k : string) (v : json) (d : dict) : dict :=
  match d with
  | [] => [(k, v)]
  | (k', v') :: d' =>
      if String.eqb k k' then (k, v) :: d' else (k', v') :: dict_set k v d'
  end.

(** [d.update(u)] *)
Definition dict_update (d u : dict) : dict :=
  fold_left (fun acc kv => dict_set (fst kv) (snd kv) acc) u d.

Definition hex_digit (n : N) : ascii :=
  ascii_of_N (if (n <? 10)%N then 48 + n else 87 + n)%N.

(** One character of a string under [ensure_ascii=True]: the quote and
    the backslash are escaped, the characters from space to tilde are
    kept, the others become a short escape or [\u00XX]. *)
Definition escape_char (c : ascii) : string :=
  let n := N_of_ascii c in
  if (n =? 34)%N then String PyStr.backslash (String PyStr.dquote "")
  else if (n =? 92)%N then String PyStr.backslash (String PyStr.backslash "")
  else if (n =? 10)%N then String PyStr.backslash "n"
  else if (n =? 13)%N then String PyStr.backslash "r"
  else if (n =? 9)%N then String PyStr.backslash "t"
  else if (n =? 8)%N then String PyStr.backslash "b"
  else if (n =? 12)%N then String PyStr.backslash "f"
  else if ((32 <=? n) && (n <=? 126))%N then String c ""
  else String PyStr.backslash
         ("u00" ++ String (hex_digit (n / 16)) (String (hex_digit (n mod 16)) "")).

Fixpoint escape (s : string) : string :=
  match s with
  | EmptyString => ""
  | String c s' => escape_char c ++ escape s'
  end.

Definition dumps_str (s : string) : string := PyStr.quoted (escape s).

(** [json.dumps(v)] with the default separators. *)
Fixpoint dumps (v : json) : string :=
  match v with
  | JNull => "null"
  | JBool true => "true"
  | JBool false => "false"
  | JInt z => PyStr.of_int z
  | JStr s => dumps_str s
  | JArr l => "[" ++ PyStr.join ", " (map dumps l) ++ "]"
  | JObj kvs =>
      "{" ++ PyStr.join ", "
               (map (fun kv => dumps_str (fst kv) ++ ": " ++ dumps (snd kv)) kvs)
          ++ "}"
  end.

End Json.

(** ** The outside world and the state of the runner *)

(** What [subprocess.run] does with the hook binary: it returns a
    completed process, or raises [subprocess.TimeoutExpired], or raises
    another [Exception] (carrying [str(e)]). *)
Inductive run_result :=
| Completed (returncode : Z) (stdout stderr : string)
| TimeoutExpired
| OtherException (msg : string).

Record environment := {
  (** [os.environ.get('USER')] *)
  env_user : option string;
  (** the [k]-th draw of the [random] module *)
  env_random : nat -> nat;
  (** the [k]-th run of the hook binary on a document with a timeout:
      what [subprocess.run] does and the seconds it takes *)
  env_hook : nat -> string -> Z -> run_result * PyFloat.float;
  (** the names matching [events.log*] in the log directory, when the
      directory exists *)
  env_log_files : option (list string)
}.

(** [self.results] *)
Record results_t := {
  events_processed : Z;
  errors : Z;
  timeouts : Z;
  latencies : list PyFloat.float;
  start_time : option PyFloat.float;
  end_time : option PyFloat.float
}.

Record state := {
  results : results_t;
  (** [self.running] *)
  running : bool;
  (** what [time.time()] returns *)
  now : PyFloat.float;
  (** how many random draws were made *)
  draws : nat;
  (** the documents passed to [subprocess.run] as the standard input of
      the hook binary, oldest first *)
  spawned : list string;
  (** what was printed, oldest first *)
  console : list string
}.

Definition set_results (f : results_t -> results_t) (s : state) : state :=
  {| results := f (results s); running := running s; now := now s;
     draws := draws s; spawned := spawned s; console := console s |}.

Definition set_running (b : bool) (s : state) : state :=
  {| results := results s; running := b; now := now s;
     draws := draws s; spawned := spawned s; console := console s |}.

Definition set_now (t : PyFloat.float) (s : state) : state :=
  {| results := results s; running := running s; now := t;
     draws := draws s; spawned := spawned s; console := console s |}.

Definition set_draws (n : nat) (s : state) : state :=
  {| results := results s; running := running s; now := now s;
     draws := n; spawned := spawned s; console := console s |}.

Definition set_spawned (l : list string) (s : state) : state :=
  {| results := results s; running := running s; now := now s;
     draws := draws s; spawned := l; console := console s |}.

Definition set_console (l : list string) (s : state) : state :=
  {| results := results s; running := running s; now := now s;
     draws := draws s; spawned := spawned s; console := l |}.

Definition incr_events_processed (r : results_t) : results_t :=
  {| events_processed := events_processed r + 1; errors := errors r;
     timeouts := timeouts r; latencies := latencies r;
     start_time := start_time r; end_time := end_time r |}.

Definition incr_errors (r : results_t) : results_t :=
  {| events_processed := events_processed r; errors := errors r + 1;
     timeouts := timeouts r; latencies := latencies r;
     start_time := start_time r; end_time := end_time r |}.

Definition incr_timeouts (r : results_t) : results_t :=
  {| events_processed := events_processed r; errors := errors r;
     timeouts := timeouts r + 1; latencies := latencies r;
     start_time := start_time r; end_time := end_time r |}.

Definition append_latency (x : PyFloat.float) (r : results_t) : results_t :=
  {| events_processed := events_processed r; errors := errors r;
     timeouts := timeouts r; latencies := latencies r ++ [x];
     start_time := start_time r; end_time := end_time r |}.

Definition set_start_time (t : PyFloat.float) (r : results_t) : results_t :=
  {| events_processed := events_processed r; errors := errors r;
     timeouts := timeouts r; latencies := latencies r;
     start_time := Some t; end_time := end_time r |}.

Definition set_end_time (t : PyFloat.float) (r : results_t) : results_t :=
  {| events_processed := events_processed r; errors := errors r;
     timeouts := timeouts r; latencies := latencies r;
     start_time := start_time r; end_time := Some t |}.

(** [StressTestRunner.__init__] *)
Definition init_results : results_t :=
  {| events_processed := 0; errors := 0; timeouts := 0; latencies := [];
     start_time := None; end_time := None |}.

Definition init (t : PyFloat.float) : state :=
  {| results := init_results; running := true; now := t; draws := 0%nat;
     spawned := []; console := [] |}.

(** ** The state monad *)

Definition M (A : Type) : Type := state -> A * state.

Definition ret {A} (a : A) : M A := fun s => (a, s).

Definition bind {A B} (c : M A) (k : A -> M B) : M B :=
  fun s => let (a, s') := c s in k a s'.

Declare Scope monad_scope.
Delimit Scope monad_scope with monad.
Notation "x <- c ;; k" := (bind c (fun x => k))
  (at level 61, c at next level, right associativity) : monad_scope.
Notation "' p <- c ;; k" := (bind c (fun x => match x with p => k end))
  (at level 61, p pattern, c at next level, right associativity) : monad_scope.
Notation "c ;; k" := (bind c (fun _ => k))
  (at level 61, right associativity) : monad_scope.
Local Open Scope monad_scope.

Definition get {A} (f : state -> A) : M A := fun s => (f s, s).
Definition modify (f : state -> state) : M unit := fun s => (tt, f s).
Definition when (b : bool) (c : M unit) : M unit := if b then c else ret tt.

(** [for x in l: body x] *)
Fixpoint for_each {A} (l : list A) (body : A -> M unit) : M unit :=
  match l with
  | [] => ret tt
  | x :: l' => body x ;; for_each l' body
  end.

(** [range(n)] *)
Definition range (n : Z) : list Z := map Z.of_nat (seq 0 (Z.to_nat n)).

(** A Python number that is an [int] or a [float]. *)
Inductive number := Int (z : Z) | Float (x : PyFloat.float).

Definition to_float (n : number) : PyFloat.float :=
  match n with
  | Int z => PyFloat.of_int z
  | Float x => x
  end.

(** How a call of a test of the runner ends: it returns, or it raises, or
    it is still running when the turns or the fuel of the model are used
    up. *)
Inductive completion := Finished | Raised (msg : string) | Pending.

(** ** Threads

    A thread runs its loop one iteration at a time: [body j i] is the
    [i]-th evaluation of the loop of thread [j], and returns whether the
    loop goes on.  Every thread has its own clock, so that a sleep or a
    run of the hook binary in one thread takes no time in another.  A
    scheduler gives the order in which the threads take their turns. *)

Record thread := {
  th_clock : PyFloat.float;
  th_iter : nat;
  th_done : bool
}.

Definition spawn_thread (t : PyFloat.float) : thread :=
  {| th_clock := t; th_iter := 0%nat; th_done := false |}.

Fixpoint list_update {A} (j : nat) (x : A) (l : list A) : list A :=
  match l, j with
  | [], _ => []
  | _ :: l', O => x :: l'
  | y :: l', S j' => y :: list_update j' x l'
  end.

Definition finished (ths : list thread) : nat :=
  List.length (filter th_done ths).

(** [ThreadPoolExecutor(max_workers)]: the tasks get a worker thread in
    the order of their submission, the [j]-th one as soon as fewer than
    [max_workers] of the tasks before it are unfinished. *)
Definition has_worker (max_workers : nat) (ths : list thread) (j : nat)
  : bool :=
  (j <? max_workers + finished ths)%nat.

Definition step_thread (body : nat -> nat -> M bool) (j : nat)
  (ths : list thread) : M (list thread) :=
  match nth_error ths j with
  | Some th =>
      if th_done th then ret ths
      else
        modify (set_now (th_clock th)) ;;
        continue <- body j (th_iter th) ;;
        t <- get now ;;
        ret (list_update j
               {| th_clock := t; th_iter := S (th_iter th);
                  th_done := negb continue |} ths)
  | None => ret ths
  end.

(** Which thread takes the [k]-th turn, given the threads as they are. *)
Definition scheduler := nat -> list thread -> nat.

Fixpoint run_threads (body : nat -> nat -> M bool)
  (eligible : list thread -> nat -> bool) (sched : scheduler)
  (turns : nat) (k : nat) (ths : list thread) : M (list thread) :=
  match turns with
  | O => ret ths
  | S turns' =>
      let j := sched k ths in
      ths' <- (if eligible ths j then step_thread body j ths else ret ths) ;;
      run_threads body eligible sched turns' (S k) ths'
  end.

(** The scheduler that follows a list of thread numbers. *)
Definition by_list (l : list nat) : scheduler :=
  fun k _ => nth k l 0%nat.

(** The scheduler of a simulation in the order of time: the turn goes to
    the unfinished thread whose clock is the earliest, the first of them
    when several are. *)
Fixpoint earliest_from (j : nat) (ths : list thread)
  (best : option (nat * PyFloat.float)) : option (nat * PyFloat.float) :=
  match ths with
  | [] => best
  | th :: ths' =>
      earliest_from (S j) ths'
        (if th_done th then best
         else
           match best with
           | Some (_, t) =>
               if PyFloat.ltb (th_clock th) t
               then Some (j, th_clock th) else best
           | None => Some (j, th_clock th)
           end)
  end.

Definition in_time_order : scheduler :=
  fun _ ths =>
    match earliest_from 0 ths None with
    | Some (j, _) => j
    | None => 0%nat
    end.

Definition all_done (ths : list thread) : bool := forallb th_done ths.

(** The time at which the last of the threads has finished. *)
Definition join_time (t0 : PyFloat.float) (ths : list thread)
  : PyFloat.float :=
  fold_left (fun t th => PyFloat.max t (th_clock th)) ths t0.

(** What [send_event] accepts: a dict or a string. *)
Inductive event_data := Dict (d : Json.dict) | Str (s : string).

(** ** The runner *)

Import Json.

(** The closed set of event types. *)
Definition EVENT_TYPES : list string :=
  ["SessionStart"; "UserPromptSubmit"; "Notification";
   "Stop"; "SubagentStop"; "SessionEnd"].

Definition MODELS : list string :=
  ["claude-3.7-sonnet"; "claude-3-haiku"; "claude-3-opus"].

(** [not x] is false for a string argument that is given and not empty. *)
Definition given (x : option string) : option string :=
  match x with
  | Some s => if String.eqb s "" then None else Some s
  | None => None
  end.

(** The five malformed documents of [generate_malformed_event]. *)
Definition malformed_types : list string :=
  [ "{" ++ PyStr.quoted "invalid" ++ ": " ++ PyStr.quoted "json";
    "{" ++ PyStr.quoted "hook_event_name" ++ ": "
        ++ PyStr.quoted "InvalidEvent" ++ "}";
    "{" ++ PyStr.quoted "session_id" ++ ": " ++ PyStr.quoted "" ++ "}";
    dumps (JObj [("hook_event_name", JStr "SessionStart");
                 ("session_id", JStr (PyStr.repeat "x" 600000))]);
    "{}" ].

Section Runner.

Variable env : environment.

(** [time.time()] *)
Definition time_time : M PyFloat.float := get now.

(** [time.sleep(d)] *)
Definition sleep (d : PyFloat.float) : M unit :=
  modify (fun s => set_now (PyFloat.add (now s) d) s).

(** [print(line)] *)
Definition print (line : string) : M unit :=
  modify (fun s => set_console (console s ++ [line]) s).

Definition draw : M nat :=
  fun s => (env_random env (draws s), set_draws (S (draws s)) s).

(** [random.randint(a, b)] *)
Definition randint (a b : Z) : M Z :=
  k <- draw ;; ret (a + Z.of_nat k mod (b - a + 1)).

(** [random.choice(l)] for a list that is not empty. *)
Definition choice {A} (l : list A) (default : A) : M A :=
  k <- draw ;; ret (nth (k mod List.length l) l default).

(** [subprocess.run([self.hook_binary], input=json_data, text=True,
    capture_output=True, timeout=timeout)] *)
Definition subprocess_run (json_data : string) (timeout : Z) : M run_result :=
  fun s =>
    let (r, elapsed) := env_hook env (List.length (spawned s)) json_data timeout in
    (r, set_now (PyFloat.add (now s) elapsed)
          (set_spawned (spawned s ++ [json_data]) s)).

(** [generate_event] *)
Definition generate_event (session_id event_type : option string)
  : M dict :=
  session_id <-
    match given session_id with
    | Some sid => ret sid
    | None =>
        n <- randint 100000 999999 ;; ret ("sess_stress_" ++ PyStr.of_int n)
    end ;;
  event_type <-
    match given event_type with
    | Some ty => ret ty
    | None => choice EVENT_TYPES ""
    end ;;
  let username :=
    match env_user env with Some u => u | None => "testuser" end in
  t <- time_time ;;
  model <- choice MODELS "" ;;
  let timestamp :=
    PyStr.of_int (PyFloat.to_int (PyFloat.mul t (PyFloat.of_int 1000000))) in
  let data : dict :=
    [ ("transcript_path",
       JStr ("/Users/" ++ username ++ "/.claude/projects/stress-test-"
               ++ session_id ++ "/transcript.jsonl"));
      ("cwd",
       JStr ("/Users/" ++ username ++ "/projects/stress-test-" ++ session_id));
      ("model", JStr model) ] in
  data <-
    (if String.eqb event_type "UserPromptSubmit" then
       prompt_length <- randint 10 5000 ;;
       has_attachments <- choice [true; false] false ;;
       message_id <- randint 1000 9999 ;;
       ret (dict_update data
              [ ("prompt_length", JInt prompt_length);
                ("has_attachments", JBool has_attachments);
                ("message_id", JStr ("msg_" ++ PyStr.of_int message_id)) ])
     else if String.eqb event_type "Notification" then
       notification_type <-
         choice ["user_input_required"; "confirmation_required"] "" ;;
       ret (dict_update data
              [ ("notification_type", JStr notification_type);
                ("message", JStr "Test notification message");
                ("context", JStr "stress_test") ])
     else ret data) ;;
  ret [ ("hook_event_name", JStr event_type);
        ("session_id", JStr session_id);
        ("timestamp", JStr timestamp);
        ("data", JObj data) ].

(** [generate_malformed_event] *)
Definition generate_malformed_event : M string :=
  choice malformed_types "".

(** The document that [send_event] hands to the hook binary. *)
Definition json_data_of (event_data : event_data) : string :=
  match event_data with
  | Dict d => dumps (JObj d)
  | Str s => s
  end.

(** [send_event] *)
Definition send_event (event_data : event_data) (timeout : Z)
  : M (bool * number * string) :=
  start_time <- time_time ;;
  let json_data := json_data_of event_data in
  process <- subprocess_run json_data timeout ;;
  match process with
  | Completed returncode stdout stderr =>
      t <- time_time ;;
      let latency :=
        PyFloat.mul (PyFloat.sub t start_time) (PyFloat.of_int 1000) in
      if returncode =? 0 then
        modify (set_results incr_events_processed) ;;
        modify (set_results (append_latency latency)) ;;
        ret (true, Float latency, stdout)
      else
        modify (set_results incr_errors) ;;
        ret (false, Float latency, stderr)
  | TimeoutExpired =>
      modify (set_results incr_timeouts) ;;
      ret (false, Int (timeout * 1000), "Process timed out")
  | OtherException msg =>
      modify (set_results incr_errors) ;;
      ret (false, Int 0, msg)
  end.


(** [error_injection_test] *)
Definition error_scenarios : list (string * M string) :=
  [ ("Malformed JSON", generate_malformed_event);
    ("Oversized payload",
     ret (dumps (JObj [("x", JStr (PyStr.repeat "y" 700000))])));
    ("Empty input", ret "");
    ("Invalid event type",
     t <- time_time ;;
     ret (dumps (JObj [("hook_event_name", JStr "InvalidEvent");
                       ("session_id", JStr "sess_error_test");
                       ("timestamp",
                        JStr (PyStr.of_int (PyFloat.to_int t)))])));
    ("Missing session_id",
     t <- time_time ;;
     ret (dumps (JObj [("hook_event_name", JStr "SessionStart");
                       ("timestamp",
                        JStr (PyStr.of_int (PyFloat.to_int t)))]))) ].

Definition error_scenario (scenario : string * M string) : M unit :=
  let (test_name, generator) := scenario in
  print ("  Testing: " ++ test_name) ;;
  malformed_data <- generator ;;
  '(success, latency, output) <- send_event (Str malformed_data) 5 ;;
  if success : bool then
    print "    ⚠️  Expected failure but got success"
  else
    print ("    ✅ Failed as expected: " ++ PyStr.take 50 output).

Definition error_injection_test : M unit :=
  print "Starting error injection test..." ;;
  for_each error_scenarios error_scenario ;;
  print "✅ Error injection test completed".

(** [concurrent_sessions_test]: one evaluation of the loop of
    [session_worker] *)
Definition session_events : list string :=
  ["SessionStart"; "UserPromptSubmit"; "UserPromptSubmit";
   "Notification"; "UserPromptSubmit"; "Stop"].

Definition session_worker (events_per_session : Z) (session_id : string)
  (i : nat) : M bool :=
  if Z.of_nat i <? events_per_session then
    let event_type :=
      nth (i mod List.length session_events) session_events "" in
    event <- generate_event (Some session_id) (Some event_type) ;;
    '(success, latency, output) <- send_event (Dict event) 5 ;;
    when (negb success)
      (print ("    Session " ++ session_id ++ " event "
                ++ PyStr.of_int (Z.of_nat i) ++ " failed: "
                ++ PyStr.take 50 output)) ;;
    sleep PyFloat.lit_0_1 ;;
    ret true
  else ret false.

Definition concurrent_session_ids (num_sessions : Z) : list string :=
  map (fun i => "sess_concurrent_" ++ PyStr.of_int_02d i) (range num_sessions).

(** The default arguments of [concurrent_sessions_test]. *)
Definition DEFAULT_NUM_SESSIONS : Z := 8.
Definition DEFAULT_EVENTS_PER_SESSION : Z := 10.

Definition concurrent_sessions_test (sched : scheduler) (turns : nat)
  (num_sessions events_per_session : Z) : M completion :=
  print "Starting concurrent sessions test:" ;;
  print ("  Sessions: " ++ PyStr.of_int num_sessions) ;;
  print ("  Events per session: " ++ PyStr.of_int events_per_session) ;;
  if num_sessions <=? 0 then
    ret (Raised "max_workers must be greater than 0")
  else
    let session_ids := concurrent_session_ids num_sessions in
    t0 <- time_time ;;
    ths <- run_threads
             (fun j => session_worker events_per_session (nth j session_ids ""))
             (has_worker (Z.to_nat num_sessions))
             sched turns 0%nat
             (map (fun _ => spawn_thread t0) session_ids) ;;
    if all_done ths then
      modify (set_now (join_time t0 ths)) ;;
      print "✅ Concurrent sessions test completed" ;;
      ret Finished
    else ret Pending.

(** [performance_stress_test]: one evaluation of the loop of
    [event_sender].  The thread ends when the loop does, and also when
    the division or the sleep raises. *)
Definition event_sender (end_time : PyFloat.float) (events_per_second : Z)
  (session_pool : list string) : M bool :=
  t <- time_time ;;
  r <- get running ;;
  if PyFloat.ltb t end_time && r then
    session_id <- choice session_pool "" ;;
    event <- generate_event (Some session_id) None ;;
    '(success, latency, output) <- send_event (Dict event) 5 ;;
    when (negb success && negb (PyStr.contains "validation failed" output))
      (print ("⚠️  Event failed: " ++ PyStr.take 100 output)) ;;
    match PyFloat.div PyFloat.lit_1_0 (PyFloat.of_int events_per_second) with
    | Some d =>
        if PyFloat.ltb d PyFloat.zero then ret false
        else sleep d ;; ret true
    | None => ret false
    end
  else ret false.

(** The monitoring loop of the main thread.  A turn of it is the rest of
    an iteration after the sleep (none at the first turn), the test of
    the loop and, when the loop goes on, the sleep of the next iteration;
    when the loop ends the main thread clears [self.running]. *)
Definition report_progress : M unit :=
  t <- time_time ;;
  res <- get results ;;
  let elapsed :=
    PyFloat.sub t
      (match start_time res with Some t0 => t0 | None => PyFloat.zero end) in
  let rate :=
    if PyFloat.ltb PyFloat.zero elapsed then
      match PyFloat.div (PyFloat.of_int (events_processed res)) elapsed with
      | Some x => x
      | None => PyFloat.zero
      end
    else PyFloat.zero in
  print ("  Progress: " ++ PyStr.of_float_1f elapsed ++ "s, "
           ++ PyStr.of_int (events_processed res) ++ " events, "
           ++ PyStr.of_float_1f rate ++ " events/s").

Definition progress_monitor (end_time : PyFloat.float) (i : nat) : M bool :=
  when (0 <? i)%nat report_progress ;;
  t <- time_time ;;
  r <- get running ;;
  if PyFloat.ltb t end_time && r then
    sleep (PyFloat.of_int 5) ;;
    ret true
  else
    modify (set_running false) ;;
    ret false.

(** The number of concurrent [event_sender] threads. *)
Definition SENDERS : nat := 3.

Definition perf_session_pool : list string :=
  map (fun i => "sess_perf_" ++ PyStr.of_int i) (range 8).

(** [performance_stress_test]: the threads [0], [1] and [2] are the
    senders, the thread [3] is the main thread in its monitoring loop. *)
Definition performance_stress_test (sched : scheduler) (turns : nat)
  (duration_seconds events_per_second : Z) : M completion :=
  print "Starting performance stress test:" ;;
  print ("  Duration: " ++ PyStr.of_int duration_seconds ++ "s") ;;
  print ("  Target rate: " ++ PyStr.of_int events_per_second
           ++ " events/second") ;;
  print ("  Expected total: "
           ++ PyStr.of_int (duration_seconds * events_per_second)
           ++ " events") ;;
  t0 <- time_time ;;
  modify (set_results (set_start_time t0)) ;;
  let end_time := PyFloat.add t0 (PyFloat.of_int duration_seconds) in
  let session_pool := perf_session_pool in
  ths <- run_threads
           (fun j i =>
              if (j <? SENDERS)%nat
              then event_sender end_time events_per_second session_pool
              else progress_monitor end_time i)
           (fun ths j =>
              (j =? SENDERS)%nat
              || has_worker SENDERS (firstn SENDERS ths) j)
           sched turns 0%nat
           (List.repeat (spawn_thread t0) (S SENDERS)) ;;
  if all_done ths then
    modify (set_now (join_time t0 ths)) ;;
    t <- time_time ;;
    modify (set_results (set_end_time t)) ;;
    print "✅ Performance stress test completed" ;;
    ret Finished
  else ret Pending.

(** [resource_monitoring_test]: the loop, with fuel *)
Fixpoint resource_monitoring_loop (fuel : nat) (end_time : PyFloat.float)
  (session_pool : list string) : M completion :=
  match fuel with
  | O => ret Pending
  | S fuel' =>
      t <- time_time ;;
      r <- get running ;;
      if PyFloat.ltb t end_time && r then
        session_id <- choice session_pool "" ;;
        event <- generate_event (Some session_id) None ;;
        '(success, latency, output) <- send_event (Dict event) 5 ;;
        when (PyFloat.ltb (PyFloat.of_int 200) (to_float latency))
          (print ("    ⚠️  High latency: "
                    ++ PyStr.of_float_1f (to_float latency) ++ "ms")) ;;
        sleep PyFloat.lit_0_1 ;;
        resource_monitoring_loop fuel' end_time session_pool
      else ret Finished
  end.

Definition resource_monitoring_test (fuel : nat) (duration : Z)
  : M completion :=
  print ("Starting resource monitoring test for "
           ++ PyStr.of_int duration ++ "s...") ;;
  let session_pool :=
    map (fun i => "sess_monitor_" ++ PyStr.of_int i) (range 4) in
  t <- time_time ;;
  let end_time := PyFloat.add t (PyFloat.of_int duration) in
  c <- resource_monitoring_loop fuel end_time session_pool ;;
  match c with
  | Finished => print "✅ Resource monitoring test completed" ;; ret Finished
  | _ => ret c
  end.

(** [log_rotation_test]; the names of the log files are printed
    between single quotes, as [repr] prints a name that has no quote and
    no escape in it. *)
Definition with_large_field (event : dict) : dict :=
  match dict_get "data" event with
  | Some (JObj data) =>
      dict_set "data"
        (JObj (dict_set "large_field" (JStr (PyStr.repeat "x" 1000)) data))
        event
  | _ => event
  end.

Definition log_rotation_test : M unit :=
  print "Starting log rotation test..." ;;
  event <- generate_event None None ;;
  let large_event := with_large_field event in
  print "  Generating large volume of events to trigger rotation..." ;;
  for_each (range 100)
    (fun i =>
       send_event (Dict large_event) 5 ;;
       when (i mod 10 =? 0)
         (print ("    Sent " ++ PyStr.of_int i ++ " events..."))) ;;
  match env_log_files env with
  | Some log_files =>
      print ("  Found " ++ PyStr.of_int (Z.of_nat (List.length log_files))
               ++ " log files: ["
               ++ PyStr.join ", " (map (fun f => "'" ++ f ++ "'") log_files)
               ++ "]")
  | None => ret tt
  end ;;
  print "✅ Log rotation test completed".

(** [sorted(l)] for a list of floats *)
Fixpoint insert_sorted (x : PyFloat.float) (l : list PyFloat.float)
  : list PyFloat.float :=
  match l with
  | [] => [x]
  | y :: l' => if PyFloat.leb x y then x :: l else y :: insert_sorted x l'
  end.

Definition sorted (l : list PyFloat.float) : list PyFloat.float :=
  fold_right insert_sorted [] l.

(** [l[i]]: a negative index counts from the end; [None] is IndexError. *)
Definition py_index {A} (l : list A) (i : Z) : option A :=
  let n := Z.of_nat (List.length l) in
  let i' := if i <? 0 then i + n else i in
  if (0 <=? i') && (i' <? n) then nth_error l (Z.to_nat i') else None.

(** [sum(l)] for a list of floats, added from the left with one
    rounding for every addition *)
Definition sum (l : list PyFloat.float) : PyFloat.float :=
  fold_left PyFloat.add l (PyFloat.of_int 0).

(** [int(len(l) * 0.95)] *)
Definition p95_index (n : Z) : Z :=
  PyFloat.to_int (PyFloat.mul (PyFloat.of_int n) PyFloat.lit_0_95).

(** The three statistics of [print_results]; each [None] is the exception
    that its expression raises. *)
Definition duration_of (res : results_t) : option PyFloat.float :=
  match end_time res with
  | Some e =>
      if PyFloat.truthy e then
        match start_time res with
        | Some b => Some (PyFloat.sub e b)
        | None => None
        end
      else Some PyFloat.zero
  | None => Some PyFloat.zero
  end.

Definition avg_latency_of (res : results_t) : option PyFloat.float :=
  PyFloat.div (sum (latencies res))
    (PyFloat.of_int (Z.of_nat (List.length (latencies res)))).

Definition p95_latency_of (res : results_t) : option PyFloat.float :=
  py_index (sorted (latencies res))
    (p95_index (Z.of_nat (List.length (latencies res)))).

Definition newline : string := String "010"%char "".

(** [print_results] *)
Definition print_results : M completion :=
  res <- get results ;;
  match latencies res with
  | [] => print "No successful events processed" ;; ret Finished
  | _ :: _ =>
      match duration_of res with
      | None => ret (Raised "TypeError")
      | Some duration =>
      match avg_latency_of res with
      | None => ret (Raised "ZeroDivisionError")
      | Some avg_latency =>
      match p95_latency_of res with
      | None => ret (Raised "IndexError")
      | Some p95_latency =>
          print (newline ++ "📊 Test Results Summary:") ;;
          print ("  Duration: " ++ PyStr.of_float_1f duration ++ "s") ;;
          print ("  Events processed: "
                   ++ PyStr.of_int (events_processed res)) ;;
          print ("  Errors: " ++ PyStr.of_int (errors res)) ;;
          print ("  Timeouts: " ++ PyStr.of_int (timeouts res)) ;;
          print ("  Average latency: "
                   ++ PyStr.of_float_1f avg_latency ++ "ms") ;;
          print ("  P95 latency: " ++ PyStr.of_float_1f p95_latency ++ "ms") ;;
          when (PyFloat.ltb PyFloat.zero duration)
            (match PyFloat.div (PyFloat.of_int (events_processed res))
                     duration with
             | Some throughput =>
                 print ("  Throughput: " ++ PyStr.of_float_1f throughput
                          ++ " events/second")
             | None => ret tt
             end) ;;
          print (newline ++ "📈 Performance Assessment:") ;;
          (if PyFloat.ltb avg_latency (PyFloat.of_int 50) then
             print ("  ✅ Excellent average latency ("
                      ++ PyStr.of_float_1f avg_latency ++ "ms < 50ms)")
           else if PyFloat.ltb avg_latency (PyFloat.of_int 200) then
             print ("  ✅ Good average latency ("
                      ++ PyStr.of_float_1f avg_latency ++ "ms < 200ms)")
           else
             print ("  ⚠️  High average latency ("
                      ++ PyStr.of_float_1f avg_latency ++ "ms >= 200ms)")) ;;
          (if PyFloat.ltb p95_latency (PyFloat.of_int 200) then
             print ("  ✅ Good P95 latency ("
                      ++ PyStr.of_float_1f p95_latency ++ "ms < 200ms)")
           else
             print ("  ⚠️  High P95 latency ("
                      ++ PyStr.of_float_1f p95_latency ++ "ms >= 200ms)")) ;;
          ret Finished
      end end end
  end.

(** [c1] and then, if it returns, [c2]. *)
Definition and_then (c1 c2 : M completion) : M completion :=
  c <- c1 ;;
  match c with
  | Finished => c2
  | _ => ret c
  end.

(** [run_full_test_suite], when no interrupt signal arrives.  The
    scheduler and the turns are those of the threads of the second and
    the third test, the fuel is that of the loop of the fourth. *)
Definition run_full_test_suite (hook_binary : string)
  (sched : scheduler) (turns : nat)
  (monitoring_fuel : nat) : M completion :=
  print "🧪 Starting Irrlicht Hook Receiver Stress Test Suite" ;;
  print ("Hook binary: " ++ hook_binary) ;;
  print (PyStr.repeat "=" 60) ;;
  c <- and_then (error_injection_test ;; print "" ;; ret Finished)
      (and_then (and_then (concurrent_sessions_test sched turns
                              DEFAULT_NUM_SESSIONS DEFAULT_EVENTS_PER_SESSION)
                   (print "" ;; ret Finished))
      (and_then (and_then (performance_stress_test sched turns 30 10)
                   (print "" ;; ret Finished))
      (and_then (and_then (resource_monitoring_test monitoring_fuel 20)
                   (print "" ;; ret Finished))
                (log_rotation_test ;; print "" ;; ret Finished)))) ;;
  match c with
  | Pending => ret Pending
  | Finished => print_results
  | Raised msg =>
      c' <- print_results ;;
      match c' with
      | Finished => ret (Raised msg)
      | _ => ret c'
      end
  end.

End Runner.


(** ** The command line *)

(** The values of the option [--test]. *)
Inductive test_name :=
| Performance | Errors | Concurrent | Rotation | Monitoring | All.

(** The parsed arguments of [main]. *)
Record arguments := {
  arg_hook_binary : string;
  arg_test : test_name;
  arg_duration : Z;
  arg_rate : Z
}.

(** The defaults of the options. *)
Definition default_arguments : arguments :=
  {| arg_hook_binary := "./tools/irrlicht-hook/irrlicht-hook";
     arg_test := All; arg_duration := 30; arg_rate := 10 |}.

(** How [main] ends: with [sys.exit(status)], or as the test that it
    ran. *)
Inductive outcome := Exit (status : Z) | Ran (c : completion).

(** [main], for parsed arguments; [hook_exists] is
    [os.path.exists(args.hook_binary)], and the runner that [main] makes
    starts from the results of [__init__] at the time [t]. *)
Definition main (env : environment) (hook_exists : bool) (args : arguments)
  (sched : scheduler) (turns fuel : nat) (t : PyFloat.float)
  : outcome * state :=
  if negb hook_exists then
    (print ("❌ Hook binary not found: " ++ arg_hook_binary args) ;;
     print ("Build it with: cd tools/irrlicht-hook "
              ++ "&& go build -o irrlicht-hook .") ;;
     ret (Exit 1)) (init t)
  else
    (c <- match arg_test args with
          | All =>
              run_full_test_suite env (arg_hook_binary args) sched turns fuel
          | Performance =>
              and_then
                (performance_stress_test env sched turns
                   (arg_duration args) (arg_rate args))
                (print_results)
          | Errors => error_injection_test env ;; ret Finished
          | Concurrent =>
              concurrent_sessions_test env sched turns
                DEFAULT_NUM_SESSIONS DEFAULT_EVENTS_PER_SESSION
          | Rotation => log_rotation_test env ;; ret Finished
          | Monitoring =>
              and_then (resource_monitoring_test env fuel (arg_duration args))
                (print_results)
          end ;;
     ret (Ran c)) (init t).

(** * Vocabulary of the properties *)

Local Open Scope monad_scope.

Arguments send_event : simpl never.
Arguments generate_event : simpl never.
Arguments PyStr.repeat : simpl never.
Arguments PyStr.of_int : simpl never.
Arguments PyFloat.mul : simpl never.
Arguments PyFloat.to_int : simpl never.
Arguments PyFloat.of_int : simpl never.
Arguments Z.modulo : simpl never.
Arguments Nat.modulo : simpl never.

(** The state after the hook binary has run on a document. *)
Definition after_run (doc : string) (elapsed : PyFloat.float) (s : state)
  : state :=
  set_now (PyFloat.add (now s) elapsed) (set_spawned (spawned s ++ [doc]) s).

(** The latency, in milliseconds, that [send_event] measures for a run
    that took [elapsed] seconds. *)
Definition measured_latency (elapsed : PyFloat.float) (s : state)
  : PyFloat.float :=
  PyFloat.mul (PyFloat.sub (PyFloat.add (now s) elapsed) (now s))
    (PyFloat.of_int 1000).

(** The three counters of [self.results]. *)
Definition counters (s : state) : Z * Z * Z :=
  (events_processed (results s), errors (results s), timeouts (results s)).

(** [len(results['latencies']) == results['events_processed']] *)
Definition latencies_counted (s : state) : Prop :=
  Z.of_nat (List.length (latencies (results s)))
  = events_processed (results s).

(** A sequence of calls of [send_event], one after the other. *)
Fixpoint send_events (env : environment) (calls : list (event_data * Z))
  (s : state) : state :=
  match calls with
  | [] => s
  | (ed, timeout) :: calls' =>
      send_events env calls' (snd (send_event env ed timeout s))
  end.

(** The reading of C1 as it is written: the hook binary gave an exit
    code, and the call is a success or a failure by that code alone. *)
Definition classified_by_exit_code (env : environment) (ed : event_data)
  (timeout : Z) (s : state) : Prop :=
  exists returncode stdout stderr elapsed,
    env_hook env (List.length (spawned s)) (json_data_of ed) timeout
    = (Completed returncode stdout stderr, elapsed)
    /\ let '(success, latency, output, s') := send_event env ed timeout s in
       (returncode = 0 ->
        success = true /\ output = stdout
        /\ events_processed (results s') = events_processed (results s) + 1)
       /\ (returncode <> 0 ->
           success = false /\ output = stderr
           /\ errors (results s') = errors (results s) + 1).

(** A hook binary that never answers within the timeout. *)
Definition hanging_hook : environment :=
  {| env_user := None;
     env_random := fun _ => 0%nat;
     env_hook := fun _ _ timeout => (TimeoutExpired, PyFloat.of_int timeout);
     env_log_files := None |}.

(** A hook binary that accepts every document at once. *)
Definition accepting_hook : environment :=
  {| env_user := None;
     env_random := fun _ => 0%nat;
     env_hook := fun _ _ _ => (Completed 0 "ok" "", PyFloat.zero);
     env_log_files := None |}.

(** [needle in hay] holds when [hay] is [needle] between two strings. *)
Definition substring_of (needle hay : string) : Prop :=
  exists a b, hay = a ++ needle ++ b.

(** The timestamp of an event generated at the time [t]:
    [f"{int(time.time() * 1000000)}"]. *)
Definition timestamp_of (t : PyFloat.float) : string :=
  PyStr.of_int (PyFloat.to_int (PyFloat.mul t (PyFloat.of_int 1000000))).

Definition has_key (k : string) (d : dict) : Prop :=
  exists v, dict_get k d = Some v.

(** The shape of an event, for a given condition on its event type. *)
Definition event_shaped (allowed : string -> Prop) (event : dict) : Prop :=
  exists event_type session_id timestamp data,
    dict_get "hook_event_name" event = Some (JStr event_type)
    /\ allowed event_type
    /\ dict_get "session_id" event = Some (JStr session_id)
    /\ session_id <> ""
    /\ dict_get "timestamp" event = Some (JStr timestamp)
    /\ PyStr.numeric timestamp = true
    /\ dict_get "data" event = Some (JObj data)
    /\ (event_type = "UserPromptSubmit" ->
        has_key "prompt_length" data /\ has_key "message_id" data)
    /\ (event_type = "Notification" ->
        has_key "notification_type" data /\ has_key "message" data).

(** The reading of C6 as it is written: the event type is in the closed
    set. *)
Definition event_as_claimed (event : dict) : Prop :=
  event_shaped (fun event_type => In event_type EVENT_TYPES) event.

(** The event type that [generate_event] uses: the argument when it is
    given and not empty, and one of the closed set otherwise. *)
Definition event_type_for (argument : option string) (event_type : string)
  : Prop :=
  match given argument with
  | Some ty => event_type = ty
  | None => In event_type EVENT_TYPES
  end.

(** The line with which [event_sender] escalates a failure. *)
Definition escalation (output : string) : string :=
  "⚠️  Event failed: " ++ PyStr.take 100 output.

(** A hook binary that rejects every document at once. *)
Definition rejecting_hook : environment :=
  {| env_user := None;
     env_random := fun _ => 0%nat;
     env_hook :=
       fun _ _ _ =>
         (Completed 1 "" "validation failed: unknown event type",
          PyFloat.zero);
     env_log_files := None |}.

(** The documents of the second, the fourth and the fifth scenario of
    [error_injection_test]; [t] is [int(time.time())]. *)
Definition oversized_payload : string :=
  dumps (JObj [("x", JStr (PyStr.repeat "y" 700000))]).

Definition invalid_type_event (t : Z) : dict :=
  [ ("hook_event_name", JStr "InvalidEvent");
    ("session_id", JStr "sess_error_test");
    ("timestamp", JStr (PyStr.of_int t)) ].

Definition missing_session_id_event (t : Z) : dict :=
  [ ("hook_event_name", JStr "SessionStart");
    ("timestamp", JStr (PyStr.of_int t)) ].

(** The two lines that [error_injection_test] prints for a scenario. *)
Definition scenario_report (test_name : string) (success : bool)
  (output : string) : list string :=
  [ "  Testing: " ++ test_name;
    if success then "    ⚠️  Expected failure but got success"
    else "    ✅ Failed as expected: " ++ PyStr.take 50 output ].

(** A generator of documents that hands nothing to the hook binary and
    prints nothing. *)
Definition quiet {A} (c : M A) : Prop :=
  forall s, spawned (snd (c s)) = spawned s /\ console (snd (c s)) = console s.

(** A computation that changes nothing of the state but the number of
    random draws. *)
Definition draws_only {A} (c : M A) : Prop :=
  forall s, snd (c s) = set_draws (draws (snd (c s))) s.

(** ** Vocabulary of the concurrent sessions test *)

(** The scheduler that runs the threads one after the other: the turn
    goes to the first thread that has not finished. *)
Fixpoint first_unfinished_from (j : nat) (ths : list thread) : nat :=
  match ths with
  | [] => j
  | th :: ths' =>
      if th_done th then first_unfinished_from (S j) ths' else j
  end.

Definition first_unfinished : scheduler :=
  fun _ ths => first_unfinished_from 0 ths.

(** An event sent by a worker, with the number of the worker. *)
Definition doc_of (p : nat * dict) : string := dumps (JObj (snd p)).

(** How many of the events were sent by the worker [j]. *)
Definition sent_by (j : nat) (sent : list (nat * dict)) : nat :=
  List.length (filter (fun p => Nat.eqb (fst p) j) sent).

(** A valid event of a session: the session id is that of the session
    and not empty, the event type is in the closed set, and the event has
    a timestamp and a data mapping. *)
Definition valid_event_of (session_id : string) (event : dict) : Prop :=
  session_id <> ""
  /\ dict_get "session_id" event = Some (JStr session_id)
  /\ (exists event_type,
         dict_get "hook_event_name" event = Some (JStr event_type)
         /\ In event_type EVENT_TYPES)
  /\ has_key "timestamp" event
  /\ has_key "data" event.

(** Reading a decimal numeral back. *)
Definition decode (s : string) : Z :=
  match NilEmpty.uint_of_string s with
  | Some d => Z.of_uint d
  | None => 0
  end.


(** The progress of a worker of [concurrent_sessions_test] that is to
    send [e] events: it has sent as many events as it has done
    iterations, and it is done after one more turn than it has events. *)
Definition worker_progress (e : nat) (sent : list (nat * dict)) (j : nat)
  (th : thread) : Prop :=
  sent_by j sent = Nat.min (th_iter th) e
  /\ if th_done th then th_iter th = S e else (th_iter th <= e)%nat.

Definition sent_total (e : nat) (ths : list thread) : nat :=
  list_sum (map (fun th => Nat.min (th_iter th) e) ths).

(** The turns that the workers still have to take. *)
Definition turns_left (e : nat) (ths : list thread) : nat :=
  list_sum (map (fun th => if th_done th then 0 else S e - th_iter th)%nat ths).

(** What holds of the pool of [concurrent_sessions_test] after any
    number of turns: [sent] are the events sent since the state [s0],
    each with the number of its worker. *)
Definition pool_inv (session_ids : list string) (e : nat) (s0 : state)
  (ths : list thread) (s : state) (sent : list (nat * dict)) : Prop :=
  List.length ths = List.length session_ids
  /\ spawned s = (spawned s0 ++ map doc_of sent)%list
  /\ (forall j th, nth_error ths j = Some th -> worker_progress e sent j th)
  /\ List.length sent = sent_total e ths
  /\ (forall p, In p sent ->
                valid_event_of (nth (fst p) session_ids "") (snd p)).

(** The loop of the worker [j] of [concurrent_sessions_test]. *)
Definition worker_body (env : environment) (events_per_session : Z)
  (session_ids : list string) (j : nat) : nat -> M bool :=
  session_worker env events_per_session (nth j session_ids "").

(** A hook binary that accepts every document after 1/128 of a
    second. *)
Definition quick_hook : environment :=
  {| env_user := None;
     env_random := fun k => k;
     env_hook := fun _ _ _ => (Completed 0 "" "", PyFloat.mk 1 (-7));
     env_log_files := None |}.


(** ** What a test does to the state

    The runner changes its state by steps: it prints a line, the clock
    moves, random numbers are drawn, or it does one of four actions: it
    sends an event, it clears [self.running], it sets [start_time], or
    it sets [end_time] (which the code does only once [start_time] is
    set).  [A] tells which actions a computation may do. *)
Inductive action :=
| Send (ed : event_data)
| Stop
| SetStart
| SetEnd.

Inductive step (env : environment) (A : action -> Prop)
  : state -> state -> Prop :=
| step_print line s : step env A s (set_console (console s ++ [line]) s)
| step_clock t s : step env A s (set_now t s)
| step_draw n s : step env A s (set_draws n s)
| step_stop s : A Stop -> step env A s (set_running false s)
| step_start t s :
    A SetStart -> step env A s (set_results (set_start_time t) s)
| step_end t s :
    A SetEnd -> start_time (results s) <> None ->
    step env A s (set_results (set_end_time t) s)
| step_send ed timeout s :
    A (Send ed) -> step env A s (snd (send_event env ed timeout s)).

Inductive run (env : environment) (A : action -> Prop)
  : state -> state -> Prop :=
| run_refl s : run env A s s
| run_step s s' s'' : run env A s s' -> step env A s' s'' -> run env A s s''.

(** The computation [c] changes the state by steps only, and what it
    returns satisfies [Q]. *)
Definition yields {B} (env : environment) (A : action -> Prop)
  (Q : B -> Prop) (c : M B) : Prop :=
  forall s, run env A s (snd (c s)) /\ Q (fst (c s)).

Definition any {B} (b : B) : Prop := True.

(** No exception leaves the test: it returns, or it is still running
    when the turns or the fuel end. *)
Definition returns (c : completion) : Prop :=
  forall message, c <> Raised message.

(** The actions of a test that only sends events, all of them in [P]. *)
Definition sends (P : event_data -> Prop) (a : action) : Prop :=
  match a with
  | Send ed => P ed
  | _ => False
  end.

(** The actions of the threads of the performance stress test: the
    senders send events, the monitoring loop clears [self.running]. *)
Definition stopping (P : event_data -> Prop) (a : action) : Prop :=
  match a with
  | Send ed => P ed
  | Stop => True
  | _ => False
  end.

(** The actions of the performance stress test, which also sets the
    times. *)
Definition timed (P : event_data -> Prop) (a : action) : Prop :=
  match a with
  | Send ed => P ed
  | _ => True
  end.

(** ** Vocabulary of the generated events *)

(** The data that every generated event has. *)
Definition base_data (username session_id model : string) : dict :=
  [ ("transcript_path",
     JStr ("/Users/" ++ username ++ "/.claude/projects/stress-test-"
             ++ session_id ++ "/transcript.jsonl"));
    ("cwd",
     JStr ("/Users/" ++ username ++ "/projects/stress-test-" ++ session_id));
    ("model", JStr model) ].

(** The data that is added for the event type. *)
Definition extra_data (event_type : string) (extra : dict) : Prop :=
  if String.eqb event_type "UserPromptSubmit" then
    exists prompt_length has_attachments message_id,
      extra = [ ("prompt_length", JInt prompt_length);
                ("has_attachments", JBool has_attachments);
                ("message_id", JStr ("msg_" ++ PyStr.of_int message_id)) ]
      /\ 10 <= prompt_length <= 5000 /\ 1000 <= message_id <= 9999
  else if String.eqb event_type "Notification" then
    exists notification_type,
      extra = [ ("notification_type", JStr notification_type);
                ("message", JStr "Test notification message");
                ("context", JStr "stress_test") ]
      /\ In notification_type
           ["user_input_required"; "confirmation_required"]
  else extra = [].

(** The session id that [generate_event] uses: the argument when it is
    given and not empty, and a random one otherwise. *)
Definition session_id_for (argument : option string) (session_id : string)
  : Prop :=
  match given argument with
  | Some sid => session_id = sid
  | None =>
      exists n,
        100000 <= n <= 999999 /\ session_id = "sess_stress_" ++ PyStr.of_int n
  end.

(** What [generate_event] makes of its arguments: any timestamp will
    do. *)
Definition generated (env : environment)
  (session_id event_type : option string) (event : dict) : Prop :=
  exists sid ty timestamp model extra,
    event = [ ("hook_event_name", JStr ty); ("session_id", JStr sid);
              ("timestamp", JStr timestamp);
              ("data",
               JObj (base_data
                       (match env_user env with
                        | Some u => u
                        | None => "testuser"
                        end) sid model ++ extra)) ]
    /\ session_id_for session_id sid
    /\ event_type_for event_type ty
    /\ In model MODELS
    /\ extra_data ty extra.

(** An event of one of the given sessions, valid as in the concurrent
    sessions test. *)
Definition valid_in (pool : string -> Prop) (ed : event_data) : Prop :=
  exists event sid, ed = Dict event /\ pool sid /\ valid_event_of sid event.

(** A session id that [generate_event] makes up. *)
Definition made_up (session_id : string) : Prop :=
  exists n,
    100000 <= n <= 999999 /\ session_id = "sess_stress_" ++ PyStr.of_int n.

(** A document as it is, as the error injection test sends it. *)
Definition is_text (ed : event_data) : Prop := exists doc, ed = Str doc.

(** What the tests of the suite send. *)
Definition harness_event (ed : event_data) : Prop :=
  is_text ed \/ valid_in (fun _ => True) ed.

(** The session ids of the resource monitoring test. *)
Definition monitor_session_pool : list string :=
  map (fun i => "sess_monitor_" ++ PyStr.of_int i) (range 4).

(** The field that [log_rotation_test] adds to the data of its event. *)
Definition large_field : string * json :=
  ("large_field", JStr (PyStr.repeat "x" 1000)).

(** ** Vocabulary of the invariants *)

(** [end_time] is set only when [start_time] is, so that their
    difference in [print_results] is defined. *)
Definition times_ordered (s : state) : Prop :=
  end_time (results s) <> None -> start_time (results s) <> None.

(** From [s0] to [s], every run of the hook binary has been counted
    once, as processed, as an error or as a timeout, and the list of
    latencies has grown by one for every event processed. *)
Definition accounted (s0 s : state) : Prop :=
  (events_processed (results s) - events_processed (results s0))
  + (errors (results s) - errors (results s0))
  + (timeouts (results s) - timeouts (results s0))
  = Z.of_nat (List.length (spawned s)) - Z.of_nat (List.length (spawned s0))
  /\ Z.of_nat (List.length (latencies (results s)))
     - Z.of_nat (List.length (latencies (results s0)))
     = events_processed (results s) - events_processed (results s0).

(** [l'] is [l] with more at its end. *)
Definition extends {B} (l l' : list B) : Prop :=
  exists more, l' = (l ++ more)%list.

(** From [s0] to [s] nothing is taken back: the lines printed, the
    documents handed to the hook binary and the latencies are still
    there, in their order, no counter is smaller, and [self.running] is
    not set again once it is cleared. *)
Definition grows (s0 s : state) : Prop :=
  extends (console s0) (console s)
  /\ extends (spawned s0) (spawned s)
  /\ extends (latencies (results s0)) (latencies (results s))
  /\ events_processed (results s0) <= events_processed (results s)
  /\ errors (results s0) <= errors (results s)
  /\ timeouts (results s0) <= timeouts (results s)
  /\ (running s0 = false -> running s = false).

(** [run_full_test_suite] with [test4] as its fourth test, in the place
    of [resource_monitoring_test]. *)
Definition run_full_test_suite_with (env : environment)
  (test4 : M completion) (hook_binary : string)
  (sched : scheduler) (turns : nat) : M completion :=
  print "🧪 Starting Irrlicht Hook Receiver Stress Test Suite" ;;
  print ("Hook binary: " ++ hook_binary) ;;
  print (PyStr.repeat "=" 60) ;;
  c <- and_then (error_injection_test env ;; print "" ;; ret Finished)
      (and_then (and_then (concurrent_sessions_test env sched turns
                              DEFAULT_NUM_SESSIONS DEFAULT_EVENTS_PER_SESSION)
                   (print "" ;; ret Finished))
      (and_then (and_then (performance_stress_test env sched turns 30 10)
                   (print "" ;; ret Finished))
      (and_then (and_then test4 (print "" ;; ret Finished))
                (log_rotation_test env ;; print "" ;; ret Finished)))) ;;
  match c with
  | Pending => ret Pending
  | Finished => print_results
  | Raised msg =>
      c' <- print_results ;;
      match c' with
      | Finished => ret (Raised msg)
      | _ => ret c'
      end
  end.

(** A hook binary that never accepts a document: no run of it ends with
    the exit code 0. *)
Definition never_accepts (env : environment) : Prop :=
  forall k doc timeout stdout stderr elapsed,
    env_hook env k doc timeout <> (Completed 0 stdout stderr, elapsed).

(** A list of floats in ascending order. *)
Fixpoint ascending (l : list PyFloat.float) : Prop :=
  match l with
  | [] => True
  | x :: l' => Forall (fun y => PyFloat.leb x y = true) l' /\ ascending l'
  end.

(** The lines of the summary of [print_results] when no time is set:
    the duration is 0.0s and there is no line for the throughput. *)
Definition summary_without_times (res : results_t)
  (avg p95 : PyFloat.float) : list string :=
  [ newline ++ "📊 Test Results Summary:";
    "  Duration: 0.0s";
    "  Events processed: " ++ PyStr.of_int (events_processed res);
    "  Errors: " ++ PyStr.of_int (errors res);
    "  Timeouts: " ++ PyStr.of_int (timeouts res);
    "  Average latency: " ++ PyStr.of_float_1f avg ++ "ms";
    "  P95 latency: " ++ PyStr.of_float_1f p95 ++ "ms";
    newline ++ "📈 Performance Assessment:";
    if PyFloat.ltb avg (PyFloat.of_int 50) then
      "  ✅ Excellent average latency (" ++ PyStr.of_float_1f avg
        ++ "ms < 50ms)"
    else if PyFloat.ltb avg (PyFloat.of_int 200) then
      "  ✅ Good average latency (" ++ PyStr.of_float_1f avg ++ "ms < 200ms)"
    else
      "  ⚠️  High average latency (" ++ PyStr.of_float_1f avg
        ++ "ms >= 200ms)";
    if PyFloat.ltb p95 (PyFloat.of_int 200) then
      "  ✅ Good P95 latency (" ++ PyStr.of_float_1f p95 ++ "ms < 200ms)"
    else
      "  ⚠️  High P95 latency (" ++ PyStr.of_float_1f p95 ++ "ms >= 200ms)" ].

(** ** Vocabulary of the malformed documents *)

(** The last character of a string. *)
Fixpoint last_char (s : string) : option ascii :=
  match s with
  | EmptyString => None
  | String c EmptyString => Some c
  | String _ s' => last_char s'
  end.

(** A document that [json.dumps] produces for some value: a well-formed
    JSON text. *)
Definition serialized (doc : string) : Prop := exists v, doc = dumps v.

(** The first of the documents of [generate_malformed_event]: the
    serialization of an object, cut before its closing brace. *)
Definition truncated_json : string :=
  "{" ++ PyStr.quoted "invalid" ++ ": " ++ PyStr.quoted "json".

(** The fourth of them: an event whose session id is the letter [x]
    600000 times. *)
Definition oversized_session_event : dict :=
  [ ("hook_event_name", JStr "SessionStart");
    ("session_id", JStr (PyStr.repeat "x" 600000)) ].

(** An environment whose random draws are all [k]. *)
Definition drawing (k : nat) (env : environment) : environment :=
  {| env_user := env_user env;
     env_random := fun _ => k;
     env_hook := env_hook env;
     env_log_files := env_log_files env |}.

(** The time that the hook binary takes on the document [doc], when it
    is the run number [k] and the timeout is that of [send_event]. *)
Definition elapsed_on (env : environment) (k : nat) (doc : string)
  : PyFloat.float :=
  snd (env_hook env k doc 5).

(** ** Vocabulary of the rounds of the workers *)

(** The scheduler of the turns in rounds: the [n] workers one after the
    other, again and again. *)
Definition in_rounds (n : nat) : scheduler := fun k _ => (k mod n)%nat.

(** The [n] workers in the round [R], when the first [j] of them have
    taken their turn of the round: none has finished, and a worker has
    done one iteration for every turn that it has taken. *)
Definition round_state (n R j : nat) (ths : list thread) : Prop :=
  List.length ths = n
  /\ forall i th,
      nth_error ths i = Some th ->
      th_done th = false
      /\ th_iter th = if (i <? j)%nat then S R else R.

(** The workers in the round after their last event, in which they
    leave their loops: the first [j] of them have finished. *)
Definition last_round_state (n e j : nat) (ths : list thread) : Prop :=
  List.length ths = n
  /\ forall i th,
      nth_error ths i = Some th ->
      th_done th = (i <? j)%nat
      /\ th_iter th = if (i <? j)%nat then S e else e.

(** * Properties *)

(** ** [send_event] *)

Lemma send_event_unfold env ed timeout s :
  send_event env ed timeout s =
  let doc := json_data_of ed in
  let (r, elapsed) := env_hook env (List.length (spawned s)) doc timeout in
  let s1 := after_run doc elapsed s in
  match r with
  | Completed returncode stdout stderr =>
      let latency := measured_latency elapsed s in
      if returncode =? 0 then
        ((true, Float latency, stdout),
         set_results (append_latency latency)
           (set_results incr_events_processed s1))
      else ((false, Float latency, stderr), set_results incr_errors s1)
  | TimeoutExpired =>
      ((false, Int (timeout * 1000), "Process timed out"),
       set_results incr_timeouts s1)
  | OtherException msg =>
      ((false, Int 0, msg), set_results incr_errors s1)
  end.
Proof.
  unfold send_event, bind, time_time, get, subprocess_run, modify, ret.
  cbn zeta.
  destruct (env_hook env (List.length (spawned s)) (json_data_of ed) timeout)
    as [r elapsed].
  destruct r as [returncode stdout stderr | | msg]; try reflexivity.
  destruct (returncode =? 0); reflexivity.
Qed.

Lemma send_event_counters env ed timeout s :
  let s' := snd (send_event env ed timeout s) in
  let '(p, e, t) := counters s in
  (counters s' = (p + 1, e, t)
   /\ List.length (latencies (results s'))
      = S (List.length (latencies (results s))))
  \/ ((counters s' = (p, e + 1, t) \/ counters s' = (p, e, t + 1))
      /\ latencies (results s') = latencies (results s)).
Proof.
  rewrite send_event_unfold. cbn zeta.
  destruct (env_hook env _ _ _) as [r elapsed].
  destruct r as [returncode stdout stderr | | msg]; cbn.
  - destruct (returncode =? 0); cbn.
    + left. split; [reflexivity|].
      rewrite length_app. cbn. lia.
    + right. split; [left|]; reflexivity.
  - right. split; [right|]; reflexivity.
  - right. split; [left|]; reflexivity.
Qed.

Lemma send_event_latencies_counted env ed timeout s :
  latencies_counted s ->
  latencies_counted (snd (send_event env ed timeout s)).
Proof.
  unfold latencies_counted. intros H.
  pose proof (send_event_counters env ed timeout s) as C.
  cbn zeta in C. unfold counters in C.
  destruct C as [[C L] | [[C | C] L]]; injection C as C1 C2 C3.
  - rewrite L, C1. lia.
  - rewrite L, C1. exact H.
  - rewrite L, C1. exact H.
Qed.

(** C9.  Every call of [send_event] adds one to exactly one of the
    counters [events_processed], [errors] and [timeouts] and leaves the
    other two as they are; one latency is appended when the call is
    counted in [events_processed] and none otherwise; so, from the
    results that [__init__] sets up, the length of [latencies] equals
    [events_processed] after every sequence of calls. *)
Theorem send_event_counts_once :
  forall env ed timeout s,
    let s' := snd (send_event env ed timeout s) in
    ((counters s'
      = (events_processed (results s) + 1, errors (results s),
         timeouts (results s))
      /\ List.length (latencies (results s'))
         = S (List.length (latencies (results s))))
     \/ ((counters s'
          = (events_processed (results s), errors (results s) + 1,
             timeouts (results s))
          \/ counters s'
             = (events_processed (results s), errors (results s),
                timeouts (results s) + 1))
         /\ latencies (results s') = latencies (results s)))
    /\ forall t calls, latencies_counted (send_events env calls (init t)).
Proof.
  intros env ed timeout s s'. split.
  - exact (send_event_counters env ed timeout s).
  - intros t calls.
    assert (G : forall s0, latencies_counted s0 ->
                           latencies_counted (send_events env calls s0)).
    { induction calls as [| [ed' timeout'] calls IH]; intros s0 H0; cbn.
      - exact H0.
      - apply IH. apply send_event_latencies_counted. exact H0. }
    apply G. reflexivity.
Qed.

(** C8.  [send_event] returns a triple on every dict and every string,
    whatever the hook binary does.  When [subprocess.run] raises
    [TimeoutExpired] the call is a failure with latency [timeout * 1000]
    and output ['Process timed out'], counted in [timeouts] and not in
    [errors]; when it raises another exception the call is a failure with
    latency [0] and the message of the exception as output, counted in
    [errors]. *)
Theorem send_event_total :
  forall env ed timeout s,
  exists success latency output s',
    send_event env ed timeout s = ((success, latency, output), s')
    /\ match fst (env_hook env (List.length (spawned s)) (json_data_of ed)
                    timeout) with
       | Completed _ _ _ => True
       | TimeoutExpired =>
           success = false /\ latency = Int (timeout * 1000)
           /\ output = "Process timed out"
           /\ counters s'
              = (events_processed (results s), errors (results s),
                 timeouts (results s) + 1)
           /\ latencies (results s') = latencies (results s)
       | OtherException msg =>
           success = false /\ latency = Int 0 /\ output = msg
           /\ counters s'
              = (events_processed (results s), errors (results s) + 1,
                 timeouts (results s))
           /\ latencies (results s') = latencies (results s)
       end.
Proof.
  intros env ed timeout s.
  rewrite send_event_unfold. cbn zeta.
  destruct (env_hook env _ _ _) as [r elapsed].
  destruct r as [returncode stdout stderr | | msg]; cbn [fst].
  - destruct (returncode =? 0); do 4 eexists; split; reflexivity || exact I.
  - do 4 eexists. split; [reflexivity|]. repeat split.
  - do 4 eexists. split; [reflexivity|]. repeat split.
Qed.

Lemma of_int_not_empty z : PyStr.of_int z <> "".
Proof.
  unfold PyStr.of_int.
  destruct (Z.to_int z) as [d | d]; cbn.
  - destruct d; discriminate.
  - discriminate.
Qed.

Lemma dumps_not_empty v : dumps v <> "".
Proof.
  destruct v as [| [|] | z | s | l | kvs]; cbn; try discriminate.
  apply of_int_not_empty.
Qed.

(** C1, as it is written, fails.  With a hook binary that does not
    answer in time the call on the empty string is a failure that no
    exit code classifies: it is counted in [timeouts], [errors] stays at
    zero and the output is not the standard error of the process.  The
    document handed over is the empty string, which is not the
    serialization of any JSON value. *)
Lemma send_event_timeout_not_by_exit_code :
  ~ classified_by_exit_code hanging_hook (Str "") 5 (init PyFloat.zero)
  /\ (let '(success, latency, output, s') :=
        send_event hanging_hook (Str "") 5 (init PyFloat.zero) in
      success = false /\ latency = Int 5000
      /\ output = "Process timed out"
      /\ errors (results s') = 0 /\ timeouts (results s') = 1
      /\ spawned s' = [""])
  /\ forall v, dumps v <> "".
Proof.
  split; [| split].
  - intros (returncode & stdout & stderr & elapsed & H & _).
    cbn in H. discriminate H.
  - vm_compute. repeat split.
  - exact dumps_not_empty.
Qed.

(** C1, amended.  When [subprocess.run] returns, that is, when it raises
    neither [TimeoutExpired] nor another exception, [send_event] has
    handed exactly one document to the hook binary, the serialization by
    [json.dumps] of a dict and a string as it is, and the exit code alone
    decides the outcome.  Exit code zero: success, [events_processed]
    plus one, the measured latency appended to [latencies], the standard
    output as output.  Any other exit code: failure, [errors] plus one,
    the standard error as output. *)
Theorem send_event_by_exit_code :
  forall env ed timeout s returncode stdout stderr elapsed,
    env_hook env (List.length (spawned s)) (json_data_of ed) timeout
    = (Completed returncode stdout stderr, elapsed) ->
    let '(success, latency, output, s') := send_event env ed timeout s in
    spawned s' = (spawned s ++ [json_data_of ed])%list
    /\ (forall d, ed = Dict d -> json_data_of ed = dumps (JObj d))
    /\ (forall doc, ed = Str doc -> json_data_of ed = doc)
    /\ latency = Float (measured_latency elapsed s)
    /\ (returncode = 0 ->
        success = true /\ output = stdout
        /\ counters s'
           = (events_processed (results s) + 1, errors (results s),
              timeouts (results s))
        /\ latencies (results s')
           = (latencies (results s) ++ [measured_latency elapsed s])%list)
    /\ (returncode <> 0 ->
        success = false /\ output = stderr
        /\ counters s'
           = (events_processed (results s), errors (results s) + 1,
              timeouts (results s))
        /\ latencies (results s') = latencies (results s)).
Proof.
  intros env ed timeout s returncode stdout stderr elapsed H.
  rewrite send_event_unfold. cbn zeta. rewrite H.
  destruct (returncode =? 0) eqn:E;
    [apply Z.eqb_eq in E | apply Z.eqb_neq in E];
    (split; [reflexivity |]);
    (split; [intros d ->; reflexivity |]);
    (split; [intros doc ->; reflexivity |]);
    (split; [reflexivity |]);
    split; intros N; try contradiction; repeat split.
Qed.

(** An instance: a hook binary that accepts the document. *)
Lemma send_event_by_exit_code_witness :
  let '(success, latency, output, s') :=
    send_event accepting_hook (Str "{}") 5 (init PyFloat.zero) in
  spawned s' = ["{}"] /\ success = true /\ output = "ok"
  /\ counters s' = (1, 0, 0).
Proof.
  pose proof (send_event_by_exit_code accepting_hook (Str "{}") 5
                (init PyFloat.zero) 0 "ok" "" PyFloat.zero eq_refl) as H.
  destruct (send_event accepting_hook (Str "{}") 5 (init PyFloat.zero))
    as [[[success latency] output] s'].
  destruct H as (H1 & _ & _ & _ & H2 & _).
  destruct (H2 eq_refl) as (H3 & H4 & H5 & _).
  repeat split; assumption.
Defined.
(** ** Strings and serialization *)
Lemma length_append (a b : string) :
  String.length (a ++ b) = (String.length a + String.length b)%nat.
Proof. induction a as [| c a IH]; cbn; [reflexivity | now rewrite IH]. Qed.

Lemma append_assoc (a b c : string) : (a ++ b) ++ c = a ++ (b ++ c).
Proof. induction a as [| x a IH]; cbn; [reflexivity | now rewrite IH]. Qed.

Lemma prefix_iff (a b : string) :
  String.prefix a b = true <-> exists c, b = a ++ c.
Proof.
  revert b. induction a as [| x a IH]; intros b.
  - split; [intros _; now exists b | intros _; now destruct b].
  - destruct b as [| y b]; simpl.
    + split; [discriminate | intros [c H]; discriminate H].
    + destruct (Ascii.ascii_dec x y) as [-> | N].
      * rewrite IH. split; intros [c H]; exists c.
        -- now rewrite H.
        -- now injection H.
      * split; [discriminate | intros [c H]].
        injection H as H1 H2. congruence.
Qed.

Lemma contains_iff (needle hay : string) :
  PyStr.contains needle hay = true <-> substring_of needle hay.
Proof.
  unfold substring_of.
  induction hay as [| y hay IH]; cbn [PyStr.contains];
    rewrite orb_true_iff, prefix_iff.
  - split.
    + intros [[c H] | H]; [| discriminate H]. now exists "", c.
    + intros (a & b & H). left.
      destruct a; [now exists b | discriminate H].
  - rewrite IH. split.
    + intros [[c H] | (a & b & H)].
      * now exists "", c.
      * exists (String y a), b. cbn. now rewrite H.
    + intros (a & b & H). destruct a as [| x a].
      * left. now exists b.
      * right. injection H as _ H. now exists a, b.
Qed.

Lemma repeat_nat s n :
  0 <= n -> PyStr.repeat s n = Nat.iter (Z.to_nat n) (String.append s) "".
Proof.
  intros H. unfold PyStr.repeat.
  rewrite Zmisc.iter_nat_of_Z by exact H.
  rewrite Zabs2Nat.abs_nat_nonneg by exact H. reflexivity.
Qed.

Lemma len_repeat s n :
  0 <= n -> PyStr.len (PyStr.repeat s n) = n * PyStr.len s.
Proof.
  intros H. rewrite repeat_nat by exact H. unfold PyStr.len.
  rewrite <- (Z2Nat.id n) at 2 by exact H.
  induction (Z.to_nat n) as [| k IH].
  - reflexivity.
  - rewrite Nat.iter_succ, length_append, Nat2Z.inj_add, IH, Nat2Z.inj_succ.
    ring.
Qed.

Lemma escape_append a b : escape (a ++ b) = escape a ++ escape b.
Proof.
  induction a as [| x a IH]; cbn; [reflexivity |].
  now rewrite IH, append_assoc.
Qed.

(** A string of letters [x] or [y] is serialized as it is. *)
Lemma escape_repeat s n :
  0 <= n -> escape s = s -> escape (PyStr.repeat s n) = PyStr.repeat s n.
Proof.
  intros H E. rewrite repeat_nat by exact H.
  induction (Z.to_nat n) as [| k IH].
  - reflexivity.
  - now rewrite Nat.iter_succ, escape_append, E, IH.
Qed.

Lemma len_append a b : PyStr.len (a ++ b) = PyStr.len a + PyStr.len b.
Proof. unfold PyStr.len. rewrite length_append. lia. Qed.

Lemma len_quoted s : PyStr.len (PyStr.quoted s) = PyStr.len s + 2.
Proof.
  unfold PyStr.quoted, PyStr.len. cbn [String.length].
  rewrite length_append. cbn. lia.
Qed.

(** ** [random.choice] and [random.randint] *)
Lemma choice_In {A} env (l : list A) (d : A) s :
  l <> [] -> In (fst (choice env l d s)) l.
Proof.
  intros H. unfold choice, bind, draw, ret. cbn.
  apply nth_In. apply Nat.mod_upper_bound.
  destruct l; [congruence | discriminate].
Qed.

Lemma randint_range env a b s :
  a <= b -> a <= fst (randint env a b s) <= b.
Proof.
  intros H. unfold randint, bind, draw, ret. cbn.
  pose proof (Z.mod_pos_bound (Z.of_nat (env_random env (draws s)))
                (b - a + 1)). lia.
Qed.

Lemma last_char_append s c : last_char (s ++ String c "") = Some c.
Proof.
  induction s as [| x s IH]; [reflexivity |].
  cbn [append last_char]. rewrite IH.
  destruct (s ++ String c "") eqn:E; [| reflexivity].
  destruct s; discriminate E.
Qed.

Lemma of_int_first_char z :
  exists c rest,
    PyStr.of_int z = String c rest /\ c <> "{"%char.
Proof.
  unfold PyStr.of_int.
  destruct (Z.to_int z) as [d | d]; cbn.
  - destruct d; eexists _, _; (split; [reflexivity | discriminate]).
  - eexists _, _. split; [reflexivity | discriminate].
Qed.

(** No JSON value is serialized as the truncated object. *)
Lemma truncated_json_not_serialized : ~ serialized truncated_json.
Proof.
  intros [v H]. destruct v as [| [|] | z | s | l | kvs];
    try discriminate H.
  - destruct (of_int_first_char z) as (c & rest & E & N).
    cbn [dumps] in H. rewrite E in H. injection H as H _.
    apply N. symmetry. exact H.
  - cbn [dumps] in H. unfold truncated_json in H.
    cbn [append] in H. injection H as H.
    apply (f_equal last_char) in H.
    rewrite last_char_append in H. discriminate H.
Qed.

Lemma generate_malformed_event_draw env s :
  fst (generate_malformed_event env s)
  = nth (env_random env (draws s) mod 5)%nat malformed_types "".
Proof. reflexivity. Qed.

(** All but the first of the documents of [generate_malformed_event]
    are serializations of JSON objects. *)
Lemma malformed_types_serialized k :
  (1 <= k < 5)%nat -> serialized (nth k malformed_types "").
Proof.
  intros H. destruct k as [| [| [| [| [| k]]]]]; try lia.
  - exists (JObj [("hook_event_name", JStr "InvalidEvent")]). reflexivity.
  - exists (JObj [("session_id", JStr "")]). reflexivity.
  - exists (JObj oversized_session_event). reflexivity.
  - exists (JObj []). reflexivity.
Qed.

Lemma oversized_session_text :
  dumps (JObj oversized_session_event)
  = "{" ++ PyStr.quoted "hook_event_name" ++ ": "
        ++ PyStr.quoted "SessionStart" ++ ", "
        ++ PyStr.quoted "session_id" ++ ": "
        ++ PyStr.quoted (PyStr.repeat "x" 600000) ++ "}"
  /\ PyStr.len (dumps (JObj oversized_session_event)) = 600053.
Proof.
  assert (E : dumps (JObj oversized_session_event)
              = "{" ++ PyStr.quoted "hook_event_name" ++ ": "
                    ++ PyStr.quoted "SessionStart" ++ ", "
                    ++ PyStr.quoted "session_id" ++ ": "
                    ++ PyStr.quoted (PyStr.repeat "x" 600000) ++ "}").
  { unfold oversized_session_event.
    cbn [dumps map fst snd PyStr.join String.concat].
    unfold dumps_str. rewrite escape_repeat by (reflexivity || lia).
    cbn [escape escape_char].
    repeat rewrite append_assoc. reflexivity. }
  split; [exact E |]. rewrite E.
  repeat rewrite len_append. repeat rewrite len_quoted.
  rewrite len_repeat by lia. reflexivity.
Qed.

(** C7.  [generate_malformed_event] returns the document that the random
    draw picks among five, each of which it can return: a serialized
    object cut before its closing brace, which is no JSON text; the
    serialization of an event whose type [InvalidEvent] is not in the
    closed set; that of an event with the empty session id; that of an
    event whose session id is the letter [x] 600000 times; and the empty
    object.  The fourth is a JSON text of 600053 characters, in which
    the session id of 600000 characters stands as it is between its
    quotes. *)
Theorem generate_malformed_event_shapes :
  forall env s,
    let shapes :=
      [ truncated_json;
        dumps (JObj [("hook_event_name", JStr "InvalidEvent")]);
        dumps (JObj [("session_id", JStr "")]);
        dumps (JObj oversized_session_event);
        dumps (JObj []) ] in
    fst (generate_malformed_event env s)
    = nth (env_random env (draws s) mod 5)%nat shapes ""
    /\ (forall k, (k < 5)%nat ->
        fst (generate_malformed_event (drawing k env) s) = nth k shapes "")
    /\ truncated_json ++ "}" = dumps (JObj [("invalid", JStr "json")])
    /\ ~ serialized truncated_json
    /\ (forall k, (1 <= k < 5)%nat -> serialized (nth k shapes ""))
    /\ ~ In "InvalidEvent" EVENT_TYPES
    /\ dict_get "session_id" oversized_session_event
       = Some (JStr (PyStr.repeat "x" 600000))
    /\ PyStr.len (PyStr.repeat "x" 600000) = 600000
    /\ dumps (JObj oversized_session_event)
       = "{" ++ PyStr.quoted "hook_event_name" ++ ": "
             ++ PyStr.quoted "SessionStart" ++ ", "
             ++ PyStr.quoted "session_id" ++ ": "
             ++ PyStr.quoted (PyStr.repeat "x" 600000) ++ "}"
    /\ PyStr.len (dumps (JObj oversized_session_event)) = 600053.
Proof.
  intros env s shapes.
  assert (E : malformed_types = shapes) by reflexivity.
  split; [| split; [| split; [| split; [| split; [| split; [| split;
    [| split]]]]]]].
  - rewrite generate_malformed_event_draw, E. reflexivity.
  - intros k H. rewrite generate_malformed_event_draw, E.
    cbn [drawing env_random]. rewrite Nat.mod_small by exact H. reflexivity.
  - reflexivity.
  - exact truncated_json_not_serialized.
  - intros k H. rewrite <- E. exact (malformed_types_serialized k H).
  - cbn. intros H.
    repeat (destruct H as [H | H]; [discriminate H |]). exact H.
  - reflexivity.
  - rewrite len_repeat by lia. reflexivity.
  - exact oversized_session_text.
Qed.

(** ** [generate_event] *)

Lemma digits_of_uint d :
  forallb PyStr.is_digit (list_ascii_of_string (NilEmpty.string_of_uint d))
  = true.
Proof. induction d; cbn; try reflexivity; exact IHd. Qed.

Lemma numeric_of_int z : 0 <= z -> PyStr.numeric (PyStr.of_int z) = true.
Proof.
  intros H. unfold PyStr.of_int, PyStr.numeric.
  destruct z as [| p | p]; [reflexivity | | lia].
  cbn [Z.to_int NilZero.string_of_int NilZero.string_of_uint].
  pose proof (digits_of_uint (Pos.to_uint p)) as D.
  destruct (Pos.to_uint p); try reflexivity; cbn in D |- *; exact D.
Qed.

Lemma round_pos_nonneg p e : 0 <= p -> 0 <= PyFloat.mant (PyFloat.round_pos p e).
Proof.
  intros H. unfold PyFloat.round_pos.
  destruct (Z.log2 p <? 53); cbn; [exact H |].
  pose proof (Z.div_pos p (2 ^ (Z.log2 p - 52)) H) as Q.
  destruct (Z.log2 p - 52) as [| k | k] eqn:E.
  - specialize (Q ltac:(lia)). destruct (_ || _); lia.
  - specialize (Q ltac:(apply Z.pow_pos_nonneg; lia)).
    destruct (_ || _); lia.
  - cbn. rewrite Z.div_0_r. destruct (_ || _); lia.
Qed.

Lemma to_int_nonneg x : 0 <= PyFloat.mant x -> 0 <= PyFloat.to_int x.
Proof.
  intros H. unfold PyFloat.to_int.
  destruct (0 <=? PyFloat.expo x) eqn:E.
  - apply Z.leb_le in E. apply Z.mul_nonneg_nonneg; [exact H |].
    apply Z.pow_nonneg. lia.
  - apply Z.leb_gt in E. apply Z.quot_pos; [exact H |].
    apply Z.pow_pos_nonneg; lia.
Qed.

Lemma timestamp_numeric t :
  0 <= PyFloat.mant t -> PyStr.numeric (timestamp_of t) = true.
Proof.
  intros H. unfold timestamp_of. apply numeric_of_int, to_int_nonneg.
  unfold PyFloat.mul, PyFloat.round.
  change (PyFloat.mant (PyFloat.of_int 1000000)) with 1000000.
  destruct (PyFloat.mant t * 1000000 <? 0) eqn:E.
  - apply Z.ltb_lt in E. lia.
  - apply round_pos_nonneg. lia.
Qed.

Lemma given_not_empty x v : given x = Some v -> v <> "".
Proof.
  destruct x as [w |]; cbn; [| discriminate].
  destruct (String.eqb_spec w ""); [discriminate |].
  intros H. injection H as <-. assumption.
Qed.

(** What [generate_event] returns, field by field. *)

Lemma bind_run {A B} (c : M A) (k : A -> M B) s :
  bind c k s = k (fst (c s)) (snd (c s)).
Proof. unfold bind. destruct (c s). reflexivity. Qed.

Lemma dict_get_set k k' v d :
  dict_get k (dict_set k' v d)
  = if String.eqb k k' then Some v else dict_get k d.
Proof.
  induction d as [| [k0 v0] d IH]; cbn [dict_set dict_get].
  - destruct (String.eqb k k'); reflexivity.
  - destruct (String.eqb_spec k' k0) as [-> | N]; cbn [dict_get].
    + destruct (String.eqb k k0); reflexivity.
    + rewrite IH. destruct (String.eqb_spec k k0) as [-> | N0].
      * destruct (String.eqb_spec k0 k'); [congruence | reflexivity].
      * reflexivity.
Qed.

Lemma has_key_set k k' v d :
  k = k' \/ has_key k d -> has_key k (dict_set k' v d).
Proof.
  unfold has_key. rewrite dict_get_set.
  intros [-> | [w H]].
  - rewrite String.eqb_refl. now exists v.
  - destruct (String.eqb k k'); [now exists v | now exists w].
Qed.

(** The session id and the event type that [generate_event] settles
    on, and the time that it reads. *)
Lemma session_id_choice env session_id s :
  let c : M string :=
    match given session_id with
    | Some sid => ret sid
    | None =>
        n <- randint env 100000 999999 ;; ret ("sess_stress_" ++ PyStr.of_int n)
    end in
  now (snd (c s)) = now s /\ fst (c s) <> ""
  /\ (forall sid, given session_id = Some sid -> fst (c s) = sid).
Proof.
  pose proof (given_not_empty session_id) as G.
  destruct (given session_id) as [sid |]; cbn zeta.
  - split; [reflexivity | split; [now apply G |]].
    intros x H. now injection H.
  - rewrite bind_run. split; [reflexivity | split; [discriminate |]].
    intros x H. discriminate H.
Qed.

Lemma event_type_choice env event_type s :
  let c : M string :=
    match given event_type with
    | Some ty => ret ty
    | None => choice env EVENT_TYPES ""
    end in
  now (snd (c s)) = now s /\ event_type_for event_type (fst (c s)).
Proof.
  unfold event_type_for.
  destruct (given event_type) as [ty |]; cbn zeta.
  - split; reflexivity.
  - split; [reflexivity | apply choice_In; discriminate].
Qed.

Lemma generate_event_fields env session_id event_type s :
  exists sid ty data,
    fst (generate_event env session_id event_type s)
    = [ ("hook_event_name", JStr ty); ("session_id", JStr sid);
        ("timestamp", JStr (timestamp_of (now s))); ("data", JObj data) ]
    /\ event_type_for event_type ty
    /\ sid <> ""
    /\ (ty = "UserPromptSubmit" ->
        has_key "prompt_length" data /\ has_key "message_id" data)
    /\ (ty = "Notification" ->
        has_key "notification_type" data /\ has_key "message" data)
    /\ (forall x, given session_id = Some x -> sid = x).
Proof.
  unfold generate_event. rewrite !bind_run.
  pose proof (session_id_choice env session_id s) as H1. cbn zeta in H1.
  match type of H1 with now (snd ?r) = _ /\ _ => set (r1 := r) in * end.
  pose proof (event_type_choice env event_type (snd r1)) as H2.
  cbn zeta in H2.
  match type of H2 with now (snd ?r) = _ /\ _ => set (r2 := r) in * end.
  destruct H1 as (T1 & S1 & X1), H2 as [T2 A2].
  cbn [ret fst].
  do 3 eexists.
  split; [| split; [exact A2 | split; [exact S1 | split; [| split]]]].
  4: exact X1.
  - unfold timestamp_of, time_time, get. cbn [fst].
    rewrite T2, T1. reflexivity.
  - intros E. rewrite E. rewrite String.eqb_refl.
    rewrite !bind_run. cbn [ret fst]. unfold dict_update.
    cbn [fold_left fst snd].
    split; repeat (apply has_key_set; (now left) || right).
  - intros E. rewrite E.
    change ("Notification" =? "UserPromptSubmit")%string with false.
    rewrite String.eqb_refl.
    rewrite !bind_run. cbn [ret fst]. unfold dict_update.
    cbn [fold_left fst snd].
    split; repeat (apply has_key_set; (now left) || right).
Qed.

(** C6, as it is written, fails: [generate_event] does not check the
    event type that it is given.  Called with the type [InvalidEvent], as
    the fourth error scenario spells it, it returns an event of that
    type, which is not in the closed set. *)
Lemma generate_event_not_as_claimed :
  dict_get "hook_event_name"
    (fst (generate_event accepting_hook (Some "sess_1") (Some "InvalidEvent")
            (init (PyFloat.of_int 1700000000))))
  = Some (JStr "InvalidEvent")
  /\ ~ In "InvalidEvent" EVENT_TYPES
  /\ ~ event_as_claimed
         (fst (generate_event accepting_hook (Some "sess_1")
                 (Some "InvalidEvent") (init (PyFloat.of_int 1700000000)))).
Proof.
  assert (N : ~ In "InvalidEvent" EVENT_TYPES).
  { cbn. intros H.
    repeat (destruct H as [H | H]; [discriminate H |]). exact H. }
  split; [reflexivity | split; [exact N |]].
  intros (ty & sid & ts & data & H & A & _).
  vm_compute in H. injection H as <-. exact (N A).
Qed.

(** C6, amended.  With a clock that is not before the epoch, every
    event that [generate_event] returns has a [hook_event_name] that is
    the [event_type] argument when that is given and not empty, and one
    of the six members of the closed set otherwise (so it is in the
    closed set whenever the argument is); a [session_id] that is not
    empty; a [timestamp] that is the decimal numeral of the clock in
    microseconds; and a [data] mapping, which has [prompt_length] and
    [message_id] for a [UserPromptSubmit] and [notification_type] and
    [message] for a [Notification]. *)
Theorem generate_event_shape :
  forall env session_id event_type s,
    0 <= PyFloat.mant (now s) ->
    let event := fst (generate_event env session_id event_type s) in
    event_shaped (event_type_for event_type) event
    /\ dict_get "timestamp" event = Some (JStr (timestamp_of (now s)))
    /\ ((forall ty, given event_type = Some ty -> In ty EVENT_TYPES) ->
        event_as_claimed event).
Proof.
  intros env session_id event_type s T event.
  destruct (generate_event_fields env session_id event_type s)
    as (sid & ty & data & E & A & S & U & N & _).
  fold event in E.
  assert (G : forall allowed : string -> Prop,
             allowed ty -> event_shaped allowed event).
  { intros allowed H. exists ty, sid, (timestamp_of (now s)), data.
    rewrite E. repeat split; try reflexivity; try assumption.
    - apply timestamp_numeric, T.
    - apply U; assumption.
    - apply U; assumption.
    - apply N; assumption.
    - apply N; assumption. }
  split; [| split].
  - apply G, A.
  - rewrite E. reflexivity.
  - intros H. apply G. unfold event_type_for in A.
    destruct (given event_type) as [ty' |]; [| exact A].
    subst ty. apply H. reflexivity.
Qed.

(** An instance: no event type given, at a time after the epoch. *)
Lemma generate_event_shape_witness :
  event_as_claimed
    (fst (generate_event accepting_hook (Some "sess_1") None
            (init (PyFloat.of_int 1700000000)))).
Proof.
  apply (generate_event_shape accepting_hook (Some "sess_1") None
           (init (PyFloat.of_int 1700000000))).
  - vm_compute. discriminate.
  - intros ty H. discriminate H.
Defined.

(** ** What a call leaves as it is *)

Lemma choice_state {A} env (l : list A) d s :
  snd (choice env l d s) = set_draws (S (draws s)) s.
Proof. reflexivity. Qed.

(** [send_event] prints nothing, draws nothing, leaves [self.running]
    as it is and hands over one document. *)
Lemma send_event_frame env ed timeout s :
  let s' := snd (send_event env ed timeout s) in
  console s' = console s /\ draws s' = draws s /\ running s' = running s
  /\ spawned s' = (spawned s ++ [json_data_of ed])%list.
Proof.
  rewrite send_event_unfold. cbn zeta.
  destruct (env_hook env _ _ _) as [r elapsed].
  destruct r as [returncode stdout stderr | | msg];
    [destruct (returncode =? 0) | |]; cbn; repeat split.
Qed.

Lemma draws_only_ret {A} (a : A) : draws_only (ret a).
Proof. intros [? ? ? ? ? ?]. reflexivity. Qed.

Lemma draws_only_bind {A B} (c : M A) (k : A -> M B) :
  draws_only c -> (forall a, draws_only (k a)) -> draws_only (bind c k).
Proof.
  intros Hc Hk s. rewrite bind_run.
  rewrite (Hk (fst (c s)) (snd (c s))) at 1.
  rewrite (Hc s) at 2. reflexivity.
Qed.

Lemma draws_only_draw env : draws_only (draw env).
Proof. intros s. reflexivity. Qed.

Lemma draws_only_choice {A} env (l : list A) d : draws_only (choice env l d).
Proof.
  apply draws_only_bind; [apply draws_only_draw | intros; apply draws_only_ret].
Qed.

Lemma draws_only_randint env a b : draws_only (randint env a b).
Proof.
  apply draws_only_bind; [apply draws_only_draw | intros; apply draws_only_ret].
Qed.

Lemma draws_only_time_time : draws_only time_time.
Proof. intros [? ? ? ? ? ?]. reflexivity. Qed.

(** [generate_event] only draws random numbers. *)
Lemma generate_event_state env session_id event_type :
  draws_only (generate_event env session_id event_type).
Proof.
  unfold generate_event.
  repeat first
    [ apply draws_only_ret
    | apply draws_only_choice
    | apply draws_only_randint
    | apply draws_only_time_time
    | apply draws_only_bind; [| intros ?]
    | match goal with
      | |- draws_only (match ?x with Some _ => _ | None => _ end) =>
          destruct x
      | |- draws_only (if ?b then _ else _) => destruct b
      end ].
Qed.

(** ** [performance_stress_test]: the escalation of failures *)

Lemma app_one_neq {A} (l : list A) x : (l ++ [x])%list <> l.
Proof.
  intros H. apply (f_equal (@List.length A)) in H.
  rewrite length_app in H. cbn in H. lia.
Qed.

(** The end of an iteration of [event_sender], after the event is sent. *)
Lemma event_sender_end_console (b : bool) line events_per_second s :
  console
    (snd ((when b (print line) ;;
           match PyFloat.div PyFloat.lit_1_0
                   (PyFloat.of_int events_per_second) with
           | Some d =>
               if PyFloat.ltb d PyFloat.zero then ret false
               else sleep d ;; ret true
           | None => ret false
           end) s))
  = (console s ++ (if b then [line] else []))%list.
Proof.
  rewrite bind_run.
  assert (W : console (snd (when b (print line) s))
              = (console s ++ (if b then [line] else []))%list).
  { destruct b; cbn; [reflexivity | now rewrite app_nil_r]. }
  rewrite <- W.
  destruct (PyFloat.div _ _) as [d |]; [| reflexivity].
  destruct (PyFloat.ltb d PyFloat.zero); reflexivity.
Qed.

(** C2.  An iteration of the loop of [event_sender] prints the warning
    for the event that it has sent exactly when the submission failed and
    its output does not contain ["validation failed"]; otherwise it
    prints nothing. *)
Theorem event_sender_escalates :
  forall env end_time events_per_second session_pool s,
    PyFloat.ltb (now s) end_time && running s = true ->
    let '(session_id, s1) := choice env session_pool "" s in
    let '(event, s2) := generate_event env (Some session_id) None s1 in
    let '(success, latency, output, s3) := send_event env (Dict event) 5 s2 in
    let s' :=
      snd (event_sender env end_time events_per_second session_pool s) in
    (console s' = (console s ++ [escalation output])%list
     \/ console s' = console s)
    /\ (console s' = (console s ++ [escalation output])%list
        <-> success = false
            /\ ~ substring_of "validation failed" output).
Proof.
  intros env end_time events_per_second session_pool s H.
  unfold event_sender. rewrite bind_run, bind_run.
  change (fst (time_time s)) with (now s).
  change (snd (time_time s)) with s.
  change (fst (get running s)) with (running s).
  change (snd (get running s)) with s.
  rewrite H. rewrite bind_run.
  pose proof (choice_state env session_pool "" s) as E1.
  destruct (choice env session_pool "" s) as [session_id s1].
  cbn [fst snd] in E1 |- *.
  assert (C1 : console s1 = console s) by (rewrite E1; reflexivity).
  rewrite bind_run.
  pose proof (generate_event_state env (Some session_id) None s1) as E2.
  destruct (generate_event env (Some session_id) None s1) as [event s2].
  cbn [fst snd] in E2 |- *.
  assert (C2 : console s2 = console s1) by (rewrite E2; reflexivity).
  rewrite bind_run.
  pose proof (send_event_frame env (Dict event) 5 s2) as (C3 & _).
  destruct (send_event env (Dict event) 5 s2)
    as [[[success latency] output] s3].
  cbn [fst snd] in C3 |- *.
  fold (escalation output).
  rewrite event_sender_end_console.
  assert (C : console s3 = console s) by congruence.
  rewrite C, <- contains_iff.
  destruct success, (PyStr.contains "validation failed" output);
    cbn [negb andb].
  all: try (rewrite app_nil_r; split; [right; reflexivity |];
            split; [intros N; symmetry in N; apply app_one_neq in N;
                    contradiction
                   | intros [F G]; congruence]).
  split; [left; reflexivity |].
  split; [intros _; split; congruence | reflexivity].
Qed.

(** An instance: a hook binary that rejects the event. *)
Lemma event_sender_escalates_witness :
  let '(session_id, s1) :=
    choice rejecting_hook perf_session_pool "" (init PyFloat.zero) in
  let '(event, s2) :=
    generate_event rejecting_hook (Some session_id) None s1 in
  let '(success, latency, output, s3) :=
    send_event rejecting_hook (Dict event) 5 s2 in
  let s' :=
    snd (event_sender rejecting_hook (PyFloat.of_int 30) 10
           perf_session_pool (init PyFloat.zero)) in
  (console s' = (console (init PyFloat.zero) ++ [escalation output])%list
   \/ console s' = console (init PyFloat.zero))
  /\ (console s' = (console (init PyFloat.zero) ++ [escalation output])%list
      <-> success = false /\ ~ substring_of "validation failed" output).
Proof.
  apply (event_sender_escalates rejecting_hook (PyFloat.of_int 30) 10
           perf_session_pool (init PyFloat.zero)).
  reflexivity.
Defined.

(** ** [error_injection_test] *)


(** A scenario whose generator hands over no document and prints
    nothing sends the document that it generates and prints its two
    lines. *)
Lemma error_scenario_run env test_name (generator : M string) s :
  (forall s0, spawned (snd (generator s0)) = spawned s0
              /\ console (snd (generator s0)) = console s0) ->
  let s0 := snd (print ("  Testing: " ++ test_name) s) in
  let doc := fst (generator s0) in
  let '(success, latency, output, s1) :=
    send_event env (Str doc) 5 (snd (generator s0)) in
  let s' := snd (error_scenario env (test_name, generator) s) in
  spawned s' = (spawned s ++ [doc])%list
  /\ console s' = (console s ++ scenario_report test_name success output)%list.
Proof.
  intros G s0 doc.
  unfold error_scenario. rewrite bind_run. fold s0.
  rewrite bind_run. fold doc. rewrite bind_run.
  destruct (G s0) as [G1 G2].
  pose proof (send_event_frame env (Str doc) 5 (snd (generator s0)))
    as (F1 & _ & _ & F2).
  destruct (send_event env (Str doc) 5 (snd (generator s0)))
    as [[[success latency] output] s1].
  cbn [fst snd] in *.
  rewrite G1 in F2. rewrite G2 in F1.
  destruct success; cbn; rewrite F1, F2; cbn;
    rewrite <- app_assoc; split; reflexivity.
Qed.

Lemma error_scenarios_quiet env scenario :
  In scenario (error_scenarios env) -> quiet (snd scenario).
Proof.
  unfold error_scenarios. intros H.
  repeat (destruct H as [<- | H]; [intros s; split; reflexivity |]).
  destruct H.
Qed.

Lemma len_oversized_payload :
  oversized_payload
  = "{" ++ PyStr.quoted "x" ++ ": "
        ++ PyStr.quoted (PyStr.repeat "y" 700000) ++ "}"
  /\ PyStr.len oversized_payload = 700009.
Proof.
  assert (E : oversized_payload
              = "{" ++ PyStr.quoted "x" ++ ": "
                    ++ PyStr.quoted (PyStr.repeat "y" 700000) ++ "}").
  { unfold oversized_payload. cbn [dumps map fst snd PyStr.join String.concat].
    unfold dumps_str. rewrite escape_repeat by (reflexivity || lia).
    rewrite append_assoc. cbn [escape escape_char]. 
    repeat rewrite append_assoc. reflexivity. }
  split; [exact E |]. rewrite E.
  repeat rewrite len_append. repeat rewrite len_quoted.
  rewrite len_repeat by lia. reflexivity.
Qed.

Lemma error_scenario_spawned env scenario s :
  quiet (snd scenario) ->
  exists s0,
    spawned (snd (error_scenario env scenario s))
    = (spawned s ++ [fst (snd scenario s0)])%list.
Proof.
  destruct scenario as [test_name generator]. intros Q.
  pose proof (error_scenario_run env test_name generator s Q) as H.
  cbn zeta in H.
  destruct (send_event env _ _ _) as [[[success latency] output] s1].
  destruct H as [H _]. eexists. exact H.
Qed.

Lemma for_each_scenarios_spawned env l :
  (forall scenario, In scenario l -> quiet (snd scenario)) ->
  forall s,
  exists states,
    List.length states = List.length l
    /\ spawned (snd (for_each l (error_scenario env) s))
       = (spawned s
            ++ map (fun p => fst (snd (fst p) (snd p))) (combine l states))%list.
Proof.
  induction l as [| scenario l IH]; intros Q s.
  - exists []. split; [reflexivity |]. cbn. now rewrite app_nil_r.
  - cbn [for_each]. rewrite bind_run.
    destruct (error_scenario_spawned env scenario s) as [s0 H0].
    { apply Q. now left. }
    destruct (IH (fun sc H => Q sc (or_intror H))
                (snd (error_scenario env scenario s))) as (states & L & H).
    exists (s0 :: states). split; [cbn; now rewrite L |].
    rewrite H, H0, <- app_assoc. reflexivity.
Qed.

(** A scenario whose generator leaves the documents, the lines and the
    clock as they are: its document is sent, and the clock moves by the
    time that the hook binary takes. *)
Lemma error_scenario_effect env test_name (generator : M string) s :
  (forall s0, spawned (snd (generator s0)) = spawned s0
              /\ now (snd (generator s0)) = now s0) ->
  let s0 := snd (print ("  Testing: " ++ test_name) s) in
  let doc := fst (generator s0) in
  let s' := snd (error_scenario env (test_name, generator) s) in
  spawned s' = (spawned s ++ [doc])%list
  /\ now s' = PyFloat.add (now s) (elapsed_on env (List.length (spawned s)) doc)
  /\ draws s' = draws (snd (generator s0)).
Proof.
  intros G s0 doc.
  unfold error_scenario. rewrite bind_run. fold s0.
  rewrite bind_run. fold doc. rewrite bind_run.
  destruct (G s0) as [G1 G2].
  pose proof (send_event_frame env (Str doc) 5 (snd (generator s0)))
    as (_ & F1 & _ & F2).
  assert (F3 : now (snd (send_event env (Str doc) 5 (snd (generator s0))))
               = PyFloat.add (now (snd (generator s0)))
                   (snd (env_hook env
                           (List.length (spawned (snd (generator s0))))
                           (json_data_of (Str doc)) 5))).
  { rewrite send_event_unfold. cbn zeta.
    destruct (env_hook env _ _ _) as [r elapsed].
    destruct r as [returncode stdout stderr | | msg];
      [destruct (returncode =? 0) | |]; reflexivity. }
  destruct (send_event env (Str doc) 5 (snd (generator s0)))
    as [[[success latency] output] s1].
  cbn [fst snd json_data_of] in *.
  rewrite G1 in F2, F3. rewrite G2 in F3.
  unfold elapsed_on.
  destruct success; cbn [print modify snd spawned now draws set_console];
    rewrite F1, F2, F3; repeat split.
Qed.

(** The five documents of [error_injection_test]: what the random draw
    picks among the documents of [generate_malformed_event], the
    oversized payload, the empty string, and the two events with the
    time of their scenario, which is the time of the call and the time
    that the hook binary has taken on the documents before. *)
Lemma error_injection_test_documents env s :
  let k := List.length (spawned s) in
  let d1 := nth (env_random env (draws s) mod 5)%nat malformed_types "" in
  let t1 := PyFloat.add (now s) (elapsed_on env k d1) in
  let t2 := PyFloat.add t1 (elapsed_on env (k + 1) oversized_payload) in
  let t3 := PyFloat.add t2 (elapsed_on env (k + 2) "") in
  let d4 := dumps (JObj (invalid_type_event (PyFloat.to_int t3))) in
  let t4 := PyFloat.add t3 (elapsed_on env (k + 3) d4) in
  let d5 := dumps (JObj (missing_session_id_event (PyFloat.to_int t4))) in
  spawned (snd (error_injection_test env s))
  = (spawned s ++ [d1; oversized_payload; ""; d4; d5])%list.
Proof.
  intros k d1 t1 t2 t3 d4 t4 d5.
  unfold error_injection_test. rewrite bind_run, bind_run.
  change (spawned (snd (print _ ?x))) with (spawned x).
  set (s0 := snd (print "Starting error injection test..." s)).
  unfold error_scenarios. cbn [for_each].
  (* the first scenario *)
  rewrite bind_run.
  destruct (error_scenario_effect env "Malformed JSON"
              (generate_malformed_event env) s0) as (S1 & N1 & _);
    [intros x; split; reflexivity |].
  set (s1 := snd (error_scenario env
                    ("Malformed JSON", generate_malformed_event env) s0))
    in *.
  change (elapsed_on env _ _) with (elapsed_on env k d1) in N1.
  change (now s0) with (now s) in N1. fold t1 in N1.
  change (spawned s0) with (spawned s) in S1.
  change (fst (generate_malformed_event env _)) with d1 in S1.
  clearbody s1.
  (* the second *)
  rewrite bind_run.
  destruct (error_scenario_effect env "Oversized payload"
              (ret oversized_payload) s1) as (S2 & N2 & _);
    [intros x; split; reflexivity |].
  change (ret (dumps (JObj [("x", JStr (PyStr.repeat "y" 700000))])))
    with (@ret string oversized_payload).
  set (s2 := snd (error_scenario env
                    ("Oversized payload", ret oversized_payload) s1)) in *.
  cbn [ret fst] in S2, N2.
  assert (K1 : List.length (spawned s1) = (k + 1)%nat)
    by (rewrite S1, length_app; reflexivity).
  rewrite K1, N1 in N2. fold t2 in N2. clearbody s2.
  (* the third *)
  rewrite bind_run.
  destruct (error_scenario_effect env "Empty input" (ret "") s2)
    as (S3 & N3 & _); [intros x; split; reflexivity |].
  set (s3 := snd (error_scenario env ("Empty input", ret "") s2)) in *.
  cbn [ret fst] in S3, N3.
  assert (K2 : List.length (spawned s2) = (k + 2)%nat)
    by (rewrite S2, length_app, K1; cbn [List.length]; lia).
  rewrite K2, N2 in N3. fold t3 in N3. clearbody s3.
  (* the fourth *)
  rewrite bind_run.
  match goal with
  | |- context [error_scenario env ("Invalid event type", ?g) s3] =>
      destruct (error_scenario_effect env "Invalid event type" g s3)
        as (S4 & N4 & _); [intros x; split; reflexivity |];
      set (s4 := snd (error_scenario env ("Invalid event type", g) s3)) in *;
      change (fst (g (snd (print ("  Testing: " ++ "Invalid event type") s3))))
        with (dumps (JObj (invalid_type_event (PyFloat.to_int (now s3)))))
        in S4, N4
  end.
  assert (K3 : List.length (spawned s3) = (k + 3)%nat)
    by (rewrite S3, length_app, K2; cbn [List.length]; lia).
  rewrite N3 in S4, N4. fold d4 in S4, N4. rewrite K3 in N4. fold t4 in N4.
  clearbody s4.
  (* the fifth *)
  rewrite bind_run.
  match goal with
  | |- context [error_scenario env ("Missing session_id", ?g) s4] =>
      destruct (error_scenario_effect env "Missing session_id" g s4)
        as (S5 & _ & _); [intros x; split; reflexivity |];
      set (s5 := snd (error_scenario env ("Missing session_id", g) s4)) in *;
      change (fst (g (snd (print ("  Testing: " ++ "Missing session_id") s4))))
        with (dumps (JObj (missing_session_id_event (PyFloat.to_int (now s4)))))
        in S5
  end.
  rewrite N4 in S5. fold d5 in S5.
  cbn [ret snd]. rewrite S5, S4, S3, S2, S1, <- !app_assoc. reflexivity.
Qed.

(** C3, as it is written, fails.  The scenario named [Malformed JSON]
    sends what [generate_malformed_event] draws, and four of its five
    documents are well-formed JSON.  When the draw picks the fifth, the
    document sent is the empty object; and whatever the draw, unless it
    picks the first the document is the serialization of a JSON
    value. *)
Lemma error_injection_test_sends_json :
  (let env := drawing 4 rejecting_hook in
   let s' := snd (error_injection_test env (init PyFloat.zero)) in
   nth 0 (map fst (error_scenarios env)) "" = "Malformed JSON"
   /\ nth 0 (spawned s') "" = "{}"
   /\ "{}" = dumps (JObj []))
  /\ forall env s,
      (env_random env (draws s) mod 5)%nat <> 0%nat ->
      serialized
        (nth (List.length (spawned s))
           (spawned (snd (error_injection_test env s))) "").
Proof.
  split.
  - cbn zeta. split; [reflexivity | split; [| reflexivity]].
    rewrite error_injection_test_documents. reflexivity.
  - intros env s H. rewrite error_injection_test_documents. cbn zeta.
    rewrite app_nth2 by lia. rewrite Nat.sub_diag. cbn [nth].
    pose proof (Nat.mod_upper_bound (env_random env (draws s)) 5
                  ltac:(discriminate)) as B.
    apply malformed_types_serialized. lia.
Qed.

(** C3, amended.  [error_injection_test] hands exactly five documents to
    the hook binary, in this order.  For the scenario named
    [Malformed JSON], the document that the random draw picks among the
    five of [generate_malformed_event]: a serialized object cut before
    its closing brace, which is no JSON text, or one of four well-formed
    objects.  Then the serialization of an object whose only value is
    the letter [y] 700000 times, a document of 700009 characters; the
    empty string, which is no JSON text; the serialization of an event
    whose type [InvalidEvent] is not in the closed set; and that of an
    event without [session_id], both with the time of their scenario.
    For every scenario the test reports a success, which is an exit code
    of zero, as unexpected, and any failure as expected. *)
Theorem error_injection_test_scenarios :
  forall env s,
    let k := List.length (spawned s) in
    let shapes :=
      [ truncated_json;
        dumps (JObj [("hook_event_name", JStr "InvalidEvent")]);
        dumps (JObj [("session_id", JStr "")]);
        dumps (JObj oversized_session_event);
        dumps (JObj []) ] in
    let d1 := nth (env_random env (draws s) mod 5)%nat shapes "" in
    let t1 := PyFloat.add (now s) (elapsed_on env k d1) in
    let t2 := PyFloat.add t1 (elapsed_on env (k + 1) oversized_payload) in
    let t3 := PyFloat.add t2 (elapsed_on env (k + 2) "") in
    let d4 := dumps (JObj (invalid_type_event (PyFloat.to_int t3))) in
    let t4 := PyFloat.add t3 (elapsed_on env (k + 3) d4) in
    let d5 := dumps (JObj (missing_session_id_event (PyFloat.to_int t4))) in
    spawned (snd (error_injection_test env s))
    = (spawned s ++ [d1; oversized_payload; ""; d4; d5])%list
    /\ ~ serialized truncated_json
    /\ ((env_random env (draws s) mod 5)%nat <> 0%nat -> serialized d1)
    /\ ~ serialized ""
    /\ map fst (error_scenarios env)
       = [ "Malformed JSON"; "Oversized payload"; "Empty input";
           "Invalid event type"; "Missing session_id" ]
    /\ oversized_payload
       = "{" ++ PyStr.quoted "x" ++ ": "
             ++ PyStr.quoted (PyStr.repeat "y" 700000) ++ "}"
    /\ PyStr.len (PyStr.repeat "y" 700000) = 700000
    /\ PyStr.len oversized_payload = 700009
    /\ (forall t,
           dict_get "hook_event_name" (invalid_type_event t)
           = Some (JStr "InvalidEvent"))
    /\ ~ In "InvalidEvent" EVENT_TYPES
    /\ (forall t, dict_get "session_id" (missing_session_id_event t) = None)
    /\ (forall scenario s0,
           In scenario (error_scenarios env) ->
           let '(doc, s1) :=
             snd scenario (snd (print ("  Testing: " ++ fst scenario) s0)) in
           let '(success, latency, output, s2) :=
             send_event env (Str doc) 5 s1 in
           console (snd (error_scenario env scenario s0))
           = (console s0 ++ scenario_report (fst scenario) success output)%list
           /\ (success = true <->
               exists stdout stderr elapsed,
                 env_hook env (List.length (spawned s0)) doc 5
                 = (Completed 0 stdout stderr, elapsed))).
Proof.
  intros env s k shapes d1 t1 t2 t3 d4 t4 d5.
  split; [exact (error_injection_test_documents env s) |].
  split; [exact truncated_json_not_serialized |].
  split.
  { intros H.
    pose proof (Nat.mod_upper_bound (env_random env (draws s)) 5
                  ltac:(discriminate)) as B.
    apply (malformed_types_serialized (env_random env (draws s) mod 5)).
    lia. }
  split; [intros [v H]; exact (dumps_not_empty v (eq_sym H)) |].
  split; [reflexivity |].
  destruct len_oversized_payload as [E L].
  split; [exact E |].
  split; [apply len_repeat; lia |].
  split; [exact L |].
  split; [reflexivity |].
  split.
  { cbn. intros H.
    repeat (destruct H as [H | H]; [discriminate H |]). exact H. }
  split; [reflexivity |].
  intros [test_name generator] s0 I.
  pose proof (error_scenario_run env test_name generator s0
                (error_scenarios_quiet env _ I)) as R.
  cbn zeta in R. cbn [fst snd].
  pose proof (error_scenarios_quiet env _ I
                (snd (print ("  Testing: " ++ test_name) s0))) as [Q _].
  cbn [snd] in Q.
  destruct (generator (snd (print ("  Testing: " ++ test_name) s0)))
    as [doc s1].
  cbn [fst snd] in R, Q.
  change (spawned (snd (print ("  Testing: " ++ test_name) s0)))
    with (spawned s0) in Q.
  rewrite <- Q. rewrite send_event_unfold in R |- *. cbn zeta in R |- *.
  cbn [json_data_of] in R |- *.
  destruct (env_hook env (List.length (spawned s1)) doc 5) as [r elapsed].
  destruct r as [returncode stdout stderr | | msg];
    [destruct (returncode =? 0) eqn:Z | |].
  + apply Z.eqb_eq in Z. subst returncode.
    split; [apply R |]. split; [intros _; now do 3 eexists | reflexivity].
  + apply Z.eqb_neq in Z.
    split; [apply R |].
    split; [discriminate | intros (o & e & el & H); congruence].
  + split; [apply R |].
    split; [discriminate | intros (o & e & el & H); discriminate H].
  + split; [apply R |].
    split; [discriminate | intros (o & e & el & H); discriminate H].
Qed.

(** ** [print_results]: the index of the 95th percentile *)

(** Rounding to 53 bits raises the exponent by some [d] and the value
    by at most one part in [2 ^ 52]. *)
Lemma round_pos_bound p e :
  0 <= p ->
  exists d,
    0 <= d
    /\ PyFloat.expo (PyFloat.round_pos p e) = e + d
    /\ 0 <= PyFloat.mant (PyFloat.round_pos p e)
    /\ 2 ^ 52 * (PyFloat.mant (PyFloat.round_pos p e) * 2 ^ d)
       <= (2 ^ 52 + 1) * p.
Proof.
  intros Hp. pose proof (round_pos_nonneg p e Hp) as Hm. revert Hm.
  unfold PyFloat.round_pos.
  destruct (Z.log2 p <? 53) eqn:K; cbn [PyFloat.mant PyFloat.expo]; intros Hm.
  - exists 0. rewrite Z.add_0_r, Z.pow_0_r. repeat split; lia.
  - apply Z.ltb_ge in K.
    set (s := Z.log2 p - 52) in *.
    assert (Hs : 0 < s) by lia.
    assert (P0 : 0 < p).
    { destruct (Z.eq_dec p 0) as [-> | N]; [cbn in K; lia | lia]. }
    pose proof (Z.log2_spec p P0) as [L _].
    assert (E : 2 ^ Z.log2 p = 2 ^ 52 * 2 ^ s).
    { unfold s. rewrite <- Z.pow_add_r by lia. f_equal. lia. }
    assert (S0 : 0 < 2 ^ s) by (apply Z.pow_pos_nonneg; lia).
    pose proof (Z.mul_div_le p (2 ^ s) S0) as D.
    exists s. split; [lia |]. split; [reflexivity |]. split; [exact Hm |].
    destruct (_ || _); nia.
Qed.

Lemma round_nonneg p e : 0 <= p -> PyFloat.round p e = PyFloat.round_pos p e.
Proof.
  intros H. unfold PyFloat.round.
  destruct (p <? 0) eqn:E; [apply Z.ltb_lt in E; lia | reflexivity].
Qed.

(** Truncation does not raise the value: the inequality is between
    [int(x)] and [x], both scaled by [2 ^ k]. *)
Lemma to_int_bound x k :
  0 <= PyFloat.mant x -> 0 <= PyFloat.expo x + k -> 0 <= k ->
  PyFloat.to_int x * 2 ^ k <= PyFloat.mant x * 2 ^ (PyFloat.expo x + k).
Proof.
  intros Hm He Hk. unfold PyFloat.to_int.
  destruct (0 <=? PyFloat.expo x) eqn:E.
  - apply Z.leb_le in E. rewrite Z.pow_add_r by lia. lia.
  - apply Z.leb_gt in E.
    assert (P : 0 < 2 ^ (- PyFloat.expo x)) by (apply Z.pow_pos_nonneg; lia).
    rewrite Z.quot_div_nonneg by lia.
    replace k with (- PyFloat.expo x + (PyFloat.expo x + k)) at 1 by lia.
    rewrite Z.pow_add_r by lia.
    pose proof (Z.mul_div_le (PyFloat.mant x) _ P) as D.
    assert (Q : 0 <= 2 ^ (PyFloat.expo x + k)) by (apply Z.pow_nonneg; lia).
    nia.
Qed.

(** [int(n * 0.95)] is a valid index of a list of [n] elements. *)
Lemma p95_index_in_range n : 1 <= n -> 0 <= p95_index n < n.
Proof.
  intros Hn. unfold p95_index, PyFloat.mul, PyFloat.of_int.
  rewrite (round_nonneg n 0) by lia.
  destruct (round_pos_bound n 0 ltac:(lia)) as (d1 & D1 & E1 & M1 & B1).
  set (f1 := PyFloat.round_pos n 0) in *.
  cbn [PyFloat.mant PyFloat.expo PyFloat.lit_0_95].
  set (m := 8556839292003942).
  assert (P : 0 <= PyFloat.mant f1 * m) by (subst m; lia).
  rewrite round_nonneg by exact P.
  destruct (round_pos_bound (PyFloat.mant f1 * m) (PyFloat.expo f1 + -53) P)
    as (d2 & D2 & E2 & M2 & B2).
  set (f2 := PyFloat.round_pos (PyFloat.mant f1 * m) (PyFloat.expo f1 + -53))
    in *.
  split; [apply to_int_nonneg; exact M2 |].
  pose proof (to_int_bound f2 53 M2 ltac:(lia) ltac:(lia)) as T.
  replace (PyFloat.expo f2 + 53) with (d2 + d1) in T by lia.
  rewrite Z.pow_add_r in T by lia.
  set (t := PyFloat.to_int f2) in *.
  set (a := PyFloat.mant f2 * 2 ^ d2) in *.
  set (x := 2 ^ d1) in *.
  assert (X : 0 < x) by (apply Z.pow_pos_nonneg; lia).
  assert (T' : t * 2 ^ 53 <= a * x) by lia.
  assert (S1 : 2 ^ 52 * (t * 2 ^ 53) <= (2 ^ 52 + 1) * (PyFloat.mant f1 * m) * x).
  { apply Z.le_trans with (2 ^ 52 * (a * x)).
    - apply Z.mul_le_mono_nonneg_l; [lia | exact T'].
    - rewrite Z.mul_assoc. apply Z.mul_le_mono_nonneg_r; [lia | exact B2]. }
  assert (S2 : 2 ^ 52 * (2 ^ 52 * (t * 2 ^ 53))
               <= (2 ^ 52 + 1) * m * ((2 ^ 52 + 1) * n)).
  { apply Z.le_trans
      with (2 ^ 52 * ((2 ^ 52 + 1) * (PyFloat.mant f1 * m) * x)).
    - apply Z.mul_le_mono_nonneg_l; [lia | exact S1].
    - replace (2 ^ 52 * ((2 ^ 52 + 1) * (PyFloat.mant f1 * m) * x))
        with ((2 ^ 52 + 1) * m * (2 ^ 52 * (PyFloat.mant f1 * x))) by ring.
      apply Z.mul_le_mono_nonneg_l; [subst m; lia | exact B1]. }
  subst m. lia.
Qed.

Example p95_index_examples :
  map p95_index [1; 2; 19; 20; 21; 100; 837] = [0; 1; 18; 19; 19; 95; 795].
Proof. vm_compute. reflexivity. Qed.

Lemma round_pos_pos p e : 0 < p -> 0 < PyFloat.mant (PyFloat.round_pos p e).
Proof.
  intros Hp. unfold PyFloat.round_pos.
  destruct (Z.log2 p <? 53) eqn:K; cbn [PyFloat.mant]; [exact Hp |].
  apply Z.ltb_ge in K.
  pose proof (Z.log2_spec p Hp) as [L _].
  set (s := Z.log2 p - 52) in *.
  assert (S0 : 0 < 2 ^ s) by (apply Z.pow_pos_nonneg; lia).
  assert (Q : 1 <= p / 2 ^ s).
  { apply Z.div_le_lower_bound; [exact S0 |].
    apply Z.le_trans with (2 ^ Z.log2 p); [| exact L].
    rewrite Z.mul_1_r. apply Z.pow_le_mono_r; lia. }
  destruct (_ || _); lia.
Qed.

Lemma insert_sorted_length x l :
  List.length (insert_sorted x l) = S (List.length l).
Proof.
  induction l as [| y l IH]; cbn [insert_sorted]; [reflexivity |].
  destruct (PyFloat.leb x y); cbn [List.length]; [reflexivity | now rewrite IH].
Qed.

Lemma sorted_length l : List.length (sorted l) = List.length l.
Proof.
  induction l as [| x l IH]; [reflexivity |].
  cbn [sorted fold_right]. fold (sorted l).
  now rewrite insert_sorted_length, IH.
Qed.

Lemma py_index_in_range {A} (l : list A) i :
  0 <= i < Z.of_nat (List.length l) -> exists x, py_index l i = Some x.
Proof.
  intros H. unfold py_index.
  destruct (i <? 0) eqn:N; [apply Z.ltb_lt in N; lia |].
  replace ((0 <=? i) && (i <? Z.of_nat (List.length l))) with true
    by (symmetry; apply andb_true_intro; split;
        [apply Z.leb_le | apply Z.ltb_lt]; lia).
  destruct (nth_error l (Z.to_nat i)) as [x |] eqn:E; [now exists x |].
  apply nth_error_None in E. lia.
Qed.

(** The statistics of [print_results] are defined on every list of
    latencies that is not empty. *)
Lemma statistics_defined res :
  latencies res <> [] ->
  (exists avg, avg_latency_of res = Some avg)
  /\ (exists p95, p95_latency_of res = Some p95).
Proof.
  intros H.
  assert (L : 1 <= Z.of_nat (List.length (latencies res))).
  { destruct (latencies res); [congruence | cbn [List.length]; lia]. }
  split.
  - unfold avg_latency_of, PyFloat.div.
    set (n := Z.of_nat (List.length (latencies res))) in *.
    assert (P : 0 < PyFloat.mant (PyFloat.of_int n)).
    { unfold PyFloat.of_int. rewrite round_nonneg by lia.
      apply round_pos_pos. lia. }
    destruct (PyFloat.mant (PyFloat.of_int n) =? 0) eqn:E;
      [apply Z.eqb_eq in E; lia | eexists; reflexivity].
  - unfold p95_latency_of. apply py_index_in_range.
    rewrite sorted_length. apply p95_index_in_range. exact L.
Qed.

(** C10.  [print_results] on an empty list of latencies prints
    ["No successful events processed"] and returns, with no statistic
    computed.  For every [n >= 1] the index [int(n * 0.95)] is at least
    zero and less than [n]; so on a list that is not empty the division
    by its length and the indexing of the sorted list are defined, and
    [print_results] returns (given that [start_time] is set whenever
    [end_time] is, as [performance_stress_test] sets them). *)
Theorem print_results_safe :
  forall s,
    (end_time (results s) <> None -> start_time (results s) <> None) ->
    (latencies (results s) = [] ->
     print_results s
     = (Finished,
        set_console (console s ++ ["No successful events processed"]) s))
    /\ (forall n, 1 <= n -> 0 <= p95_index n < n)
    /\ (latencies (results s) <> [] ->
        (exists avg, avg_latency_of (results s) = Some avg)
        /\ (exists p95, p95_latency_of (results s) = Some p95)
        /\ fst (print_results s) = Finished).
Proof.
  intros s T. split; [| split].
  - intros E. unfold print_results. rewrite bind_run.
    change (fst (get results s)) with (results s).
    change (snd (get results s)) with s.
    rewrite E. reflexivity.
  - exact p95_index_in_range.
  - intros N.
    destruct (statistics_defined (results s) N) as [[avg A] [p95 P]].
    split; [now exists avg | split; [now exists p95 |]].
    unfold print_results. rewrite bind_run.
    change (fst (get results s)) with (results s).
    change (snd (get results s)) with s.
    destruct (latencies (results s)) as [| x l] eqn:L; [congruence |].
    rewrite <- L in *. rewrite A, P.
    assert (D : exists duration, duration_of (results s) = Some duration).
    { unfold duration_of.
      destruct (end_time (results s)) as [e |]; [| eexists; reflexivity].
      destruct (PyFloat.truthy e); [| eexists; reflexivity].
      destruct (start_time (results s)) as [b |]; [eexists; reflexivity |].
      exfalso. apply T; [discriminate | reflexivity]. }
    destruct D as [duration D]. rewrite D.
    rewrite !bind_run. reflexivity.
Qed.

(** An instance: the results after one successful event. *)
Lemma print_results_safe_witness :
  fst (print_results
         (snd (send_event accepting_hook (Str "{}") 5 (init PyFloat.zero))))
  = Finished.
Proof.
  destruct (print_results_safe
              (snd (send_event accepting_hook (Str "{}") 5
                      (init PyFloat.zero)))) as (_ & _ & H).
  - vm_compute. intros H. exact H.
  - apply H. vm_compute. discriminate.
Defined.

(** ** [concurrent_sessions_test]: the session ids *)

Lemma decode_of_int z : 0 <= z -> decode (PyStr.of_int z) = z.
Proof.
  intros H. unfold decode, PyStr.of_int.
  rewrite <- (DecimalZ.of_to z) at 2.
  destruct (Z.to_int z) as [d | d] eqn:E.
  - destruct d; cbn [NilZero.string_of_int NilZero.string_of_uint];
      try (rewrite NilEmpty.usu; reflexivity).
    reflexivity.
  - destruct z; cbn in E; try discriminate E. lia.
Qed.

Lemma decode_of_int_02d z : 0 <= z -> decode (PyStr.of_int_02d z) = z.
Proof.
  intros H. unfold PyStr.of_int_02d.
  destruct (_ <? 2)%nat; [| apply decode_of_int; exact H].
  pose proof (decode_of_int z H) as D. unfold decode in *.
  cbn [String.append NilEmpty.uint_of_string].
  destruct (NilEmpty.uint_of_string (PyStr.of_int z)) as [d |];
    cbn in D |- *; exact D.
Qed.

Lemma append_inj_l (a b c : string) : a ++ b = a ++ c -> b = c.
Proof.
  induction a as [| x a IH]; cbn; intros H; [exact H |].
  injection H as H. now apply IH.
Qed.

Lemma concurrent_session_ids_spec n :
  concurrent_session_ids n
  = map (fun i => "sess_concurrent_" ++ PyStr.of_int_02d (Z.of_nat i))
      (seq 0 (Z.to_nat n)).
Proof. unfold concurrent_session_ids, range. now rewrite map_map. Qed.

Lemma concurrent_session_ids_distinct n :
  List.length (concurrent_session_ids n) = Z.to_nat n
  /\ NoDup (concurrent_session_ids n).
Proof.
  rewrite concurrent_session_ids_spec. split.
  - now rewrite length_map, length_seq.
  - apply Injective_map_NoDup; [| apply seq_NoDup].
    intros i j H. apply append_inj_l in H.
    apply (f_equal decode) in H.
    rewrite !decode_of_int_02d in H by lia. lia.
Qed.

Lemma concurrent_session_id_not_empty n j :
  (j < Z.to_nat n)%nat -> nth j (concurrent_session_ids n) "" <> "".
Proof.
  intros H.
  destruct (concurrent_session_ids_distinct n) as [L _].
  assert (I : In (nth j (concurrent_session_ids n) "")
                (concurrent_session_ids n)) by (apply nth_In; lia).
  rewrite concurrent_session_ids_spec in I |- *.
  apply in_map_iff in I as (i & E & _). rewrite <- E. discriminate.
Qed.

(** ** [concurrent_sessions_test]: one iteration of a worker *)

Lemma given_some x : x <> "" -> given (Some x) = Some x.
Proof.
  intros H. cbn. destruct (String.eqb_spec x ""); [contradiction | reflexivity].
Qed.

Lemma session_event_type i :
  let ty := nth (i mod List.length session_events) session_events "" in
  ty <> "" /\ In ty EVENT_TYPES.
Proof.
  cbn zeta.
  assert (I : In (nth (i mod List.length session_events) session_events "")
                session_events)
    by (apply nth_In, Nat.mod_upper_bound; discriminate).
  revert I.
  generalize (nth (i mod List.length session_events) session_events "").
  intros ty I. cbn in I.
  repeat (destruct I as [<- | I]; [split; [discriminate | cbn; tauto] |]).
  destruct I.
Qed.

(** While its loop goes on, a worker sends one valid event of its
    session. *)
Lemma session_worker_sends env e sid i s :
  sid <> "" -> Z.of_nat i < e ->
  exists event,
    fst (session_worker env e sid i s) = true
    /\ spawned (snd (session_worker env e sid i s))
       = (spawned s ++ [dumps (JObj event)])%list
    /\ valid_event_of sid event.
Proof.
  intros S I. unfold session_worker.
  replace (Z.of_nat i <? e) with true by (symmetry; apply Z.ltb_lt; exact I).
  destruct (session_event_type i) as [T0 T1]. cbn zeta in T0, T1.
  set (ty := nth (i mod List.length session_events) session_events "") in *.
  rewrite bind_run.
  destruct (generate_event_fields env (Some sid) (Some ty) s)
    as (sid' & ty' & data & E & A & _ & _ & _ & X).
  unfold event_type_for in A. rewrite (given_some ty T0) in A.
  rewrite (X sid (given_some sid S)) in E. subst ty'. clear X.
  pose proof (generate_event_state env (Some sid) (Some ty) s) as G.
  destruct (generate_event env (Some sid) (Some ty) s) as [event s1].
  cbn [fst snd] in E, G |- *.
  rewrite bind_run.
  pose proof (send_event_frame env (Dict event) 5 s1) as (_ & _ & _ & F).
  destruct (send_event env (Dict event) 5 s1)
    as [[[success latency] output] s2].
  cbn [fst snd json_data_of] in F |- *.
  exists event. split; [| split].
  - rewrite !bind_run. reflexivity.
  - rewrite !bind_run. cbn [ret snd].
    assert (W : forall b line st,
               spawned (snd (when b (print line) st)) = spawned st)
      by (intros [|] ? ?; reflexivity).
    change (spawned (snd (sleep ?d ?st))) with (spawned st).
    rewrite W, F, G. reflexivity.
  - rewrite E. repeat split; try assumption; try reflexivity.
    + exists ty. split; [reflexivity | exact T1].
    + eexists; reflexivity.
    + eexists; reflexivity.
Qed.

(** After its last event a worker leaves the loop. *)
Lemma session_worker_ends env e sid i s :
  e <= Z.of_nat i -> session_worker env e sid i s = (false, s).
Proof.
  intros I. unfold session_worker.
  replace (Z.of_nat i <? e) with false by (symmetry; apply Z.ltb_ge; exact I).
  reflexivity.
Qed.

(** ** [concurrent_sessions_test]: the pool of workers *)

Lemma list_update_length {A} j (x : A) l :
  List.length (list_update j x l) = List.length l.
Proof.
  revert j. induction l as [| y l IH]; intros [| j]; cbn; try reflexivity.
  now rewrite IH.
Qed.

Lemma nth_error_list_update {A} j (x : A) l j' :
  nth_error (list_update j x l) j'
  = if (j =? j')%nat then
      match nth_error l j' with Some _ => Some x | None => None end
    else nth_error l j'.
Proof.
  revert j j'. induction l as [| y l IH]; intros [| j] [| j']; cbn;
    try reflexivity.
  - now destruct (_ =? _)%nat.
  - apply IH.
Qed.

Lemma list_sum_update {A} (f : A -> nat) j x y l :
  nth_error l j = Some x ->
  (list_sum (map f (list_update j y l)) + f x
   = list_sum (map f l) + f y)%nat.
Proof.
  unfold list_sum.
  revert j. induction l as [| z l IH]; intros [| j]; cbn; try discriminate.
  - intros H. injection H as ->. lia.
  - intros H. specialize (IH j H). lia.
Qed.

Lemma sent_by_app j sent p :
  sent_by j (sent ++ [p])
  = (sent_by j sent + if (fst p =? j)%nat then 1 else 0)%nat.
Proof.
  unfold sent_by. rewrite filter_app, length_app. cbn.
  destruct (fst p =? j)%nat; reflexivity.
Qed.

Lemma step_thread_unfinished body j ths th s :
  nth_error ths j = Some th -> th_done th = false ->
  step_thread body j ths s
  = let r := body j (th_iter th) (set_now (th_clock th) s) in
    (list_update j
       {| th_clock := now (snd r); th_iter := S (th_iter th);
          th_done := negb (fst r) |} ths,
     snd r).
Proof.
  intros N D. unfold step_thread. rewrite N, D.
  rewrite !bind_run. reflexivity.
Qed.

Lemma step_thread_idle body j ths s :
  (forall th, nth_error ths j = Some th -> th_done th = true) ->
  step_thread body j ths s = (ths, s).
Proof.
  intros H. unfold step_thread.
  destruct (nth_error ths j) as [th |]; [| reflexivity].
  now rewrite (H th eq_refl).
Qed.

Section Pool.

Variable env : environment.
Variable events_per_session : Z.
Variable session_ids : list string.
Variable s0 : state.

Hypothesis events_nonneg : 0 <= events_per_session.
Hypothesis ids_not_empty :
  forall j, (j < List.length session_ids)%nat -> nth j session_ids "" <> "".

Variable e : nat.
Hypothesis e_events : e = Z.to_nat events_per_session.

Let body := worker_body env events_per_session session_ids.

(** A turn of a worker keeps the invariant of the pool, and it is one of
    the turns that were left when the worker had not finished. *)
Lemma step_thread_inv ths s sent j :
  pool_inv session_ids e s0 ths s sent ->
  exists sent',
    pool_inv session_ids e s0
      (fst (step_thread body j ths s)) (snd (step_thread body j ths s)) sent'
    /\ (forall th, nth_error ths j = Some th -> th_done th = false ->
                   S (turns_left e (fst (step_thread body j ths s)))
                   = turns_left e ths).
Proof.
  intros Inv. pose proof Inv as (L & Sp & W & T & V).
  destruct (nth_error ths j) as [th |] eqn:N.
  2: { rewrite step_thread_idle by (intros th H; congruence).
       exists sent. split; [exact Inv | intros th H; discriminate H]. }
  destruct (th_done th) eqn:D.
  { rewrite step_thread_idle by (intros th' H; congruence).
    exists sent. split; [exact Inv |].
    intros th' H F. congruence. }
  rewrite (step_thread_unfinished _ _ _ _ _ N D). cbn zeta.
  unfold body, worker_body.
  destruct (W j th N) as [Wc Wi]. rewrite D in Wi.
  assert (J : (j < List.length session_ids)%nat).
  { rewrite <- L. apply nth_error_Some. congruence. }
  set (s1 := set_now (th_clock th) s).
  assert (Sp1 : spawned s1 = (spawned s0 ++ map doc_of sent)%list) by exact Sp.
  destruct (Z_lt_le_dec (Z.of_nat (th_iter th)) events_per_session) as [I | I].
  - (* the worker sends an event *)
    destruct (session_worker_sends env events_per_session
                (nth j session_ids "") (th_iter th) s1 (ids_not_empty j J) I)
      as (event & R & F & E).
    rewrite R. cbn [negb fst snd].
    set (th' := {| th_clock := _; th_iter := _; th_done := _ |}).
    assert (I' : (th_iter th < e)%nat) by lia.
    exists (sent ++ [(j, event)])%list. split; [split; [| split; [| split; [| split]]] |].
    + now rewrite list_update_length.
    + rewrite F, Sp1, map_app, <- app_assoc. reflexivity.
    + intros j' x. rewrite nth_error_list_update.
      unfold worker_progress. rewrite sent_by_app. cbn [fst].
      destruct (Nat.eqb_spec j j') as [<- | Nj].
      * rewrite N. intros H. injection H as <-. cbn [th' th_iter th_done].
        rewrite Wc. split; lia.
      * intros H. destruct (W j' x H) as [Wc' Wi'].
        rewrite Wc'. split; [lia | exact Wi'].
    + rewrite length_app, T. cbn [List.length]. unfold sent_total.
      pose proof (list_sum_update (fun th => Nat.min (th_iter th) e)
                    j th th' ths N) as U.
      cbn [th' th_iter] in U. lia.
    + intros p H. apply in_app_or in H as [H | [<- | []]]; [now apply V |].
      exact E.
    + intros x H _. injection H as <-. unfold turns_left.
      pose proof (list_sum_update
                    (fun th => if th_done th then 0 else S e - th_iter th)%nat
                    j th th' ths N) as U.
      cbn [th' th_iter th_done] in U. rewrite D in U. lia.
  - (* the worker leaves its loop *)
    rewrite (session_worker_ends env events_per_session _ _ s1 I).
    cbn [negb fst snd].
    set (th' := {| th_clock := _; th_iter := _; th_done := _ |}).
    assert (I' : th_iter th = e) by lia.
    exists sent. split; [split; [| split; [| split; [| split]]] |].
    + now rewrite list_update_length.
    + exact Sp1.
    + intros j' x. rewrite nth_error_list_update.
      unfold worker_progress.
      destruct (Nat.eqb_spec j j') as [<- | Nj].
      * rewrite N. intros H. injection H as <-. cbn [th' th_iter th_done].
        rewrite Wc. split; lia.
      * intros H. exact (W j' x H).
    + rewrite T. unfold sent_total.
      pose proof (list_sum_update (fun th => Nat.min (th_iter th) e)
                    j th th' ths N) as U.
      cbn [th' th_iter] in U. lia.
    + exact V.
    + intros x H _. injection H as <-. unfold turns_left.
      pose proof (list_sum_update
                    (fun th => if th_done th then 0 else S e - th_iter th)%nat
                    j th th' ths N) as U.
      cbn [th' th_iter th_done] in U. rewrite D in U. lia.
Qed.

(** The invariant holds after any number of turns, whatever the
    scheduler. *)
Lemma run_threads_inv eligible sched turns :
  forall k ths s sent,
    pool_inv session_ids e s0 ths s sent ->
    exists sent',
      pool_inv session_ids e s0
        (fst (run_threads body eligible sched turns k ths s))
        (snd (run_threads body eligible sched turns k ths s)) sent'.
Proof.
  induction turns as [| turns IH]; intros k ths s sent Inv.
  - exists sent. exact Inv.
  - cbn [run_threads]. rewrite bind_run.
    destruct (eligible ths (sched k ths)).
    + destruct (step_thread_inv ths s sent (sched k ths) Inv) as (sent' & Inv' & _).
      exact (IH _ _ _ _ Inv').
    + exact (IH _ _ _ _ Inv).
Qed.

Lemma first_unfinished_found ths :
  forall k,
    existsb (fun th => negb (th_done th)) ths = true ->
    exists i th,
      first_unfinished_from k ths = (k + i)%nat
      /\ nth_error ths i = Some th /\ th_done th = false.
Proof.
  induction ths as [| th ths IH]; intros k H; [discriminate H |].
  cbn [existsb first_unfinished_from] in *.
  destruct (th_done th) eqn:D.
  - destruct (IH (S k) H) as (i & x & E & N & F).
    exists (S i), x. split; [lia | split; assumption].
  - exists 0%nat, th. split; [lia | split; [reflexivity | exact D]].
Qed.

Lemma turns_left_all_done ths :
  existsb (fun th => negb (th_done th)) ths = false -> all_done ths = true.
Proof.
  unfold all_done. induction ths as [| th ths IH]; cbn; [reflexivity |].
  destruct (th_done th); cbn; [exact IH | discriminate].
Qed.

Lemma turns_left_unfinished ths :
  (forall j th, nth_error ths j = Some th ->
                th_done th = false -> (th_iter th <= e)%nat) ->
  existsb (fun th => negb (th_done th)) ths = true <-> turns_left e ths <> 0%nat.
Proof.
  unfold turns_left. induction ths as [| th ths IH]; intros H.
  - cbn. split; [discriminate | congruence].
  - cbn [existsb map list_sum fold_right]. fold (list_sum (map
      (fun th => if th_done th then 0 else S e - th_iter th)%nat ths)).
    specialize (IH (fun j => H (S j))).
    pose proof (H 0%nat th eq_refl) as H0.
    destruct (th_done th); cbn [negb orb].
    + rewrite IH. lia.
    + specialize (H0 eq_refl). split; [lia | reflexivity].
Qed.

(** With the scheduler that runs the workers one after the other, as
    many turns as are left finish all the workers. *)
Lemma run_first_unfinished turns :
  forall k ths s sent,
    pool_inv session_ids e s0 ths s sent ->
    turns_left e ths = turns ->
    let r :=
      run_threads body (has_worker (List.length session_ids))
        first_unfinished turns k ths s in
    all_done (fst r) = true.
Proof.
  induction turns as [| turns IH]; intros k ths s sent Inv Tl.
  - cbn. pose proof Inv as (_ & _ & W & _).
    apply turns_left_all_done.
    destruct (existsb _ ths) eqn:X; [| reflexivity].
    apply turns_left_unfinished in X; [congruence |].
    intros j th N D. destruct (W j th N) as [_ Wi]. now rewrite D in Wi.
  - cbn zeta. cbn [run_threads]. rewrite bind_run.
    pose proof Inv as (L & _ & W & _).
    assert (X : existsb (fun th => negb (th_done th)) ths = true).
    { apply turns_left_unfinished; [| lia].
      intros j th N D. destruct (W j th N) as [_ Wi]. now rewrite D in Wi. }
    destruct (first_unfinished_found ths 0 X) as (i & th & E & N & D).
    change (first_unfinished k ths) with (first_unfinished_from 0 ths).
    rewrite E. cbn [Nat.add].
    assert (El : has_worker (List.length session_ids) ths i = true).
    { unfold has_worker. apply Nat.ltb_lt.
      assert (i < List.length ths)%nat by (apply nth_error_Some; congruence).
      lia. }
    rewrite El.
    destruct (step_thread_inv ths s sent i Inv) as (sent' & Inv' & P).
    specialize (P th N D).
    apply (IH _ _ _ _ Inv'). lia.
Qed.

End Pool.

Lemma initial_pool session_ids e s0 s t0 :
  spawned s = spawned s0 ->
  pool_inv session_ids e s0 (map (fun _ => spawn_thread t0) session_ids) s []
  /\ turns_left e (map (fun _ : string => spawn_thread t0) session_ids)
     = (List.length session_ids * S e)%nat.
Proof.
  intros Sp. split; [split; [| split; [| split; [| split]]] |].
  - apply length_map.
  - rewrite Sp. cbn. now rewrite app_nil_r.
  - intros j th N. apply nth_error_In, in_map_iff in N as (x & <- & _).
    split; [reflexivity | cbn; lia].
  - unfold sent_total. induction session_ids as [| x l IH]; [reflexivity |].
    cbn [map list_sum fold_right] in *. fold (list_sum (map
      (fun th => Nat.min (th_iter th) e)
      (map (fun _ : string => spawn_thread t0) l))). now rewrite <- IH.
  - intros p [].
  - unfold turns_left. induction session_ids as [| x l IH]; [reflexivity |].
    cbn [map list_sum fold_right List.length] in *. fold (list_sum (map
      (fun th => if th_done th then 0 else S e - th_iter th)%nat
      (map (fun _ : string => spawn_thread t0) l))). rewrite IH. cbn. lia.
Qed.

Lemma sent_total_done e ths :
  all_done ths = true ->
  (forall j th, nth_error ths j = Some th ->
                th_done th = true -> th_iter th = S e) ->
  sent_total e ths = (List.length ths * e)%nat.
Proof.
  unfold sent_total, all_done.
  induction ths as [| th ths IH]; intros A W; [reflexivity |].
  cbn [forallb] in A. apply andb_prop in A as [D A].
  cbn [map list_sum fold_right List.length].
  fold (list_sum (map (fun th => Nat.min (th_iter th) e) ths)).
  rewrite (IH A (fun j => W (S j))).
  rewrite (W 0%nat th eq_refl D). lia.
Qed.

Lemma all_done_nth ths j th :
  all_done ths = true -> nth_error ths j = Some th -> th_done th = true.
Proof.
  unfold all_done. intros A N.
  apply nth_error_In in N.
  rewrite forallb_forall in A. now apply A.
Qed.

(** ** [concurrent_sessions_test]: the workers in rounds *)

Lemma run_threads_app body eligible sched t1 t2 :
  forall k ths s,
    run_threads body eligible sched (t1 + t2) k ths s
    = run_threads body eligible sched t2 (k + t1)
        (fst (run_threads body eligible sched t1 k ths s))
        (snd (run_threads body eligible sched t1 k ths s)).
Proof.
  induction t1 as [| t1 IH]; intros k ths s.
  - cbn [Nat.add run_threads ret fst snd]. now rewrite Nat.add_0_r.
  - cbn [Nat.add run_threads]. rewrite !bind_run, IH.
    now rewrite Nat.add_succ_r.
Qed.

Lemma mod_round n R j : (j < n)%nat -> ((R * n + j) mod n = j)%nat.
Proof.
  intros H. rewrite Nat.add_comm, Nat.Div0.mod_add. now apply Nat.mod_small.
Qed.

Section Rounds.

Variable env : environment.
Variable events_per_session : Z.
Variable session_ids : list string.
Variable s0 : state.

Hypothesis ids_not_empty :
  forall j, (j < List.length session_ids)%nat -> nth j session_ids "" <> "".

Let n := List.length session_ids.
Let e := Z.to_nat events_per_session.
Let body := worker_body env events_per_session session_ids.

(** The events [sent] since the state [s0], each a valid event of the
    session of its worker. *)
Let sent_since (s : state) (sent : list (nat * dict)) : Prop :=
  spawned s = (spawned s0 ++ map doc_of sent)%list
  /\ forall p, In p sent -> valid_event_of (nth (fst p) session_ids "") (snd p).

(** A turn of the worker [j] in a round in which it has an event to
    send. *)
Lemma turn_in_round R j ths s sent :
  (R < e)%nat -> (j < n)%nat ->
  round_state n R j ths -> sent_since s sent ->
  exists event,
    round_state n R (S j) (fst (step_thread body j ths s))
    /\ sent_since (snd (step_thread body j ths s)) (sent ++ [(j, event)]).
Proof.
  intros HR Hj [L W] [Sp V].
  destruct (nth_error ths j) as [th |] eqn:N;
    [| apply nth_error_None in N; lia].
  destruct (W j th N) as [D I]. rewrite Nat.ltb_irrefl in I.
  rewrite (step_thread_unfinished _ _ _ _ _ N D). cbn zeta.
  unfold body, worker_body. rewrite I.
  destruct (session_worker_sends env events_per_session
              (nth j session_ids "") R (set_now (th_clock th) s)
              (ids_not_empty j Hj) ltac:(subst e; lia))
    as (event & C & F & E).
  rewrite C. cbn [negb fst snd].
  exists event. split; [split |split].
  - now rewrite list_update_length.
  - intros i x. rewrite nth_error_list_update.
    destruct (Nat.eqb_spec j i) as [<- | Nj].
    + rewrite N. intros H. injection H as <-. cbn [th_done th_iter].
      split; [reflexivity |].
      now replace (j <? S j)%nat with true by (symmetry; apply Nat.ltb_lt; lia).
    + intros H. destruct (W i x H) as [Dx Ix]. split; [exact Dx |].
      rewrite Ix.
      destruct (Nat.ltb_spec i j), (Nat.ltb_spec i (S j)); try reflexivity; lia.
  - rewrite F. cbn [spawned set_now]. rewrite Sp, map_app, <- app_assoc.
    reflexivity.
  - intros p H. apply in_app_or in H as [H | [<- | []]]; [now apply V |].
    exact E.
Qed.

(** The turns of a round, from the worker [j] on. *)
Lemma turns_in_round R (HR : (R < e)%nat) t :
  forall j ths s sent,
    (j + t <= n)%nat ->
    round_state n R j ths -> sent_since s sent ->
    let r :=
      run_threads body (has_worker n) (in_rounds n) t (R * n + j) ths s in
    exists more,
      round_state n R (j + t) (fst r)
      /\ sent_since (snd r) (sent ++ more)
      /\ map fst more = seq j t.
Proof.
  induction t as [| t IH]; intros j ths s sent B St Se.
  - exists []. cbn [run_threads ret fst snd map seq].
    rewrite Nat.add_0_r, app_nil_r.
    split; [exact St | split; [exact Se | reflexivity]].
  - cbn zeta. cbn [run_threads]. rewrite bind_run.
    change (in_rounds n (R * n + j)%nat ths) with ((R * n + j) mod n)%nat.
    rewrite mod_round by lia.
    replace (has_worker n ths j) with true
      by (symmetry; unfold has_worker; apply Nat.ltb_lt; lia).
    destruct (turn_in_round R j ths s sent HR ltac:(lia) St Se)
      as (event & St' & Se').
    destruct (IH (S j) _ _ _ ltac:(lia) St' Se') as (more & St'' & Se'' & M).
    cbn zeta in St'', Se''.
    replace (S (R * n + j)) with (R * n + S j)%nat by lia.
    exists ((j, event) :: more).
    replace (j + S t)%nat with (S j + t)%nat by lia.
    split; [exact St'' |]. split.
    + rewrite <- app_assoc in Se''. exact Se''.
    + cbn [map fst seq]. now rewrite M.
Qed.

Lemma round_state_next R ths :
  round_state n R n ths -> round_state n (S R) 0 ths.
Proof.
  intros [L W]. split; [exact L |]. intros i th N.
  destruct (W i th N) as [D I]. split; [exact D |].
  assert (i < n)%nat by (rewrite <- L; apply nth_error_Some; congruence).
  rewrite I. now replace (i <? n)%nat with true
    by (symmetry; apply Nat.ltb_lt; assumption).
Qed.

(** Whole rounds: in every round every worker sends one event. *)
Lemma rounds_of_turns r :
  forall R ths s sent,
    (R + r <= e)%nat ->
    round_state n R 0 ths -> sent_since s sent ->
    let res :=
      run_threads body (has_worker n) (in_rounds n) (r * n) (R * n) ths s in
    exists more,
      round_state n (R + r) 0 (fst res)
      /\ sent_since (snd res) (sent ++ more)
      /\ map fst more = List.concat (List.repeat (seq 0 n) r).
Proof.
  induction r as [| r IH]; intros R ths s sent B St Se.
  - exists []. cbn [Nat.mul run_threads ret fst snd map List.repeat List.concat].
    rewrite Nat.add_0_r, app_nil_r.
    split; [exact St | split; [exact Se | reflexivity]].
  - cbn zeta. cbn [Nat.mul]. rewrite run_threads_app.
    destruct (turns_in_round R ltac:(lia) n 0%nat ths s sent ltac:(lia) St Se)
      as (m1 & St1 & Se1 & M1).
    cbn zeta in St1, Se1. rewrite Nat.add_0_r in St1, Se1.
    cbn [Nat.add] in St1.
    apply round_state_next in St1.
    replace (R * n + n)%nat with (S R * n)%nat by (cbn [Nat.mul]; lia).
    destruct (IH (S R) _ _ _ ltac:(lia) St1 Se1) as (m2 & St2 & Se2 & M2).
    cbn zeta in St2, Se2.
    exists (m1 ++ m2)%list.
    replace (R + S r)%nat with (S R + r)%nat by lia.
    split; [exact St2 |]. split.
    + rewrite app_assoc. exact Se2.
    + cbn [List.repeat List.concat]. now rewrite map_app, M1, M2.
Qed.

(** The round after the last event: every worker leaves its loop, and
    nothing is sent. *)
Lemma turns_in_last_round t :
  0 <= events_per_session ->
  forall j ths s,
    (j + t <= n)%nat ->
    last_round_state n e j ths ->
    let r :=
      run_threads body (has_worker n) (in_rounds n) t (e * n + j) ths s in
    last_round_state n e (j + t) (fst r) /\ spawned (snd r) = spawned s.
Proof.
  intros He. induction t as [| t IH]; intros j ths s B St.
  - cbn. rewrite Nat.add_0_r. split; [exact St | reflexivity].
  - cbn zeta. cbn [run_threads]. rewrite bind_run.
    change (in_rounds n (e * n + j)%nat ths) with ((e * n + j) mod n)%nat.
    rewrite mod_round by lia.
    destruct St as [L W].
    assert (El : has_worker n ths j = true)
      by (unfold has_worker; apply Nat.ltb_lt; lia).
    rewrite El.
    destruct (nth_error ths j) as [th |] eqn:N;
      [| apply nth_error_None in N; lia].
    destruct (W j th N) as [D I]. rewrite Nat.ltb_irrefl in D, I.
    rewrite (step_thread_unfinished _ _ _ _ _ N D). cbn zeta.
    unfold body, worker_body. rewrite I.
    rewrite (session_worker_ends env events_per_session _ e _
               ltac:(subst e; lia)).
    cbn [negb fst snd].
    replace (S (e * n + j)) with (e * n + S j)%nat by lia.
    replace (j + S t)%nat with (S j + t)%nat by lia.
    match goal with
    | |- context [run_threads _ _ _ t _ ?ths' ?s'] =>
        destruct (IH (S j) ths' s' ltac:(lia)) as [St' Sp']
    end.
    { split; [now rewrite list_update_length |].
      intros i x. rewrite nth_error_list_update.
      destruct (Nat.eqb_spec j i) as [<- | Nj].
      - rewrite N. intros H. injection H as <-. cbn [th_done th_iter].
        now replace (j <? S j)%nat with true
          by (symmetry; apply Nat.ltb_lt; lia).
      - intros H. destruct (W i x H) as [Dx Ix]. rewrite Dx, Ix.
        destruct (Nat.ltb_spec i j), (Nat.ltb_spec i (S j));
          try (split; reflexivity); lia. }
    cbn zeta in St', Sp'. split; [exact St' | exact Sp'].
Qed.

Lemma last_round_all_done ths :
  last_round_state n e n ths -> all_done ths = true.
Proof.
  intros [L W]. unfold all_done. apply forallb_forall. intros th H.
  apply In_nth_error in H as [i N].
  destruct (W i th N) as [D _]. rewrite D. apply Nat.ltb_lt.
  rewrite <- L. apply nth_error_Some. congruence.
Qed.

Lemma round_state_last ths :
  round_state n e 0 ths -> last_round_state n e 0 ths.
Proof.
  intros [L W]. split; [exact L |]. intros i th N.
  destruct (W i th N) as [D I]. now rewrite D, I.
Qed.

Lemma round_state_start t0 :
  round_state n 0 0 (map (fun _ => spawn_thread t0) session_ids).
Proof.
  split; [apply length_map |]. intros i th N.
  apply nth_error_In, in_map_iff in N as (x & <- & _).
  split; reflexivity.
Qed.

End Rounds.

(** [concurrent_sessions_test] with at least one session: the pool of
    the workers, and what follows it. *)
Lemma concurrent_sessions_test_pool env sched turns n e s :
  1 <= n ->
  let session_ids := concurrent_session_ids n in
  let sp :=
    snd (print ("  Events per session: " ++ PyStr.of_int e)
           (snd (print ("  Sessions: " ++ PyStr.of_int n)
                   (snd (print "Starting concurrent sessions test:" s))))) in
  let ths :=
    run_threads (worker_body env e session_ids)
      (has_worker (Z.to_nat n)) sched turns 0%nat
      (map (fun _ => spawn_thread (now sp)) session_ids) sp in
  concurrent_sessions_test env sched turns n e s
  = if all_done (fst ths) then
      (Finished,
       snd (print "✅ Concurrent sessions test completed"
              (set_now (join_time (now sp) (fst ths)) (snd ths))))
    else (Pending, snd ths).
Proof.
  intros Hn session_ids sp. cbn zeta.
  unfold concurrent_sessions_test. rewrite !bind_run. fold sp.
  replace (n <=? 0) with false by (symmetry; apply Z.leb_gt; lia).
  rewrite !bind_run. fold session_ids. cbn zeta.
  change (fst (time_time sp)) with (now sp).
  change (snd (time_time sp)) with sp.
  unfold worker_body.
  destruct (all_done _); [rewrite !bind_run |]; reflexivity.
Qed.

(** With the workers taking their turns in rounds, every one of the
    [num_sessions] workers sends one event in every round: the events of
    the sessions alternate. *)
Lemma concurrent_sessions_test_in_rounds env n e s rounds :
  1 <= n -> (rounds <= Z.to_nat e)%nat ->
  let r :=
    concurrent_sessions_test env (in_rounds (Z.to_nat n))
      (rounds * Z.to_nat n) n e s in
  exists sent,
    spawned (snd r) = (spawned s ++ map doc_of sent)%list
    /\ map fst sent = List.concat (List.repeat (seq 0 (Z.to_nat n)) rounds)
    /\ (forall j event,
           In (j, event) sent ->
           valid_event_of (nth j (concurrent_session_ids n) "") event).
Proof.
  intros Hn Hr. cbn zeta.
  rewrite concurrent_sessions_test_pool by exact Hn. cbn zeta.
  destruct (concurrent_session_ids_distinct n) as [L _].
  set (session_ids := concurrent_session_ids n) in *.
  set (sp := snd (print _ (snd (print _ (snd (print _ s)))))).
  assert (NE : forall j, (j < List.length session_ids)%nat ->
                         nth j session_ids "" <> "").
  { intros j H. apply concurrent_session_id_not_empty. lia. }
  destruct (rounds_of_turns env e session_ids s NE rounds 0%nat
              (map (fun _ => spawn_thread (now sp)) session_ids) sp []
              ltac:(lia) (round_state_start session_ids (now sp)))
    as (sent & _ & [Sp V] & M).
  { split; [cbn; now rewrite app_nil_r | intros p []]. }
  cbn zeta in Sp, V. rewrite L in Sp, M.
  cbn [Nat.mul app] in Sp.
  match type of Sp with
  | spawned (snd ?x) = _ => set (ths := x) in *
  end.
  exists sent. split; [| split; [exact M |]].
  - destruct (all_done (fst ths)); exact Sp.
  - intros j event H. exact (V (j, event) H).
Qed.

(** One round more than there are events for a session, and all the
    workers have finished. *)
Lemma concurrent_sessions_test_rounds_finish env n e s :
  1 <= n -> 0 <= e ->
  fst (concurrent_sessions_test env (in_rounds (Z.to_nat n))
         (S (Z.to_nat e) * Z.to_nat n) n e s)
  = Finished.
Proof.
  intros Hn He.
  rewrite concurrent_sessions_test_pool by exact Hn. cbn zeta.
  destruct (concurrent_session_ids_distinct n) as [L _].
  set (session_ids := concurrent_session_ids n) in *.
  set (sp := snd (print _ (snd (print _ (snd (print _ s)))))).
  assert (NE : forall j, (j < List.length session_ids)%nat ->
                         nth j session_ids "" <> "").
  { intros j H. apply concurrent_session_id_not_empty. lia. }
  rewrite <- L.
  replace (S (Z.to_nat e) * List.length session_ids)%nat
    with (Z.to_nat e * List.length session_ids + List.length session_ids)%nat
    by lia.
  rewrite run_threads_app. cbn [Nat.add].
  destruct (rounds_of_turns env e session_ids sp NE (Z.to_nat e) 0%nat
              (map (fun _ => spawn_thread (now sp)) session_ids) sp []
              ltac:(lia) (round_state_start session_ids (now sp)))
    as (sent & St & _ & _).
  { split; [cbn; now rewrite app_nil_r | intros p []]. }
  cbn zeta in St. cbn [Nat.mul Nat.add] in St.
  apply round_state_last in St.
  match type of St with
  | last_round_state _ _ _ (fst ?x) => set (r1 := x) in *
  end.
  destruct (turns_in_last_round env e session_ids (List.length session_ids)
              He 0%nat (fst r1) (snd r1) ltac:(lia) St) as [St' _].
  cbn zeta in St'. rewrite Nat.add_0_r in St'. cbn [Nat.add] in St'.
  rewrite (last_round_all_done e session_ids _ St'). reflexivity.
Qed.

(** C5.  [concurrent_sessions_test] gives every one of its
    [num_sessions] workers a session id of its own ([sess_concurrent_00],
    [sess_concurrent_01], and so on, all distinct) and a thread of its
    own from the start, so that the workers run side by side: when they
    take their turns in rounds, every worker sends one event in every
    round, and the events of the sessions alternate, worker after worker,
    until the last events have been sent; one round later all have
    finished.  Whatever the order of the turns, the test returns only
    when every worker has finished, and then the documents handed to the
    hook binary since its start are the serializations of
    [num_sessions * events_per_session] valid events,
    [events_per_session] of them of every session; with the default
    arguments that is 80. *)
Theorem concurrent_sessions_test_launches :
  forall env sched turns num_sessions events_per_session s,
    1 <= num_sessions -> 0 <= events_per_session ->
    let session_ids := concurrent_session_ids num_sessions in
    let r :=
      concurrent_sessions_test env sched turns num_sessions
        events_per_session s in
    List.length session_ids = Z.to_nat num_sessions
    /\ NoDup session_ids
    /\ (forall ths j,
           (j < Z.to_nat num_sessions)%nat ->
           has_worker (Z.to_nat num_sessions) ths j = true)
    /\ (forall rounds,
           (rounds <= Z.to_nat events_per_session)%nat ->
           exists sent,
             spawned (snd (concurrent_sessions_test env
                             (in_rounds (Z.to_nat num_sessions))
                             (rounds * Z.to_nat num_sessions)
                             num_sessions events_per_session s))
             = (spawned s ++ map doc_of sent)%list
             /\ map fst sent
                = List.concat
                    (List.repeat (seq 0 (Z.to_nat num_sessions)) rounds)
             /\ (forall j event,
                    In (j, event) sent ->
                    valid_event_of (nth j session_ids "") event))
    /\ fst (concurrent_sessions_test env
              (in_rounds (Z.to_nat num_sessions))
              (S (Z.to_nat events_per_session) * Z.to_nat num_sessions)
              num_sessions events_per_session s)
       = Finished
    /\ (fst r = Finished \/ fst r = Pending)
    /\ (fst r = Finished ->
        exists sent,
          spawned (snd r) = (spawned s ++ map doc_of sent)%list
          /\ Z.of_nat (List.length sent) = num_sessions * events_per_session
          /\ (forall j,
                 (j < Z.to_nat num_sessions)%nat ->
                 Z.of_nat (sent_by j sent) = events_per_session)
          /\ (forall j event,
                 In (j, event) sent ->
                 valid_event_of (nth j session_ids "") event))
    /\ (exists turns',
           fst (concurrent_sessions_test env first_unfinished turns'
                  num_sessions events_per_session s) = Finished)
    /\ DEFAULT_NUM_SESSIONS * DEFAULT_EVENTS_PER_SESSION = 80.
Proof.
  intros env sched turns num_sessions events_per_session s Hn He session_ids.
  destruct (concurrent_session_ids_distinct num_sessions) as [L D].
  fold session_ids in L, D.
  assert (NE : forall j, (j < List.length session_ids)%nat ->
                         nth j session_ids "" <> "").
  { intros j H. apply concurrent_session_id_not_empty. lia. }
  (* the state when the workers start *)
  set (sp := snd (print ("  Events per session: "
                           ++ PyStr.of_int events_per_session)
                    (snd (print ("  Sessions: " ++ PyStr.of_int num_sessions)
                            (snd (print "Starting concurrent sessions test:"
                                    s)))))).
  assert (U : forall sched0 turns0,
             concurrent_sessions_test env sched0 turns0 num_sessions
               events_per_session s
             = let ths :=
                 run_threads
                   (worker_body env events_per_session session_ids)
                   (has_worker (Z.to_nat num_sessions)) sched0 turns0 0%nat
                   (map (fun _ => spawn_thread (now sp)) session_ids) sp in
               if all_done (fst ths) then
                 (Finished,
                  snd (print "✅ Concurrent sessions test completed"
                         (set_now (join_time (now sp) (fst ths)) (snd ths))))
               else (Pending, snd ths)).
  { intros sched0 turns0. unfold concurrent_sessions_test.
    rewrite !bind_run. fold sp.
    replace (num_sessions <=? 0) with false by (symmetry; apply Z.leb_gt; lia).
    rewrite !bind_run. fold session_ids. cbn zeta.
    change (fst (time_time sp)) with (now sp).
    change (snd (time_time sp)) with sp.
    unfold worker_body.
    destruct (all_done _); [rewrite !bind_run |]; reflexivity. }
  destruct (initial_pool session_ids (Z.to_nat events_per_session) s sp
              (now sp) eq_refl) as [Inv0 Tl0].
  intros r.
  split; [exact L |]. split; [exact D |].
  split; [intros ths j H; apply Nat.ltb_lt; lia |].
  split.
  { intros rounds Hr.
    exact (concurrent_sessions_test_in_rounds env num_sessions
             events_per_session s rounds Hn Hr). }
  split.
  { exact (concurrent_sessions_test_rounds_finish env num_sessions
             events_per_session s Hn He). }
  split; [| split; [| split; [| reflexivity]]].
  - subst r. rewrite U. cbn zeta.
    destruct (all_done _); [left | right]; reflexivity.
  - subst r. rewrite U. cbn zeta.
    destruct (run_threads_inv env events_per_session session_ids s NE
                (Z.to_nat events_per_session) eq_refl
                (has_worker (Z.to_nat num_sessions)) sched turns 0%nat _ sp []
                Inv0) as (sent & Inv).
    match goal with
    | |- context [all_done (fst ?x)] => set (rt := x) in *
    end.
    destruct (all_done (fst rt)) eqn:A; [| discriminate].
    intros _. cbn [fst snd].
    destruct Inv as (Ln & Sp & W & T & V).
    exists sent.
    assert (Dn : forall j th, nth_error (fst rt) j = Some th ->
                              th_done th = true ->
                              th_iter th = S (Z.to_nat events_per_session)).
    { intros j th N Dt. destruct (W j th N) as [_ Wi].
      now rewrite Dt in Wi. }
    split; [exact Sp |]. split; [| split].
    + rewrite T, (sent_total_done _ _ A Dn), Ln, L. nia.
    + intros j H.
      destruct (nth_error (fst rt) j) as [th |] eqn:N.
      * destruct (W j th N) as [Wc _].
        rewrite Wc, (Dn j th N (all_done_nth _ _ _ A N)). lia.
      * apply nth_error_None in N. lia.
    + intros j event H. exact (V (j, event) H).
  - exists (Z.to_nat num_sessions * S (Z.to_nat events_per_session))%nat.
    rewrite U. cbn zeta.
    pose proof (run_first_unfinished env events_per_session session_ids s NE
                  (Z.to_nat events_per_session) eq_refl _ 0%nat _ sp []
                  Inv0 Tl0) as A.
    cbn zeta in A. rewrite L in A. rewrite A. reflexivity.
Qed.

(** An instance: the default arguments, simulated in the order of
    time. *)
Lemma concurrent_sessions_test_launches_witness :
  let r :=
    concurrent_sessions_test accepting_hook in_time_order 100 8 10
      (init PyFloat.zero) in
  fst r = Finished /\ List.length (spawned (snd r)) = 80%nat.
Proof.
  destruct (concurrent_sessions_test_launches accepting_hook in_time_order
              100 8 10 (init PyFloat.zero))
    as (_ & _ & _ & _ & _ & _ & H & _); [lia | lia |].
  cbn zeta in H |- *.
  assert (F : fst (concurrent_sessions_test accepting_hook in_time_order
                     100 8 10 (init PyFloat.zero)) = Finished)
    by (vm_compute; reflexivity).
  split; [exact F |].
  destruct (H F) as (sent & Sp & Ln & _).
  rewrite Sp, length_app, length_map. cbn [init spawned List.length]. lia.
Defined.

(** ** [performance_stress_test]: the rate of the senders *)

(** The delay of a sender: for a rate of at least one event per second,
    [1.0 / events_per_second] is defined and not negative. *)
Lemma sender_delay events_per_second :
  1 <= events_per_second ->
  exists d,
    PyFloat.div PyFloat.lit_1_0 (PyFloat.of_int events_per_second) = Some d
    /\ PyFloat.ltb d PyFloat.zero = false.
Proof.
  intros H. unfold PyFloat.div.
  assert (P : 0 < PyFloat.mant (PyFloat.of_int events_per_second)).
  { unfold PyFloat.of_int. rewrite round_nonneg by lia.
    apply round_pos_pos. lia. }
  generalize dependent (PyFloat.of_int events_per_second). intros b P.
  destruct (PyFloat.mant b =? 0) eqn:E; [apply Z.eqb_eq in E; lia |].
  assert (A : 0 < Z.abs (PyFloat.mant b)) by lia.
  eexists. split; [reflexivity |].
  change (PyFloat.mant PyFloat.lit_1_0) with 1.
  rewrite (Z.sgn_pos (PyFloat.mant b)) by exact P.
  change (Z.sgn 1 * 1) with 1. rewrite Z.mul_1_l.
  match goal with
  | |- context [2 * (?n / ?m) + ?k] =>
      assert (Q : 0 <= n / m)
        by (apply Z.div_pos; [| exact A];
            apply Z.mul_nonneg_nonneg; [lia |]; apply Z.pow_nonneg; lia);
      assert (K : 0 <= k)
        by (match goal with
            | |- context [if ?c then _ else _] => destruct c
            end; lia);
      set (p := 2 * (n / m) + k) in *
  end.
  assert (Hp : 0 <= p) by lia.
  rewrite round_nonneg by exact Hp.
  pose proof (round_pos_nonneg p
                (PyFloat.expo PyFloat.lit_1_0 - PyFloat.expo b
                 - (56 + Z.log2 (Z.abs (PyFloat.mant b))) - 1) Hp) as M.
  set (d := PyFloat.round_pos p _) in *.
  unfold PyFloat.ltb, PyFloat.align. cbn [PyFloat.mant PyFloat.expo PyFloat.zero].
  apply Z.ltb_ge. rewrite Z.mul_0_l.
  apply Z.mul_nonneg_nonneg; [exact M |]. apply Z.pow_nonneg. lia.
Qed.

Lemma send_event_now env ed timeout s :
  now (snd (send_event env ed timeout s))
  = PyFloat.add (now s)
      (snd (env_hook env (List.length (spawned s)) (json_data_of ed) timeout)).
Proof.
  rewrite send_event_unfold. cbn zeta.
  destruct (env_hook env _ _ _) as [r elapsed].
  destruct r as [returncode stdout stderr | | msg];
    [destruct (returncode =? 0) | |]; reflexivity.
Qed.

(** An iteration of the loop of [event_sender], for a rate of at least
    one event per second: the sender submits one event and then sleeps
    [1.0 / events_per_second] seconds, so that on its own it submits no
    more than [events_per_second] events in a second. *)
Lemma event_sender_delays env end_time events_per_second session_pool s :
  PyFloat.ltb (now s) end_time && running s = true ->
  1 <= events_per_second ->
  exists d doc elapsed,
    PyFloat.div PyFloat.lit_1_0 (PyFloat.of_int events_per_second) = Some d
    /\ fst (event_sender env end_time events_per_second session_pool s) = true
    /\ spawned (snd (event_sender env end_time events_per_second
                       session_pool s))
       = (spawned s ++ [doc])%list
    /\ now (snd (event_sender env end_time events_per_second session_pool s))
       = PyFloat.add (PyFloat.add (now s) elapsed) d.
Proof.
  intros H R. destruct (sender_delay events_per_second R) as (d & Dv & Dn).
  unfold event_sender. rewrite bind_run, bind_run.
  change (fst (time_time s)) with (now s).
  change (snd (time_time s)) with s.
  change (fst (get running s)) with (running s).
  change (snd (get running s)) with s.
  rewrite H, bind_run.
  pose proof (choice_state env session_pool "" s) as E1.
  destruct (choice env session_pool "" s) as [session_id s1].
  cbn [fst snd] in E1 |- *.
  rewrite bind_run.
  pose proof (generate_event_state env (Some session_id) None s1) as E2.
  destruct (generate_event env (Some session_id) None s1) as [event s2].
  cbn [fst snd] in E2 |- *.
  assert (N2 : now s2 = now s) by (rewrite E2, E1; reflexivity).
  assert (S2 : spawned s2 = spawned s) by (rewrite E2, E1; reflexivity).
  rewrite bind_run.
  pose proof (send_event_frame env (Dict event) 5 s2) as (_ & _ & _ & F).
  pose proof (send_event_now env (Dict event) 5 s2) as T.
  destruct (send_event env (Dict event) 5 s2)
    as [[[success latency] output] s3].
  cbn [fst snd] in F, T |- *.
  exists d, (json_data_of (Dict event)),
    (snd (env_hook env (List.length (spawned s2))
            (json_data_of (Dict event)) 5)).
  split; [exact Dv |].
  rewrite bind_run, Dv, Dn, bind_run.
  assert (W : forall b line st,
             spawned (snd (when b (print line) st)) = spawned st
             /\ now (snd (when b (print line) st)) = now st)
    by (intros [|] ? ?; split; reflexivity).
  destruct (W (negb success
               && negb (PyStr.contains "validation failed" output))
              ("⚠️  Event failed: " ++ PyStr.take 100 output) s3) as [W1 W2].
  split; [reflexivity |]. cbn [ret fst snd]. split.
  - change (spawned (snd (sleep d ?st))) with (spawned st).
    rewrite W1, F, S2. reflexivity.
  - change (now (snd (sleep d ?st))) with (PyFloat.add (now st) d).
    rewrite W2, T, N2. reflexivity.
Qed.

(** C4.  [run_full_test_suite] calls [performance_stress_test] for 30
    seconds at 10 events per second, over a pool of 8 session ids, and
    the test announces a target rate of 10 events per second and 300
    events.  But it runs three senders, and each of them sleeps
    [1.0 / 10] seconds after every event ([event_sender_delays]).  With a
    hook binary that answers in 1/128 of a second and the threads
    simulated in the order of time, the three senders submit 837 events
    in the 30 seconds, about 28 per second and not 10.  In the whole
    suite that makes 1022 events: 5 of the error injection, 80 of the
    concurrent sessions, the 837, none of the resource monitoring and 100
    of the log rotation. *)
Theorem performance_stress_test_overshoots :
  let r :=
    performance_stress_test quick_hook in_time_order 900 30 10
      (init (PyFloat.of_int 1700000000)) in
  let suite :=
    run_full_test_suite quick_hook "./tools/irrlicht-hook/irrlicht-hook"
      in_time_order 900 10 (init (PyFloat.of_int 1700000000)) in
  fst r = Finished
  /\ List.length (spawned (snd r)) = 837%nat
  /\ events_processed (results (snd r)) = 837
  /\ In "  Target rate: 10 events/second" (console (snd r))
  /\ In "  Expected total: 300 events" (console (snd r))
  /\ SENDERS = 3%nat
  /\ List.length perf_session_pool = 8%nat
  /\ PyFloat.div PyFloat.lit_1_0 (PyFloat.of_int 10)
     = Some (PyFloat.mk 7205759403792794 (-56))
  /\ fst suite = Finished
  /\ In "  Duration: 30s" (console (snd suite))
  /\ In "  Target rate: 10 events/second" (console (snd suite))
  /\ In "  Expected total: 300 events" (console (snd suite))
  /\ List.length (spawned (snd suite)) = (5 + 80 + 837 + 0 + 100)%nat.
Proof.
  vm_compute. repeat split; auto 30.
Qed.

(** * More of the runner *)

(** ** The steps of a computation *)

Lemma run_trans env P s s' s'' :
  run env P s s' -> run env P s' s'' -> run env P s s''.
Proof.
  intros H1 H2. induction H2 as [| s1 s2 s3 _ IH St]; [exact H1 |].
  exact (run_step env P _ _ _ (IH H1) St).
Qed.

Lemma run_one env P s s' : step env P s s' -> run env P s s'.
Proof. intros H. exact (run_step env P _ _ _ (run_refl env P s) H). Qed.

Lemma run_weaken env (P P' : action -> Prop) s s' :
  (forall a, P a -> P' a) -> run env P s s' -> run env P' s s'.
Proof.
  intros W H. induction H as [| s1 s2 s3 _ IH St]; [apply run_refl |].
  apply (run_step env P' _ _ _ IH).
  destruct St; constructor; try apply W; assumption.
Qed.

(** A property of the state that every step keeps holds after every
    run. *)
Lemma run_invariant env P (I : state -> Prop) :
  (forall s s', step env P s s' -> I s -> I s') ->
  forall s s', run env P s s' -> I s -> I s'.
Proof.
  intros K s s' H. induction H as [| s1 s2 s3 _ IH St]; [tauto |].
  intros H0. exact (K _ _ St (IH H0)).
Qed.

Lemma yields_ret {A} env P (Q : A -> Prop) a : Q a -> yields env P Q (ret a).
Proof. intros H s. split; [apply run_refl | exact H]. Qed.

Lemma yields_bind {A B} env P (Q1 : A -> Prop) (Q : B -> Prop)
  (c : M A) (k : A -> M B) :
  yields env P Q1 c -> (forall a, Q1 a -> yields env P Q (k a)) ->
  yields env P Q (bind c k).
Proof.
  intros Hc Hk s. rewrite bind_run.
  destruct (Hc s) as [R1 V1].
  destruct (Hk _ V1 (snd (c s))) as [R2 V2].
  split; [exact (run_trans _ _ _ _ _ R1 R2) | exact V2].
Qed.

Lemma yields_weaken {A} env P (Q Q' : A -> Prop) c :
  yields env P Q c -> (forall a, Q a -> Q' a) -> yields env P Q' c.
Proof. intros H W s. destruct (H s) as [R V]. split; [exact R | exact (W _ V)]. Qed.

Lemma yields_events {A} env (P P' : action -> Prop) (Q : A -> Prop) c :
  yields env P Q c -> (forall a, P a -> P' a) -> yields env P' Q c.
Proof.
  intros H W s. destruct (H s) as [R V].
  split; [exact (run_weaken _ _ _ _ _ W R) | exact V].
Qed.

Lemma yields_print env P line : yields env P (@any unit) (print line).
Proof. intros s. split; [apply run_one, step_print | exact I]. Qed.

Lemma yields_sleep env P d : yields env P (@any unit) (sleep d).
Proof. intros s. split; [apply run_one, step_clock | exact I]. Qed.

Lemma yields_get {A} env P (f : state -> A) : yields env P (@any A) (get f).
Proof. intros s. split; [apply run_refl | exact I]. Qed.

Lemma yields_when env P b c :
  yields env P (@any unit) c -> yields env P (@any unit) (when b c).
Proof. intros H. destruct b; [exact H | now apply yields_ret]. Qed.

Lemma yields_choice {A} env P (l : list A) d :
  l <> [] -> yields env P (fun a => In a l) (choice env l d).
Proof.
  intros H s. split; [| apply choice_In; exact H].
  rewrite choice_state. apply run_one, step_draw.
Qed.

Lemma yields_randint env P a b :
  a <= b -> yields env P (fun x => a <= x <= b) (randint env a b).
Proof.
  intros H s. split; [| apply randint_range; exact H].
  apply run_one. exact (step_draw env P (S (draws s)) s).
Qed.

Lemma yields_send_event env (P : action -> Prop) ed timeout :
  P (Send ed) ->
  yields env P (@any (bool * number * string)) (send_event env ed timeout).
Proof. intros H s. split; [apply run_one, step_send; exact H | exact I]. Qed.

Lemma yields_for_each {A} env P (l : list A) body :
  (forall x, In x l -> yields env P (@any unit) (body x)) ->
  yields env P (@any unit) (for_each l body).
Proof.
  induction l as [| x l IH]; intros H; [now apply yields_ret |].
  cbn [for_each]. apply (yields_bind env P (@any unit)).
  - apply H. now left.
  - intros _ _. apply IH. intros y Hy. apply H. now right.
Qed.

(** ** [generate_event]: what an event is made of *)

Lemma generate_event_contents env session_id event_type s :
  generated env session_id event_type
    (fst (generate_event env session_id event_type s))
  /\ dict_get "timestamp" (fst (generate_event env session_id event_type s))
     = Some (JStr (timestamp_of (now s))).
Proof.
  unfold generate_event, generated. rewrite !bind_run.
  set (c1 := match given session_id with
             | Some sid => ret sid
             | None =>
                 n <- randint env 100000 999999 ;;
                 ret ("sess_stress_" ++ PyStr.of_int n)
             end).
  set (c2 := match given event_type with
             | Some ty => ret ty
             | None => choice env EVENT_TYPES ""
             end).
  assert (H1 : now (snd (c1 s)) = now s /\ session_id_for session_id (fst (c1 s))).
  { unfold c1, session_id_for. destruct (given session_id) as [sid |].
    - split; reflexivity.
    - rewrite bind_run. split; [reflexivity |]. cbn [ret fst].
      eexists. split; [| reflexivity]. apply randint_range. lia. }
  destruct (event_type_choice env event_type (snd (c1 s))) as [T2 A2].
  fold c2 in T2, A2.
  destruct H1 as [T1 S1].
  set (r1 := c1 s) in *. set (r2 := c2 (snd r1)) in *.
  cbn [ret fst].
  change (fst (time_time (snd r2))) with (now (snd r2)).
  change (snd (time_time (snd r2))) with (snd r2).
  set (m := choice env MODELS "" (snd r2)).
  assert (Hm : In (fst m) MODELS) by (apply choice_In; discriminate).
  split.
  2: { cbn [dict_get String.eqb Ascii.eqb Bool.eqb andb].
       unfold timestamp_of. rewrite T2, T1. reflexivity. }
  exists (fst r1), (fst r2),
    (PyStr.of_int (PyFloat.to_int
                     (PyFloat.mul (now (snd r2)) (PyFloat.of_int 1000000)))),
    (fst m).
  unfold extra_data.
  destruct (String.eqb (fst r2) "UserPromptSubmit");
    [| destruct (String.eqb (fst r2) "Notification")].
  - rewrite !bind_run. cbn [ret fst].
    eexists. split; [reflexivity |].
    split; [exact S1 |]. split; [exact A2 |]. split; [exact Hm |].
    do 3 eexists. split; [reflexivity |].
    split; apply randint_range; lia.
  - rewrite !bind_run. cbn [ret fst].
    eexists. split; [reflexivity |].
    split; [exact S1 |]. split; [exact A2 |]. split; [exact Hm |].
    eexists. split; [reflexivity |]. apply choice_In. discriminate.
  - cbn [ret fst].
    exists []. rewrite app_nil_r. split; [reflexivity |].
    split; [exact S1 |]. split; [exact A2 |]. split; [exact Hm |]. reflexivity.
Qed.

Lemma generated_valid env session_id event_type event :
  generated env session_id event_type event ->
  (forall ty, given event_type = Some ty -> In ty EVENT_TYPES) ->
  exists sid, session_id_for session_id sid /\ valid_event_of sid event.
Proof.
  intros (sid & ty & ts & model & extra & E & S & T & _ & _) A.
  exists sid. split; [exact S |]. subst event.
  split; [| split; [reflexivity | split; [| split]]].
  - unfold session_id_for in S.
    pose proof (given_not_empty session_id) as G.
    destruct (given session_id) as [x |].
    + subst sid. now apply G.
    + destruct S as (n & _ & ->). discriminate.
  - exists ty. split; [reflexivity |].
    unfold event_type_for in T.
    destruct (given event_type) as [x |]; [| exact T].
    subst ty. now apply A.
  - eexists. reflexivity.
  - eexists. reflexivity.
Qed.

Lemma yields_generate_event env P session_id event_type :
  yields env P (generated env session_id event_type)
    (generate_event env session_id event_type).
Proof.
  intros s. split; [| apply generate_event_contents].
  rewrite generate_event_state. apply run_one, step_draw.
Qed.

Lemma yields_bind_any {A B} env P (Q : B -> Prop) (c : M A) (k : A -> M B) :
  yields env P (@any A) c -> (forall a, yields env P Q (k a)) ->
  yields env P Q (bind c k).
Proof. intros Hc Hk. apply (yields_bind env P (@any A)); auto. Qed.

Lemma yields_any {A} env P (Q : A -> Prop) c :
  yields env P Q c -> yields env P (@any A) c.
Proof. intros H. apply (yields_weaken env P Q); [exact H | intros; exact I]. Qed.

(** ** The loops of the threads *)

Lemma yields_session_worker env (P : action -> Prop) e sid i :
  sid <> "" ->
  (forall event, valid_event_of sid event -> P (Send (Dict event))) ->
  yields env P (@any bool) (session_worker env e sid i).
Proof.
  intros S V. unfold session_worker.
  destruct (Z.of_nat i <? e); [| now apply yields_ret].
  destruct (session_event_type i) as [T0 T1]. cbn zeta in T0, T1.
  eapply yields_bind; [apply yields_generate_event |].
  intros event G.
  destruct (generated_valid _ _ _ _ G) as (sid' & Sf & Ve).
  { intros ty H. rewrite (given_some _ T0) in H. injection H as <-. exact T1. }
  unfold session_id_for in Sf. rewrite (given_some sid S) in Sf. subst sid'.
  apply yields_bind_any; [apply yields_send_event, V, Ve |].
  intros [[success latency] output].
  apply yields_bind_any; [apply yields_when, yields_print |]. intros _.
  apply yields_bind_any; [apply yields_sleep |]. intros _.
  now apply yields_ret.
Qed.

Lemma yields_event_sender env (P : action -> Prop) end_time eps pool :
  pool <> [] -> ~ In "" pool ->
  (forall event sid, In sid pool -> valid_event_of sid event ->
                     P (Send (Dict event))) ->
  yields env P (@any bool) (event_sender env end_time eps pool).
Proof.
  intros N E V. unfold event_sender.
  apply yields_bind_any; [apply yields_get |]. intros t.
  apply yields_bind_any; [apply yields_get |]. intros r.
  destruct (PyFloat.ltb t end_time && r); [| now apply yields_ret].
  eapply yields_bind; [apply yields_choice, N |]. intros sid Hs.
  eapply yields_bind; [apply yields_generate_event |]. intros event G.
  assert (S : sid <> "") by (intros ->; exact (E Hs)).
  destruct (generated_valid _ _ _ _ G) as (sid' & Sf & Ve).
  { intros ty H. discriminate H. }
  unfold session_id_for in Sf. rewrite (given_some sid S) in Sf. subst sid'.
  apply yields_bind_any; [apply yields_send_event, (V event sid Hs Ve) |].
  intros [[success latency] output].
  apply yields_bind_any; [apply yields_when, yields_print |]. intros _.
  destruct (PyFloat.div _ _) as [d |]; [| now apply yields_ret].
  destruct (PyFloat.ltb d PyFloat.zero); [now apply yields_ret |].
  apply yields_bind_any; [apply yields_sleep |]. intros _.
  now apply yields_ret.
Qed.

Lemma yields_progress_monitor env (P : action -> Prop) end_time i :
  P Stop -> yields env P (@any bool) (progress_monitor end_time i).
Proof.
  intros St.
  unfold progress_monitor.
  apply yields_bind_any.
  { apply yields_when. unfold report_progress.
    apply yields_bind_any; [apply yields_get |]. intros t.
    apply yields_bind_any; [apply yields_get |]. intros res.
    apply yields_print. }
  intros _.
  apply yields_bind_any; [apply yields_get |]. intros t.
  apply yields_bind_any; [apply yields_get |]. intros r.
  destruct (PyFloat.ltb t end_time && r).
  - apply yields_bind_any; [apply yields_sleep |]. intros _.
    now apply yields_ret.
  - apply yields_bind_any; [| intros _; now apply yields_ret].
    intros s. split; [apply run_one, step_stop, St | exact I].
Qed.

Lemma yields_step_thread env P body j ths :
  ((j < List.length ths)%nat -> forall i, yields env P (@any bool) (body j i)) ->
  yields env P (fun ths' => List.length ths' = List.length ths)
    (step_thread body j ths).
Proof.
  intros H. unfold step_thread.
  destruct (nth_error ths j) as [th |] eqn:N; [| now apply yields_ret].
  destruct (th_done th); [now apply yields_ret |].
  assert (J : (j < List.length ths)%nat) by (apply nth_error_Some; congruence).
  apply yields_bind_any.
  { intros s. split; [apply run_one, step_clock | exact I]. }
  intros _. apply yields_bind_any; [apply (H J) |]. intros continue.
  apply yields_bind_any; [apply yields_get |]. intros t.
  apply yields_ret. apply list_update_length.
Qed.

Lemma yields_run_threads env P body eligible sched turns n :
  (forall j i, (j < n)%nat -> yields env P (@any bool) (body j i)) ->
  forall k ths,
    List.length ths = n ->
    yields env P (fun ths' => List.length ths' = n)
      (run_threads body eligible sched turns k ths).
Proof.
  intros H. induction turns as [| turns IH]; intros k ths L;
    [now apply yields_ret |].
  cbn [run_threads].
  apply (yields_bind env P (fun ths' => List.length ths' = n));
    [| intros ths' L'; now apply IH].
  destruct (eligible ths (sched k ths)); [| now apply yields_ret].
  eapply yields_weaken; [apply yields_step_thread |].
  - intros J i. apply H. lia.
  - intros ths' L'. cbn beta in L'. lia.
Qed.

(** ** The tests *)

Lemma yields_error_injection_test env :
  yields env (sends is_text) (@any unit) (error_injection_test env).
Proof.
  unfold error_injection_test.
  apply yields_bind_any; [apply yields_print |]. intros _.
  apply yields_bind_any; [| intros _; apply yields_print].
  apply yields_for_each. intros [test_name generator] H.
  unfold error_scenario.
  apply yields_bind_any; [apply yields_print |]. intros _.
  apply yields_bind_any.
  { assert (F : Forall (fun sc => yields env (sends is_text) (@any string)
                                   (snd sc))
                  (error_scenarios env)).
    { unfold error_scenarios. repeat apply Forall_cons; cbn [snd].
      - eapply yields_any, yields_choice. discriminate.
      - apply yields_ret. exact I.
      - apply yields_ret. exact I.
      - apply yields_bind_any; [apply yields_get |].
        intros t. apply yields_ret. exact I.
      - apply yields_bind_any; [apply yields_get |].
        intros t. apply yields_ret. exact I.
      - apply Forall_nil. }
    rewrite Forall_forall in F. exact (F _ H). }
  intros doc.
  apply yields_bind_any; [apply yields_send_event; exists doc; reflexivity |].
  intros [[[|] latency] output]; apply yields_print.
Qed.

Lemma yields_concurrent_sessions_test env sched turns n e :
  yields env (sends (valid_in (fun sid => In sid (concurrent_session_ids n))))
    (fun c => 0 < n -> returns c)
    (concurrent_sessions_test env sched turns n e).
Proof.
  unfold concurrent_sessions_test.
  do 3 (apply yields_bind_any; [apply yields_print |]; intros _).
  destruct (n <=? 0) eqn:Hn.
  { apply yields_ret. apply Z.leb_le in Hn. lia. }
  apply Z.leb_gt in Hn.
  apply yields_bind_any; [apply yields_get |]. intros t0.
  destruct (concurrent_session_ids_distinct n) as [L _].
  eapply yields_bind.
  { apply (yields_run_threads _ _ _ _ _ _
             (List.length (concurrent_session_ids n)));
      [| apply length_map].
    intros j i J.
    assert (In (nth j (concurrent_session_ids n) "")
              (concurrent_session_ids n)) by now apply nth_In.
    apply yields_session_worker.
    - apply concurrent_session_id_not_empty. lia.
    - intros event V. eexists _, _. split; [reflexivity |].
      split; [eassumption | exact V]. }
  intros ths _. destruct (all_done ths); [| now apply yields_ret].
  apply yields_bind_any.
  { intros s. split; [apply run_one, step_clock | exact I]. }
  intros _. apply yields_bind_any; [apply yields_print |]. intros _.
  now apply yields_ret.
Qed.

Lemma perf_session_pool_ids :
  perf_session_pool <> [] /\ ~ In "" perf_session_pool.
Proof.
  split; [discriminate |]. vm_compute.
  intros H. repeat (destruct H as [H | H]; [discriminate H |]). exact H.
Qed.

Lemma send_event_times env ed timeout s :
  let s' := snd (send_event env ed timeout s) in
  start_time (results s') = start_time (results s)
  /\ end_time (results s') = end_time (results s)
  /\ exists l, latencies (results s') = (latencies (results s) ++ l)%list.
Proof.
  rewrite send_event_unfold. cbn zeta.
  destruct (env_hook env _ _ _) as [r elapsed].
  destruct r as [returncode stdout stderr | | msg];
    [destruct (returncode =? 0) | |]; cbn;
    (split; [reflexivity |]); (split; [reflexivity |]);
    try (exists []; symmetry; apply app_nil_r).
  eexists. reflexivity.
Qed.

Lemma step_start_time env A s s' :
  step env A s s' ->
  start_time (results s) <> None -> start_time (results s') <> None.
Proof.
  intros St H. destruct St; try exact H.
  - discriminate.
  - destruct (send_event_times env ed timeout s) as (E & _).
    cbn zeta in E. rewrite E. exact H.
Qed.

Lemma yields_performance_stress_test env sched turns duration eps :
  yields env (timed (valid_in (fun sid => In sid perf_session_pool)))
    returns (performance_stress_test env sched turns duration eps).
Proof.
  unfold performance_stress_test.
  do 4 (apply yields_bind_any; [apply yields_print |]; intros _).
  apply yields_bind_any; [apply yields_get |]. intros t0.
  destruct perf_session_pool_ids as [N E].
  set (A := timed (valid_in (fun sid => In sid perf_session_pool))).
  intros s. rewrite bind_run.
  set (s1 := snd (modify (set_results (set_start_time t0)) s)).
  rewrite bind_run.
  match goal with
  | |- context [run_threads ?b ?el sched turns 0%nat ?ths s1] =>
      set (r := run_threads b el sched turns 0%nat ths s1);
      assert (Y : run env A s1 (snd r))
  end.
  { apply (yields_run_threads env A _ _ sched turns (S SENDERS));
      [| apply repeat_length].
    intros j i J. destruct (j <? SENDERS)%nat.
    - apply yields_event_sender; [exact N | exact E |].
      intros event sid Hs V. exists event, sid. tauto.
    - apply yields_progress_monitor. exact I. }
  assert (S1 : run env A s s1) by (apply run_one, step_start; exact I).
  assert (T : start_time (results (snd r)) <> None).
  { apply (run_invariant env A (fun s => start_time (results s) <> None)
             (step_start_time env A) _ _ Y). discriminate. }
  pose proof (run_trans _ _ _ _ _ S1 Y) as R.
  destruct (all_done (fst r)); [| split; [exact R | discriminate]].
  rewrite !bind_run. cbn [modify time_time get ret fst snd].
  split; [| discriminate].
  eapply run_step; [eapply run_step; [eapply run_step; [exact R |] |] |].
  - apply step_clock.
  - apply step_end; [exact I | exact T].
  - apply step_print.
Qed.

Lemma monitor_session_pool_ids :
  monitor_session_pool <> [] /\ ~ In "" monitor_session_pool.
Proof.
  split; [discriminate |]. vm_compute.
  intros H. repeat (destruct H as [H | H]; [discriminate H |]). exact H.
Qed.

Lemma yields_resource_monitoring_loop env fuel end_time :
  yields env (sends (valid_in (fun sid => In sid monitor_session_pool)))
    returns
    (resource_monitoring_loop env fuel end_time monitor_session_pool).
Proof.
  destruct monitor_session_pool_ids as [N E].
  induction fuel as [| fuel IH]; [apply yields_ret; discriminate |].
  cbn [resource_monitoring_loop].
  apply yields_bind_any; [apply yields_get |]. intros t.
  apply yields_bind_any; [apply yields_get |]. intros r.
  destruct (PyFloat.ltb t end_time && r); [| apply yields_ret; discriminate].
  eapply yields_bind; [apply yields_choice, N |]. intros sid Hs.
  eapply yields_bind; [apply yields_generate_event |]. intros event G.
  assert (S : sid <> "") by (intros ->; exact (E Hs)).
  destruct (generated_valid _ _ _ _ G) as (sid' & Sf & Ve).
  { intros ty H. discriminate H. }
  unfold session_id_for in Sf. rewrite (given_some sid S) in Sf. subst sid'.
  apply yields_bind_any.
  { apply yields_send_event. eexists _, _. split; [reflexivity |].
    split; [exact Hs | exact Ve]. }
  intros [[success latency] output].
  apply yields_bind_any; [apply yields_when, yields_print |]. intros _.
  apply yields_bind_any; [apply yields_sleep |]. intros _.
  exact IH.
Qed.

Lemma yields_resource_monitoring_test env fuel duration :
  yields env (sends (valid_in (fun sid => In sid monitor_session_pool)))
    returns (resource_monitoring_test env fuel duration).
Proof.
  unfold resource_monitoring_test.
  apply yields_bind_any; [apply yields_print |]. intros _.
  apply yields_bind_any; [apply yields_get |]. intros t.
  eapply yields_bind; [apply yields_resource_monitoring_loop |].
  intros [| msg |] R; try (apply yields_ret; exact R).
  apply yields_bind_any; [apply yields_print |]. intros _.
  apply yields_ret. exact R.
Qed.

(** ** [log_rotation_test]: the large event *)

(** The event of [log_rotation_test]: the generated event, with the
    large field at the end of its data. *)
Lemma with_large_field_generated env session_id event_type event :
  generated env session_id event_type event ->
  exists sid ty timestamp data,
    event = [ ("hook_event_name", JStr ty); ("session_id", JStr sid);
              ("timestamp", JStr timestamp); ("data", JObj data) ]
    /\ with_large_field event
       = [ ("hook_event_name", JStr ty); ("session_id", JStr sid);
           ("timestamp", JStr timestamp);
           ("data", JObj (data ++ [large_field])) ]
    /\ dict_get "large_field" data = None.
Proof.
  intros (sid & ty & ts & model & extra & E & _ & _ & _ & X).
  exists sid, ty, ts. eexists. split; [exact E |]. subst event.
  unfold extra_data in X.
  destruct (String.eqb ty "UserPromptSubmit");
    [destruct X as (pl & ha & mid & -> & _)
    | destruct (String.eqb ty "Notification");
      [destruct X as (nt & -> & _) | subst extra]];
    split; reflexivity.
Qed.

Lemma with_large_field_valid env session_id event_type event sid :
  generated env session_id event_type event ->
  valid_event_of sid event -> valid_event_of sid (with_large_field event).
Proof.
  intros G (S & Hs & (ty & Ht & It) & _ & _).
  destruct (with_large_field_generated _ _ _ _ G)
    as (sid' & ty' & ts & data & E & -> & _).
  subst event. cbn in Hs, Ht.
  split; [exact S |]. split; [exact Hs |]. split; [| split].
  - exists ty. split; [exact Ht | exact It].
  - eexists. reflexivity.
  - eexists. reflexivity.
Qed.

Lemma yields_log_rotation_test env :
  yields env (sends (valid_in made_up)) (@any unit) (log_rotation_test env).
Proof.
  unfold log_rotation_test.
  apply yields_bind_any; [apply yields_print |]. intros _.
  eapply yields_bind; [apply yields_generate_event |]. intros event G.
  destruct (generated_valid _ _ _ _ G) as (sid & Sf & Ve).
  { intros ty H. discriminate H. }
  apply yields_bind_any; [apply yields_print |]. intros _.
  apply yields_bind_any.
  { apply yields_for_each. intros i _.
    apply yields_bind_any; [| intros _; apply yields_when, yields_print].
    apply yields_send_event. eexists _, sid. split; [reflexivity |].
    split; [exact Sf | exact (with_large_field_valid _ _ _ _ _ G Ve)]. }
  intros _.
  apply yields_bind_any; [| intros _; apply yields_print].
  destruct (env_log_files env); [apply yields_print | apply yields_ret; exact I].
Qed.

(** ** The suite *)

Lemma yields_print_results env P : yields env P (@any completion) print_results.
Proof.
  unfold print_results.
  apply yields_bind_any; [apply yields_get |]. intros res.
  destruct (latencies res).
  { apply yields_bind_any; [apply yields_print |]. intros _.
    apply yields_ret. exact I. }
  destruct (duration_of res) as [duration |]; [| apply yields_ret; exact I].
  destruct (avg_latency_of res) as [avg |]; [| apply yields_ret; exact I].
  destruct (p95_latency_of res) as [p95 |]; [| apply yields_ret; exact I].
  do 7 (apply yields_bind_any; [apply yields_print |]; intros _).
  apply yields_bind_any.
  { apply yields_when. destruct (PyFloat.div _ _);
      [apply yields_print | apply yields_ret; exact I]. }
  intros _.
  apply yields_bind_any; [apply yields_print |]. intros _.
  apply yields_bind_any.
  { destruct (PyFloat.ltb avg _); [| destruct (PyFloat.ltb avg _)];
      apply yields_print. }
  intros _.
  apply yields_bind_any.
  { destruct (PyFloat.ltb p95 _); apply yields_print. }
  intros _. apply yields_ret. exact I.
Qed.

Lemma sends_timed (P P' : event_data -> Prop) a :
  (forall ed, P ed -> P' ed) -> sends P a -> timed P' a.
Proof. intros W. destruct a; cbn; auto. Qed.

Lemma timed_weaken (P P' : event_data -> Prop) a :
  (forall ed, P ed -> P' ed) -> timed P a -> timed P' a.
Proof. intros W. destruct a; cbn; auto. Qed.

Lemma valid_in_harness_event (pool : string -> Prop) ed :
  valid_in pool ed -> harness_event ed.
Proof.
  intros (event & sid & E & _ & V). right. exists event, sid. tauto.
Qed.

Lemma is_text_harness_event ed : is_text ed -> harness_event ed.
Proof. intros H. left. exact H. Qed.

Lemma yields_and_then env P (Q1 Q2 : completion -> Prop) c1 c2 :
  yields env P Q1 c1 -> yields env P Q2 c2 ->
  (forall c, c <> Finished -> Q1 c -> Q2 c) ->
  yields env P Q2 (and_then c1 c2).
Proof.
  intros H1 H2 W. unfold and_then.
  eapply yields_bind; [exact H1 |].
  intros [| msg |] H; [exact H2 | |]; apply yields_ret, W;
    try exact H; discriminate.
Qed.

Lemma yields_finished env P (Q : completion -> Prop) (c : M unit) :
  yields env P (@any unit) c -> Q Finished -> yields env P Q (c ;; ret Finished).
Proof.
  intros H F. apply yields_bind_any; [exact H |].
  intros _. apply yields_ret, F.
Qed.

Lemma returns_Finished : returns Finished.
Proof. discriminate. Qed.

(** The five tests one after the other, as [run_full_test_suite] and the
    modes of [main] run them. *)
Lemma yields_tests env sched turns fuel :
  yields env (timed harness_event) returns
    (and_then (error_injection_test env ;; print "" ;; ret Finished)
       (and_then (and_then (concurrent_sessions_test env sched turns
                              DEFAULT_NUM_SESSIONS DEFAULT_EVENTS_PER_SESSION)
                    (print "" ;; ret Finished))
       (and_then (and_then (performance_stress_test env sched turns 30 10)
                    (print "" ;; ret Finished))
       (and_then (and_then (resource_monitoring_test env fuel 20)
                    (print "" ;; ret Finished))
                 (log_rotation_test env ;; print "" ;; ret Finished))))).
Proof.
  assert (Pr : yields env (timed harness_event) returns
                 (print "" ;; ret Finished)).
  { apply yields_finished; [apply yields_print | exact returns_Finished]. }
  apply (yields_and_then _ _ returns).
  { apply yields_bind_any; [| intros _; exact Pr].
    eapply yields_events; [apply yields_error_injection_test |].
    intros a. apply sends_timed, is_text_harness_event. }
  2: { intros c _ H. exact H. }
  apply (yields_and_then _ _ returns).
  { apply (yields_and_then _ _ returns); [| exact Pr | intros c _ H; exact H].
    eapply yields_weaken;
      [eapply yields_events; [apply yields_concurrent_sessions_test |] |].
    - intros a. apply sends_timed, valid_in_harness_event.
    - intros c H. apply H. reflexivity. }
  2: { intros c _ H. exact H. }
  apply (yields_and_then _ _ returns).
  { apply (yields_and_then _ _ returns); [| exact Pr | intros c _ H; exact H].
    eapply yields_events; [apply yields_performance_stress_test |].
    intros a. apply timed_weaken, valid_in_harness_event. }
  2: { intros c _ H. exact H. }
  apply (yields_and_then _ _ returns).
  { apply (yields_and_then _ _ returns); [| exact Pr | intros c _ H; exact H].
    eapply yields_events; [apply yields_resource_monitoring_test |].
    intros a. apply sends_timed, valid_in_harness_event. }
  2: { intros c _ H. exact H. }
  apply yields_bind_any; [| intros _; exact Pr].
  eapply yields_events; [apply yields_log_rotation_test |].
  intros a. apply sends_timed, valid_in_harness_event.
Qed.

Lemma yields_run_full_test_suite env hook_binary sched turns fuel :
  yields env (timed harness_event) (@any completion)
    (run_full_test_suite env hook_binary sched turns fuel).
Proof.
  unfold run_full_test_suite.
  do 3 (apply yields_bind_any; [apply yields_print |]; intros _).
  apply yields_bind_any; [eapply yields_any, yields_tests |].
  intros [| msg |].
  - apply yields_print_results.
  - apply yields_bind_any; [apply yields_print_results |].
    intros [| msg' |]; apply yields_ret; exact I.
  - apply yields_ret. exact I.
Qed.

Lemma yields_mode env args sched turns fuel :
  yields env (timed harness_event) (@any completion)
    (match arg_test args with
     | All => run_full_test_suite env (arg_hook_binary args) sched turns fuel
     | Performance =>
         and_then
           (performance_stress_test env sched turns
              (arg_duration args) (arg_rate args))
           print_results
     | Errors => error_injection_test env ;; ret Finished
     | Concurrent =>
         concurrent_sessions_test env sched turns
           DEFAULT_NUM_SESSIONS DEFAULT_EVENTS_PER_SESSION
     | Rotation => log_rotation_test env ;; ret Finished
     | Monitoring =>
         and_then (resource_monitoring_test env fuel (arg_duration args))
           print_results
     end).
Proof.
  destruct (arg_test args).
  - apply (yields_and_then _ _ (@any completion));
      [| apply yields_print_results | intros; exact I].
    eapply yields_any, yields_events; [apply yields_performance_stress_test |].
    intros a. apply timed_weaken, valid_in_harness_event.
  - apply yields_finished; [| exact I].
    eapply yields_events; [apply yields_error_injection_test |].
    intros a. apply sends_timed, is_text_harness_event.
  - eapply yields_any, yields_events;
      [apply yields_concurrent_sessions_test |].
    intros a. apply sends_timed, valid_in_harness_event.
  - apply yields_finished; [| exact I].
    eapply yields_events; [apply yields_log_rotation_test |].
    intros a. apply sends_timed, valid_in_harness_event.
  - apply (yields_and_then _ _ (@any completion));
      [| apply yields_print_results | intros; exact I].
    eapply yields_any, yields_events; [apply yields_resource_monitoring_test |].
    intros a. apply sends_timed, valid_in_harness_event.
  - apply yields_run_full_test_suite.
Qed.

Lemma run_main env hook_exists args sched turns fuel t :
  run env (timed harness_event) (init t)
    (snd (main env hook_exists args sched turns fuel t)).
Proof.
  unfold main. destruct (negb hook_exists).
  - apply (yields_bind_any env (timed harness_event) (@any outcome));
      [apply yields_print |].
    intros _. apply yields_bind_any; [apply yields_print |].
    intros _. apply yields_ret. exact I.
  - apply (yields_bind_any env (timed harness_event) (@any outcome));
      [apply yields_mode | intros c; apply yields_ret; exact I].
Qed.

(** ** What every step keeps *)

Lemma step_times_ordered env A s s' :
  step env A s s' -> times_ordered s -> times_ordered s'.
Proof.
  unfold times_ordered. intros St H. destruct St; try exact H.
  - intros _. discriminate.
  - intros _. assumption.
  - destruct (send_event_times env ed timeout s) as (E1 & E2 & _).
    cbn zeta in E1, E2. rewrite E1, E2. exact H.
Qed.

Lemma step_accounted env A s0 s s' :
  step env A s s' -> accounted s0 s -> accounted s0 s'.
Proof.
  unfold accounted. intros St H. destruct St; try exact H.
  pose proof (send_event_counters env ed timeout s) as C.
  destruct (send_event_frame env ed timeout s) as (_ & _ & _ & F).
  cbn zeta in C, F. unfold counters in C. rewrite F, length_app.
  cbn [List.length]. destruct H as [H1 H2].
  destruct C as [[C L] | [[C | C] L]]; injection C as C1 C2 C3;
    rewrite C1, C2, C3, L; lia.
Qed.

Lemma extends_refl {B} (l : list B) : extends l l.
Proof. exists []. symmetry. apply app_nil_r. Qed.

Lemma extends_app {B} (l l' more : list B) :
  extends l l' -> extends l (l' ++ more).
Proof. intros [m ->]. exists (m ++ more)%list. symmetry. apply app_assoc. Qed.

Lemma grows_refl s : grows s s.
Proof.
  unfold grows. repeat (split; [first [apply extends_refl | lia] |]). tauto.
Qed.

Lemma step_grows env A s0 s s' : step env A s s' -> grows s0 s -> grows s0 s'.
Proof.
  unfold grows. intros St (H1 & H2 & H3 & H4 & H5 & H6 & H7).
  destruct St; cbn;
    try (repeat (split; [assumption |]); first [assumption | reflexivity]).
  - split; [apply extends_app; assumption |].
    repeat (split; [assumption |]). assumption.
  - pose proof (send_event_counters env ed timeout s) as C.
    destruct (send_event_frame env ed timeout s) as (F1 & _ & F3 & F4).
    destruct (send_event_times env ed timeout s) as (_ & _ & l & T).
    cbn zeta in C, F1, F3, F4, T. unfold counters in C.
    rewrite F1, F3, F4, T.
    split; [assumption |].
    split; [apply extends_app; assumption |].
    split; [apply extends_app; assumption |].
    destruct C as [[C _] | [[C | C] _]]; injection C as C1 C2 C3;
      rewrite C1, C2, C3; repeat (split; [lia |]); assumption.
Qed.

(** ** [print_results] after the tests *)

Lemma print_results_returns s :
  times_ordered s -> fst (print_results s) = Finished.
Proof.
  intros T. unfold print_results. rewrite bind_run.
  change (fst (get results s)) with (results s).
  change (snd (get results s)) with s.
  destruct (latencies (results s)) as [| x l] eqn:L; [reflexivity |].
  destruct (statistics_defined (results s)) as [[avg A] [p95 P]];
    [congruence |].
  rewrite A, P.
  assert (D : exists duration, duration_of (results s) = Some duration).
  { unfold duration_of.
    destruct (end_time (results s)) as [e |] eqn:E; [| eexists; reflexivity].
    destruct (PyFloat.truthy e); [| eexists; reflexivity].
    destruct (start_time (results s)) as [b |] eqn:B; [eexists; reflexivity |].
    exfalso. apply T; [rewrite E; discriminate | exact B]. }
  destruct D as [duration D]. rewrite D.
  rewrite !bind_run. reflexivity.
Qed.

Lemma run_times_ordered env A s s' :
  run env A s s' -> times_ordered s -> times_ordered s'.
Proof. apply run_invariant, step_times_ordered. Qed.

Lemma and_then_print_results env A c s :
  yields env A returns c -> times_ordered s ->
  returns (fst (and_then c print_results s)).
Proof.
  intros Y T. unfold and_then. rewrite bind_run.
  destruct (Y s) as [R V].
  destruct (fst (c s)) as [| msg |]; [| exact V | exact V].
  rewrite print_results_returns; [discriminate |].
  exact (run_times_ordered _ _ _ _ R T).
Qed.

Lemma init_times_ordered t : times_ordered (init t).
Proof. intros H. exfalso. apply H. reflexivity. Qed.

(** ** [main]: what holds in every mode *)

(** X1.  However [main] is called, when it ends every run of the hook
    binary has been counted exactly once, as an event processed, as an
    error or as a timeout, and there is one latency for every event
    processed. *)
Theorem main_accounts_for_every_run env hook_exists args sched turns fuel t :
  let s := snd (main env hook_exists args sched turns fuel t) in
  events_processed (results s) + errors (results s) + timeouts (results s)
  = Z.of_nat (List.length (spawned s))
  /\ latencies_counted s.
Proof.
  cbn zeta.
  pose proof (run_invariant env _ (accounted (init t))
                (fun s s' St => step_accounted env _ (init t) s s' St)
                _ _ (run_main env hook_exists args sched turns fuel t)) as H.
  destruct H as [H1 H2]; [split; reflexivity |].
  unfold latencies_counted. cbn in H1, H2. lia.
Qed.

(** X2.  [main] ends with [sys.exit(1)] exactly when the hook binary is
    missing; otherwise no exception leaves the test that it runs, in any
    mode.  In particular the summary of [print_results] never fails on
    the times: [end_time] is set only after [start_time]. *)
Theorem main_never_raises env hook_exists args sched turns fuel t :
  match fst (main env hook_exists args sched turns fuel t) with
  | Exit status => hook_exists = false /\ status = 1
  | Ran c => hook_exists = true /\ returns c
  end.
Proof.
  unfold main. destruct hook_exists; cbn [negb].
  2: { rewrite !bind_run. cbn. split; reflexivity. }
  rewrite bind_run. cbn [ret fst]. split; [reflexivity |].
  pose proof (init_times_ordered t) as T.
  destruct (arg_test args).
  - eapply and_then_print_results; [apply yields_performance_stress_test | exact T].
  - rewrite bind_run. discriminate.
  - refine (proj2 (yields_concurrent_sessions_test env sched turns _ _ _) _).
    reflexivity.
  - rewrite bind_run. discriminate.
  - eapply and_then_print_results;
      [apply yields_resource_monitoring_test | exact T].
  - unfold run_full_test_suite. do 4 rewrite bind_run.
    match goal with
    | |- context [and_then ?a ?b ?s] =>
        destruct (yields_tests env sched turns fuel s) as [R V];
        set (r := and_then a b s) in *
    end.
    assert (T' : times_ordered (snd r)).
    { refine (run_times_ordered _ _ _ _ R _). exact T. }
    destruct (fst r) as [| msg |].
    + rewrite print_results_returns by exact T'. discriminate.
    + exfalso. exact (V msg eq_refl).
    + discriminate.
Qed.

(** X3.  [run_full_test_suite] takes nothing back, whatever the state
    of the runner: the lines printed, the documents handed to the hook
    binary and the latencies before it are still there after it, no
    counter is smaller, and a runner that was stopped is still stopped:
    nothing sets [self.running] again. *)
Theorem run_full_test_suite_grows env hook_binary sched turns fuel s :
  grows s (snd (run_full_test_suite env hook_binary sched turns fuel s)).
Proof.
  destruct (yields_run_full_test_suite env hook_binary sched turns fuel s)
    as [R _].
  exact (run_invariant env _ (grows s)
           (fun s1 s2 St => step_grows env _ s s1 s2 St) _ _ R (grows_refl s)).
Qed.

(** ** [self.running] and the times *)

Lemma step_stopped env A s s' :
  step env A s s' -> running s = false -> running s' = false.
Proof.
  intros St H. destruct St; try exact H; try reflexivity.
  destruct (send_event_frame env ed timeout s) as (_ & _ & F & _).
  cbn zeta in F. rewrite F. exact H.
Qed.

Lemma step_keeps_running env A s s' :
  ~ A Stop -> step env A s s' -> running s' = running s.
Proof.
  intros N St. destruct St; try reflexivity; [contradiction |].
  destruct (send_event_frame env ed timeout s) as (_ & _ & F & _). exact F.
Qed.

Lemma step_keeps_times env A s s' :
  ~ A SetStart -> ~ A SetEnd -> step env A s s' ->
  start_time (results s') = start_time (results s)
  /\ end_time (results s') = end_time (results s).
Proof.
  intros N1 N2 St. destruct St; try (split; reflexivity); try contradiction.
  destruct (send_event_times env ed timeout s) as (E1 & E2 & _).
  split; assumption.
Qed.

Lemma run_keeps_times env A s s' :
  ~ A SetStart -> ~ A SetEnd -> run env A s s' ->
  start_time (results s') = start_time (results s)
  /\ end_time (results s') = end_time (results s).
Proof.
  intros N1 N2 R. induction R as [| s1 s2 s3 _ IH St]; [split; reflexivity |].
  destruct (step_keeps_times env A _ _ N1 N2 St) as [E1 E2].
  rewrite E1, E2. exact IH.
Qed.

Lemma run_keeps_running env A s s' :
  ~ A Stop -> run env A s s' -> running s' = running s.
Proof.
  intros N R. induction R as [| s1 s2 s3 _ IH St]; [reflexivity |].
  rewrite (step_keeps_running env A _ _ N St). exact IH.
Qed.

Lemma progress_monitor_stops end_time i s :
  fst (progress_monitor end_time i s) = false ->
  running (snd (progress_monitor end_time i s)) = false.
Proof.
  unfold progress_monitor. do 3 rewrite bind_run.
  match goal with
  | |- context [if ?c then _ else _] => destruct c
  end; rewrite !bind_run; cbn [ret fst snd].
  - discriminate.
  - intros _. reflexivity.
Qed.

(** Once the thread [m] has ended, [self.running] is cleared, if that
    thread ends only so and the others never set it. *)
Lemma run_threads_stops env A body eligible sched m :
  (forall j i, yields env A (@any bool) (body j i)) ->
  (forall i s, fst (body m i s) = false -> running (snd (body m i s)) = false) ->
  forall turns k ths s,
    (forall th, nth_error ths m = Some th -> th_done th = true ->
                running s = false) ->
    forall th,
      nth_error (fst (run_threads body eligible sched turns k ths s)) m
      = Some th ->
      th_done th = true ->
      running (snd (run_threads body eligible sched turns k ths s)) = false.
Proof.
  intros Y Hm. induction turns as [| turns IH]; intros k ths s J;
    [exact J |].
  cbn [run_threads]. rewrite bind_run. apply IH.
  destruct (eligible ths (sched k ths)); [| exact J].
  set (j := sched k ths).
  destruct (nth_error ths j) as [thj |] eqn:N;
    [| rewrite step_thread_idle; [exact J | intros th' H'; congruence]].
  destruct (th_done thj) eqn:D;
    [rewrite step_thread_idle; [exact J | intros th' H'; congruence] |].
  rewrite (step_thread_unfinished _ _ _ _ _ N D). cbn zeta. cbn [fst snd].
  intros th. rewrite nth_error_list_update.
  destruct (j =? m)%nat eqn:E.
  - apply Nat.eqb_eq in E. rewrite <- E, N. intros [= <-]. cbn [th_done].
    intros C. apply Bool.negb_true_iff in C. rewrite E. apply Hm.
    rewrite <- E. exact C.
  - intros Nm Dm.
    destruct (Y j (th_iter thj) (set_now (th_clock thj) s)) as [R _].
    refine (run_invariant env A (fun s => running s = false)
              (step_stopped env A) _ _ R _).
    exact (J th Nm Dm).
Qed.

Lemma performance_stress_test_post env sched turns duration eps s :
  fst (performance_stress_test env sched turns duration eps s) = Finished ->
  let s' := snd (performance_stress_test env sched turns duration eps s) in
  running s' = false
  /\ start_time (results s') = Some (now s)
  /\ end_time (results s') = Some (now s').
Proof.
  unfold performance_stress_test. do 5 rewrite bind_run.
  match goal with
  | |- context [time_time ?s0] =>
      set (s4 := s0);
      change (fst (time_time s4)) with (now s);
      change (snd (time_time s4)) with s4
  end.
  rewrite bind_run.
  set (s1 := snd (modify (set_results (set_start_time (now s))) s4)).
  rewrite bind_run.
  set (A := stopping (valid_in (fun sid => In sid perf_session_pool))).
  destruct perf_session_pool_ids as [N E].
  match goal with
  | |- context [run_threads ?b ?el sched turns 0%nat ?ths s1] =>
      set (body := b);
      set (r := run_threads body el sched turns 0%nat ths s1);
      assert (Yb : forall j i, yields env A (@any bool) (body j i));
      [| assert (Y : yields env A (fun ths' => List.length ths' = S SENDERS)
                       (run_threads body el sched turns 0%nat ths));
         [| pose proof (run_threads_stops env A body el sched SENDERS Yb
                          (fun i s => progress_monitor_stops _ i s)
                          turns 0%nat ths s1) as St ] ]
  end.
  { intros j i. unfold body. destruct (j <? SENDERS)%nat.
    - apply yields_event_sender; [exact N | exact E |].
      intros event sid Hs V. exists event, sid. tauto.
    - apply yields_progress_monitor. exact I. }
  { apply yields_run_threads; [| apply repeat_length].
    intros j i _. apply Yb. }
  fold r in St. destruct (Y s1) as [R L]. fold r in R, L.
  destruct (all_done (fst r)) eqn:AD; [| cbn [ret fst]; discriminate].
  intros _. rewrite !bind_run.
  cbn [modify time_time get ret print fst snd now running results
       set_now set_results set_console set_end_time end_time start_time].
  destruct (run_keeps_times env A s1 (snd r)) as [T1 _];
    [intros H; exact H | intros H; exact H | exact R |].
  split; [| split; [rewrite T1; reflexivity | reflexivity]].
  destruct (nth_error (fst r) SENDERS) as [th |] eqn:Nm.
  - apply (St ltac:(intros th' H'; cbn in H'; injection H' as <-;
                    discriminate) th eq_refl).
    exact (all_done_nth _ _ _ AD Nm).
  - apply nth_error_None in Nm. rewrite L in Nm. unfold SENDERS in Nm. lia.
Qed.

(** ** The order of the floats *)

Lemma ltb_at a b e :
  e <= PyFloat.expo a -> e <= PyFloat.expo b ->
  PyFloat.ltb a b
  = (PyFloat.mant a * 2 ^ (PyFloat.expo a - e)
     <? PyFloat.mant b * 2 ^ (PyFloat.expo b - e)).
Proof.
  intros Ha Hb. unfold PyFloat.ltb, PyFloat.align.
  set (e0 := Z.min (PyFloat.expo a) (PyFloat.expo b)).
  assert (E0 : e <= e0) by (subst e0; lia).
  assert (A0 : e0 <= PyFloat.expo a) by (subst e0; lia).
  assert (B0 : e0 <= PyFloat.expo b) by (subst e0; lia).
  replace (PyFloat.expo a - e) with ((PyFloat.expo a - e0) + (e0 - e)) by lia.
  replace (PyFloat.expo b - e) with ((PyFloat.expo b - e0) + (e0 - e)) by lia.
  rewrite !Z.pow_add_r by lia.
  assert (P : 0 < 2 ^ (e0 - e)) by (apply Z.pow_pos_nonneg; lia).
  set (x := PyFloat.mant a * 2 ^ (PyFloat.expo a - e0)).
  set (y := PyFloat.mant b * 2 ^ (PyFloat.expo b - e0)).
  rewrite !Z.mul_assoc. fold x y.
  destruct (x <? y) eqn:L; symmetry.
  - apply Z.ltb_lt in L. apply Z.ltb_lt. nia.
  - apply Z.ltb_ge in L. apply Z.ltb_ge. nia.
Qed.

(** [c <= x] and [x <= y] give [c <= y]. *)
Lemma ltb_false_trans c x y :
  PyFloat.ltb x c = false -> PyFloat.ltb y x = false ->
  PyFloat.ltb y c = false.
Proof.
  set (e := Z.min (PyFloat.expo c) (Z.min (PyFloat.expo x) (PyFloat.expo y))).
  rewrite (ltb_at x c e), (ltb_at y x e), (ltb_at y c e) by (subst e; lia).
  rewrite !Z.ltb_ge. lia.
Qed.

(** [c <= x] and [x < y] give [c <= y]. *)
Lemma ltb_false_lt c x y :
  PyFloat.ltb x c = false -> PyFloat.ltb x y = true ->
  PyFloat.ltb y c = false.
Proof.
  set (e := Z.min (PyFloat.expo c) (Z.min (PyFloat.expo x) (PyFloat.expo y))).
  rewrite (ltb_at x c e), (ltb_at x y e), (ltb_at y c e) by (subst e; lia).
  rewrite !Z.ltb_ge, Z.ltb_lt. lia.
Qed.

Lemma max_not_before_l c x y :
  PyFloat.ltb x c = false -> PyFloat.ltb (PyFloat.max x y) c = false.
Proof.
  intros H. unfold PyFloat.max. destruct (PyFloat.ltb x y) eqn:L; [| exact H].
  exact (ltb_false_lt c x y H L).
Qed.

Lemma max_not_before_r c x y :
  PyFloat.ltb y c = false -> PyFloat.ltb (PyFloat.max x y) c = false.
Proof.
  intros H. unfold PyFloat.max. destruct (PyFloat.ltb x y) eqn:L; [exact H |].
  exact (ltb_false_trans c y x H L).
Qed.

(** The time of the join is not before the end of any thread. *)
Lemma join_time_not_before c t0 ths th :
  In th ths -> PyFloat.ltb (th_clock th) c = false ->
  PyFloat.ltb (join_time t0 ths) c = false.
Proof.
  unfold join_time. revert t0.
  induction ths as [| th' ths IH]; intros t0 H L; [destruct H |].
  destruct H as [-> | H]; cbn [fold_left].
  - assert (G : forall l t, PyFloat.ltb t c = false ->
                  PyFloat.ltb (fold_left (fun t th => PyFloat.max t (th_clock th))
                                 l t) c = false).
    { induction l as [| a l IHl]; intros t Ht; [exact Ht |].
      cbn [fold_left]. apply IHl, max_not_before_l, Ht. }
    apply G, max_not_before_r, L.
  - apply IH; assumption.
Qed.

(** ** The threads, by invariant *)

Lemma run_threads_keeps (Inv : list thread -> state -> Prop)
  body eligible sched :
  (forall j ths s,
      Inv ths s ->
      Inv (fst (step_thread body j ths s)) (snd (step_thread body j ths s))) ->
  forall turns k ths s,
    Inv ths s ->
    Inv (fst (run_threads body eligible sched turns k ths s))
        (snd (run_threads body eligible sched turns k ths s)).
Proof.
  intros H. induction turns as [| turns IH]; intros k ths s I0; [exact I0 |].
  cbn [run_threads]. rewrite bind_run. apply IH.
  destruct (eligible ths (sched k ths)); [apply H |]; exact I0.
Qed.

Lemma when_report_progress_frame b s :
  now (snd (when b report_progress s)) = now s
  /\ running (snd (when b report_progress s)) = running s.
Proof.
  destruct b; [| split; reflexivity].
  unfold when, report_progress. rewrite !bind_run. split; reflexivity.
Qed.

(** A turn of the monitoring loop while the runner is running: the loop
    goes on and the runner is still running, or it ends, at a time that
    is not before [end_time]. *)
Lemma progress_monitor_running end_time i s :
  running s = true ->
  if fst (progress_monitor end_time i s)
  then running (snd (progress_monitor end_time i s)) = true
  else PyFloat.ltb (now (snd (progress_monitor end_time i s))) end_time
       = false.
Proof.
  intros H. unfold progress_monitor. do 3 rewrite bind_run.
  destruct (when_report_progress_frame (0 <? i)%nat s) as [N R].
  set (s1 := snd (when (0 <? i)%nat report_progress s)) in *.
  change (fst (time_time s1)) with (now s1).
  change (snd (time_time s1)) with s1.
  change (fst (get running s1)) with (running s1).
  change (snd (get running s1)) with s1.
  rewrite R, H, Bool.andb_true_r.
  destruct (PyFloat.ltb (now s1) end_time) eqn:L; rewrite !bind_run;
    cbn [ret fst snd modify sleep running now set_running set_now].
  - exact (eq_trans R H).
  - exact L.
Qed.

(** [performance_stress_test] on a running runner does not return
    before the time [start_time + duration_seconds]. *)
Lemma performance_stress_test_lasts env sched turns duration eps s :
  running s = true ->
  fst (performance_stress_test env sched turns duration eps s) = Finished ->
  PyFloat.ltb
    (now (snd (performance_stress_test env sched turns duration eps s)))
    (PyFloat.add (now s) (PyFloat.of_int duration))
  = false.
Proof.
  intros Run. unfold performance_stress_test. do 5 rewrite bind_run.
  match goal with
  | |- context [time_time ?s0] =>
      set (s4 := s0);
      change (fst (time_time s4)) with (now s);
      change (snd (time_time s4)) with s4
  end.
  rewrite bind_run.
  set (s1 := snd (modify (set_results (set_start_time (now s))) s4)).
  rewrite bind_run.
  set (end_time := PyFloat.add (now s) (PyFloat.of_int duration)).
  destruct perf_session_pool_ids as [N E].
  set (Inv := fun (ths : list thread) (st : state) =>
                List.length ths = S SENDERS
                /\ forall th,
                    nth_error ths SENDERS = Some th ->
                    if th_done th
                    then PyFloat.ltb (th_clock th) end_time = false
                    else running st = true).
  match goal with
  | |- context [run_threads ?b ?el sched turns 0%nat ?ths s1] =>
      set (body := b);
      set (r := run_threads body el sched turns 0%nat ths s1);
      assert (K : Inv (fst r) (snd r))
  end.
  { apply run_threads_keeps.
    - intros j ths st [L J].
      destruct (nth_error ths j) as [thj |] eqn:Nj;
        [| rewrite step_thread_idle;
           [split; assumption | intros th' H'; congruence]].
      destruct (th_done thj) eqn:D;
        [rewrite step_thread_idle;
         [split; assumption | intros th' H'; congruence] |].
      rewrite (step_thread_unfinished _ _ _ _ _ Nj D). cbn zeta.
      cbn [fst snd]. split; [rewrite list_update_length; exact L |].
      intros th. rewrite nth_error_list_update.
      destruct (j =? SENDERS)%nat eqn:Ej.
      + apply Nat.eqb_eq in Ej. rewrite <- Ej, Nj. intros [= <-].
        cbn [th_done th_clock].
        assert (Rn : running (set_now (th_clock thj) st) = true).
        { specialize (J thj). rewrite <- Ej, D in J. exact (J Nj). }
        pose proof (progress_monitor_running end_time (th_iter thj) _ Rn)
          as PM.
        unfold body. rewrite Ej. cbn [Nat.ltb Nat.leb SENDERS].
        destruct (fst (progress_monitor end_time (th_iter thj)
                         (set_now (th_clock thj) st))); exact PM.
      + intros Nm. specialize (J th Nm).
        destruct (th_done th); [exact J |].
        assert (Lj : (j <? SENDERS)%nat = true).
        { apply Nat.ltb_lt. apply Nat.eqb_neq in Ej.
          assert ((j < List.length ths)%nat)
            by (apply nth_error_Some; congruence).
          lia. }
        unfold body. rewrite Lj.
        destruct (yields_event_sender env
                    (sends (valid_in (fun sid => In sid perf_session_pool)))
                    end_time eps perf_session_pool N E
                    ltac:(intros event sid Hs V; exists event, sid; tauto)
                    (set_now (th_clock thj) st)) as [R _].
        rewrite (run_keeps_running _ _ _ _ ltac:(intros H; exact H) R).
        exact J.
    - split; [apply repeat_length |].
      intros th H. cbn in H. injection H as <-. exact Run. }
  destruct K as [L J].
  destruct (all_done (fst r)) eqn:AD; [| cbn [ret fst]; discriminate].
  intros _. rewrite !bind_run.
  cbn [modify time_time get ret print fst snd now
       set_now set_results set_console].
  destruct (nth_error (fst r) SENDERS) as [th |] eqn:Nm.
  - apply (join_time_not_before _ _ _ th); [exact (nth_error_In _ _ Nm) |].
    specialize (J th eq_refl).
    rewrite (all_done_nth _ _ _ AD Nm) in J. exact J.
  - apply nth_error_None in Nm. rewrite L in Nm. unfold SENDERS in Nm. lia.
Qed.

(** ** [performance_stress_test]: the state that it leaves *)

(** X4.  When [performance_stress_test] returns, [self.running] is
    cleared, [start_time] is the time of the call and [end_time] the
    time of the return; and on a runner that was running that is not
    before [start_time + duration_seconds]: the test lasts for the whole
    duration, whatever the hook binary answers and however the threads
    take their turns. *)
Theorem performance_stress_test_leaves env sched turns duration eps s :
  fst (performance_stress_test env sched turns duration eps s) = Finished ->
  let s' := snd (performance_stress_test env sched turns duration eps s) in
  running s' = false
  /\ start_time (results s') = Some (now s)
  /\ end_time (results s') = Some (now s')
  /\ (running s = true ->
      PyFloat.ltb (now s') (PyFloat.add (now s) (PyFloat.of_int duration))
      = false).
Proof.
  intros F. cbn zeta.
  destruct (performance_stress_test_post env sched turns duration eps s F)
    as (H1 & H2 & H3).
  repeat (split; [assumption |]).
  intros Run. exact (performance_stress_test_lasts _ _ _ _ _ _ Run F).
Qed.

(** An instance: one second at 10 events per second, with a hook binary
    that answers in 1/128 of a second. *)
Lemma performance_stress_test_leaves_witness :
  let s := init (PyFloat.of_int 1700000000) in
  let s' := snd (performance_stress_test quick_hook in_time_order 60 1 10 s) in
  running s' = false
  /\ start_time (results s') = Some (now s)
  /\ end_time (results s') = Some (now s')
  /\ (running s = true ->
      PyFloat.ltb (now s') (PyFloat.add (now s) (PyFloat.of_int 1)) = false).
Proof.
  apply (performance_stress_test_leaves quick_hook in_time_order 60 1 10
           (init (PyFloat.of_int 1700000000))).
  vm_compute. reflexivity.
Defined.

(** ** [resource_monitoring_test] in the suite *)

Lemma resource_monitoring_test_stopped env fuel duration s :
  running s = false -> (0 < fuel)%nat ->
  resource_monitoring_test env fuel duration s
  = (print ("Starting resource monitoring test for "
              ++ PyStr.of_int duration ++ "s...") ;;
     print "✅ Resource monitoring test completed" ;;
     ret Finished) s.
Proof.
  intros R F. destruct fuel as [| fuel]; [lia |].
  unfold resource_monitoring_test. cbn [resource_monitoring_loop].
  rewrite !bind_run.
  cbn [print modify time_time get ret fst snd running set_console].
  rewrite R, Bool.andb_false_r. reflexivity.
Qed.

Lemma bind_ext_at {B C} (c : M B) (k k' : B -> M C) s :
  k (fst (c s)) (snd (c s)) = k' (fst (c s)) (snd (c s)) ->
  bind c k s = bind c k' s.
Proof. intros H. rewrite !bind_run. exact H. Qed.

Lemma bind_cong_l {B C} (c c' : M B) (k : B -> M C) s :
  c s = c' s -> bind c k s = bind c' k s.
Proof. intros H. rewrite !bind_run, H. reflexivity. Qed.

Lemma and_then_cong_r c1 c2 c2' s :
  (fst (c1 s) = Finished -> c2 (snd (c1 s)) = c2' (snd (c1 s))) ->
  and_then c1 c2 s = and_then c1 c2' s.
Proof.
  intros H. unfold and_then. rewrite !bind_run.
  destruct (fst (c1 s)); [apply H |..]; reflexivity.
Qed.

Lemma and_then_cong_l c1 c1' c2 s :
  c1 s = c1' s -> and_then c1 c2 s = and_then c1' c2 s.
Proof. apply bind_cong_l. Qed.

(** X5.  In [run_full_test_suite] the fourth test sends nothing to the
    hook binary: [performance_stress_test] before it has cleared
    [self.running] and nothing sets it again, so the loop of
    [resource_monitoring_test] ends at its first test.  The suite is the
    same computation as the suite whose fourth test only prints the two
    lines of [resource_monitoring_test]. *)
Theorem run_full_test_suite_skips_monitoring env hook_binary sched turns fuel s :
  (0 < fuel)%nat ->
  run_full_test_suite env hook_binary sched turns fuel
  = run_full_test_suite_with env (resource_monitoring_test env fuel 20)
      hook_binary sched turns
  /\ run_full_test_suite env hook_binary sched turns fuel s
     = run_full_test_suite_with env
         (print "Starting resource monitoring test for 20s..." ;;
          print "✅ Resource monitoring test completed" ;;
          ret Finished)
         hook_binary sched turns s.
Proof.
  intros F. split; [reflexivity |].
  unfold run_full_test_suite, run_full_test_suite_with.
  do 3 apply bind_ext_at. apply bind_cong_l.
  apply and_then_cong_r. intros _.
  apply and_then_cong_r. intros _.
  apply and_then_cong_r. intros F3.
  do 2 apply and_then_cong_l.
  rewrite resource_monitoring_test_stopped; [reflexivity | | exact F].
  revert F3. unfold and_then. rewrite !bind_run.
  match goal with
  | |- context [performance_stress_test env sched turns 30 10 ?s0] =>
      pose proof (performance_stress_test_post env sched turns 30 10 s0) as P;
      destruct (fst (performance_stress_test env sched turns 30 10 s0))
  end; cbn [ret print modify fst snd running set_console];
    [| discriminate | discriminate].
  intros _. exact (proj1 (P eq_refl)).
Qed.

(** An instance: the suite with a hook binary that answers in 1/128 of
    a second. *)
Lemma run_full_test_suite_skips_monitoring_witness :
  let s := init (PyFloat.of_int 1700000000) in
  run_full_test_suite quick_hook "irrlicht-hook" in_time_order 900 10
  = run_full_test_suite_with quick_hook
      (resource_monitoring_test quick_hook 10 20) "irrlicht-hook"
      in_time_order 900
  /\ run_full_test_suite quick_hook "irrlicht-hook" in_time_order 900 10 s
     = run_full_test_suite_with quick_hook
         (print "Starting resource monitoring test for 20s..." ;;
          print "✅ Resource monitoring test completed" ;;
          ret Finished)
         "irrlicht-hook" in_time_order 900 s.
Proof.
  apply (run_full_test_suite_skips_monitoring quick_hook "irrlicht-hook"
           in_time_order 900 10 (init (PyFloat.of_int 1700000000))).
  lia.
Defined.

(** ** [log_rotation_test] *)

Lemma for_each_send_event env ed timeout (shown : Z -> bool)
  (line : Z -> string) l s :
  let s' :=
    snd (for_each l
           (fun i =>
              send_event env ed timeout ;; when (shown i) (print (line i)))
           s) in
  spawned s'
  = (spawned s ++ List.repeat (json_data_of ed) (List.length l))%list
  /\ console s' = (console s ++ map line (filter shown l))%list.
Proof.
  cbn zeta. revert s. induction l as [| i l IH]; intros s.
  - cbn. rewrite !app_nil_r. split; reflexivity.
  - cbn [for_each]. rewrite bind_run.
    destruct (IH (snd ((send_event env ed timeout ;;
                        when (shown i) (print (line i))) s))) as [S C].
    rewrite S, C. clear S C IH. rewrite bind_run.
    destruct (send_event_frame env ed timeout s) as (F1 & _ & _ & F4).
    cbn zeta in F1, F4.
    cbn [List.length List.repeat filter].
    destruct (shown i); cbn [when print modify ret snd spawned console
                             set_console map];
      rewrite F1, F4, <- !app_assoc; split; reflexivity.
Qed.

(** X6.  [log_rotation_test] hands the same document to the hook
    binary 100 times: the event that it generated once, with the field
    [large_field] of 1000 characters added at the end of its data.  It
    prints a line for every tenth of them, then the log files if the
    directory of the logs exists. *)
Theorem log_rotation_test_sends env s :
  let event :=
    fst (generate_event env None None
           (snd (print "Starting log rotation test..." s))) in
  let s' := snd (log_rotation_test env s) in
  (exists data,
      dict_get "data" event = Some (JObj data)
      /\ dict_get "large_field" data = None
      /\ with_large_field event
         = dict_set "data"
             (JObj (data ++ [("large_field", JStr (PyStr.repeat "x" 1000))]))
             event)
  /\ spawned s'
     = (spawned s
          ++ List.repeat (dumps (JObj (with_large_field event))) 100)%list
  /\ console s'
     = (console s
          ++ [ "Starting log rotation test...";
               "  Generating large volume of events to trigger rotation..." ]
          ++ map (fun k =>
                    ("    Sent " ++ PyStr.of_int (10 * k) ++ " events...")%string)
               (range 10)
          ++ match env_log_files env with
             | Some log_files =>
                 [ ("  Found "
                      ++ PyStr.of_int (Z.of_nat (List.length log_files))
                      ++ " log files: ["
                      ++ PyStr.join ", "
                           (map (fun f => "'" ++ f ++ "'") log_files)
                      ++ "]")%string ]
             | None => []
             end
          ++ [ "✅ Log rotation test completed" ])%list.
Proof.
  cbn zeta.
  set (s1 := snd (print "Starting log rotation test..." s)).
  destruct (generate_event_contents env None None s1) as [G _].
  set (event := fst (generate_event env None None s1)) in *.
  split.
  { destruct (with_large_field_generated _ _ _ _ G)
      as (sid & ty & ts & data & E & W & D).
    exists data. rewrite W, E. repeat split. exact D. }
  unfold log_rotation_test. rewrite bind_run. fold s1.
  rewrite bind_run. fold event.
  set (s2 := snd (generate_event env None None s1)).
  assert (S2 : spawned s2 = spawned s /\ console s2
               = (console s ++ ["Starting log rotation test..."])%list).
  { unfold s2. rewrite generate_event_state. split; reflexivity. }
  destruct S2 as [Sp Co].
  rewrite bind_run.
  set (s3 := snd (print "  Generating large volume of events to trigger rotation..." s2)).
  rewrite bind_run.
  match goal with
  | |- context [for_each (range 100) ?b s3] =>
      pose proof (for_each_send_event env (Dict (with_large_field event)) 5
                    (fun i => i mod 10 =? 0)
                    (fun i => "    Sent " ++ PyStr.of_int i ++ " events...")
                    (range 100) s3) as L;
      cbn zeta in L;
      set (s4 := snd (for_each (range 100) b s3)) in *
  end.
  destruct L as [L1 L2].
  assert (F : filter (fun i => i mod 10 =? 0) (range 100)
              = map (fun k => 10 * k) (range 10)) by (vm_compute; reflexivity).
  rewrite F, map_map in L2.
  change (List.length (range 100)) with 100%nat in L1.
  change (spawned s3) with (spawned s2) in L1. rewrite Sp in L1.
  change (console s3)
    with (console s2
            ++ ["  Generating large volume of events to trigger rotation..."])%list
    in L2.
  rewrite Co in L2.
  rewrite bind_run.
  destruct (env_log_files env) as [log_files |];
    cbn [print modify ret snd spawned console set_console];
    rewrite L1, L2, <- !app_assoc; split; reflexivity.
Qed.

(** ** The documents of the tests *)

Lemma run_spawned env A (P : event_data -> Prop) s s' :
  (forall ed, A (Send ed) -> P ed) ->
  run env A s s' ->
  exists eds,
    spawned s' = (spawned s ++ map json_data_of eds)%list /\ Forall P eds.
Proof.
  intros W R. induction R as [| s1 s2 s3 _ IH St].
  - exists []. split; [symmetry; apply app_nil_r | constructor].
  - destruct IH as (eds & E & F).
    destruct St; try (exists eds; split; [exact E | exact F]).
    exists (eds ++ [ed])%list.
    destruct (send_event_frame env ed timeout s) as (_ & _ & _ & F4).
    cbn zeta in F4. rewrite F4, E, map_app, app_assoc.
    split; [reflexivity |].
    apply Forall_app. split; [exact F |].
    constructor; [apply W; assumption | constructor].
Qed.

Lemma valid_events_spawned (pool : string -> Prop) s s' eds :
  spawned s' = (spawned s ++ map json_data_of eds)%list ->
  Forall (valid_in pool) eds ->
  exists events,
    spawned s'
    = (spawned s ++ map (fun event => dumps (JObj event)) events)%list
    /\ Forall (fun event => exists sid, pool sid /\ valid_event_of sid event)
         events.
Proof.
  intros E F. rewrite E. clear E. induction F as [| ed eds H _ IH].
  - exists []. split; [reflexivity | constructor].
  - destruct IH as (events & E & V).
    destruct H as (event & sid & -> & Hs & Hv).
    exists (event :: events). cbn [map json_data_of].
    apply app_inv_head in E. rewrite E.
    split; [reflexivity |].
    constructor; [exists sid; split; assumption | exact V].
Qed.

(** X7.  The two load tests hand only valid events to the hook binary:
    every document of [performance_stress_test] is the JSON text of an
    event with a timestamp, a data mapping, an event type of the closed
    set and the session id of one of the eight sessions [sess_perf_0],
    ..., [sess_perf_7]; every document of [resource_monitoring_test] is
    such an event of one of the four sessions [sess_monitor_0], ...,
    [sess_monitor_3]. *)
Theorem load_tests_send_valid_events env sched turns fuel duration eps s :
  (exists events,
      spawned (snd (performance_stress_test env sched turns duration eps s))
      = (spawned s ++ map (fun event => dumps (JObj event)) events)%list
      /\ Forall (fun event =>
                   exists sid,
                     In sid (map (fun i => "sess_perf_" ++ PyStr.of_int i)
                               (range 8))
                     /\ valid_event_of sid event) events)
  /\ (exists events,
         spawned (snd (resource_monitoring_test env fuel duration s))
         = (spawned s ++ map (fun event => dumps (JObj event)) events)%list
         /\ Forall (fun event =>
                      exists sid,
                        In sid (map (fun i => "sess_monitor_" ++ PyStr.of_int i)
                                  (range 4))
                        /\ valid_event_of sid event) events).
Proof.
  split.
  - destruct (yields_performance_stress_test env sched turns duration eps s)
      as [R _].
    destruct (run_spawned _ _ (valid_in (fun sid => In sid perf_session_pool))
                _ _ ltac:(intros ed H; exact H) R) as (eds & E & F).
    exact (valid_events_spawned _ _ _ _ E F).
  - destruct (yields_resource_monitoring_test env fuel duration s) as [R _].
    destruct (run_spawned _ _
                (valid_in (fun sid => In sid monitor_session_pool))
                _ _ ltac:(intros ed H; exact H) R) as (eds & E & F).
    exact (valid_events_spawned _ _ _ _ E F).
Qed.

(** ** A hook binary that never accepts *)

Lemma run_grows env A s s' : run env A s s' -> grows s s'.
Proof.
  intros R.
  exact (run_invariant env A (grows s)
           (fun s1 s2 St => step_grows env A s s1 s2 St) _ _ R (grows_refl s)).
Qed.

Lemma run_accounted env A s s' : run env A s s' -> accounted s s'.
Proof.
  intros R.
  refine (run_invariant env A (accounted s)
            (fun s1 s2 St => step_accounted env A s s1 s2 St) _ _ R _).
  split; lia.
Qed.

Lemma send_event_rejected env ed timeout s :
  never_accepts env ->
  latencies (results (snd (send_event env ed timeout s)))
  = latencies (results s).
Proof.
  intros N. rewrite send_event_unfold. cbn zeta.
  specialize (N (List.length (spawned s)) (json_data_of ed) timeout).
  destruct (env_hook env _ _ _) as [r elapsed].
  destruct r as [returncode stdout stderr | | msg]; try reflexivity.
  destruct (returncode =? 0) eqn:E; [| reflexivity].
  apply Z.eqb_eq in E. subst returncode.
  exfalso. exact (N stdout stderr elapsed eq_refl).
Qed.

Lemma run_without_success env A s s' :
  never_accepts env -> run env A s s' ->
  latencies (results s) = [] -> latencies (results s') = [].
Proof.
  intros N.
  apply (run_invariant env A (fun s => latencies (results s) = [])).
  clear s s'. intros s s' St H.
  destruct St; try exact H.
  rewrite send_event_rejected; assumption.
Qed.

Lemma print_results_empty s :
  latencies (results s) = [] ->
  print_results s
  = (Finished, set_console (console s ++ ["No successful events processed"]) s).
Proof.
  intros E. unfold print_results. rewrite bind_run.
  change (fst (get results s)) with (results s).
  change (snd (get results s)) with s.
  rewrite E. reflexivity.
Qed.

Lemma and_then_print_results_empty env A c s :
  never_accepts env -> yields env A returns c ->
  latencies (results s) = [] ->
  fst (and_then c print_results s) <> Pending ->
  exists lines,
    console (snd (and_then c print_results s))
    = (console s ++ lines ++ ["No successful events processed"])%list.
Proof.
  intros N Y E. unfold and_then. rewrite bind_run.
  destruct (Y s) as [R V].
  destruct (run_grows _ _ _ _ R) as ((lines & C) & _).
  pose proof (run_without_success _ _ _ _ N R E) as E'.
  destruct (fst (c s)) as [| msg |].
  - intros _. rewrite (print_results_empty _ E'). cbn [snd console set_console].
    exists lines. rewrite C, app_assoc. reflexivity.
  - exfalso. exact (V msg eq_refl).
  - intros H. exfalso. apply H. reflexivity.
Qed.

(** X8.  With a hook binary that never accepts a document, [main] in
    the modes that print the results ([all], [performance] and
    [monitoring]) counts no event as processed, and unless the test is
    still running its last line is
    ["No successful events processed"]: no statistic is computed. *)
Theorem main_without_success env args sched turns fuel t :
  never_accepts env ->
  In (arg_test args) [All; Performance; Monitoring] ->
  let r := main env true args sched turns fuel t in
  events_processed (results (snd r)) = 0
  /\ latencies (results (snd r)) = []
  /\ (fst r <> Ran Pending ->
      exists lines,
        console (snd r)
        = (lines ++ ["No successful events processed"])%list).
Proof.
  intros N Mode. cbn zeta.
  pose proof (run_main env true args sched turns fuel t) as R.
  pose proof (run_without_success _ _ _ _ N R eq_refl) as L.
  destruct (run_accounted _ _ _ _ R) as [_ Acc].
  split; [| split; [exact L |]].
  { set (s' := snd (main env true args sched turns fuel t)) in *.
    rewrite L in Acc.
    change (Z.of_nat 0 - Z.of_nat 0 = events_processed (results s') - 0)
      in Acc.
    lia. }
  clear R L Acc. unfold main. cbn [negb]. rewrite bind_run.
  cbn [ret fst snd].
  assert (P : forall c : completion, Ran c <> Ran Pending -> c <> Pending)
    by (intros c H ->; apply H; reflexivity).
  intros H. apply P in H. revert H. clear P.
  destruct (arg_test args);
    try (exfalso; cbn in Mode; intuition discriminate).
  - intros H.
    destruct (and_then_print_results_empty env _ _ (init t) N
                (yields_performance_stress_test env sched turns
                   (arg_duration args) (arg_rate args)) eq_refl H)
      as (lines & C).
    exists lines. exact C.
  - intros H.
    destruct (and_then_print_results_empty env _ _ (init t) N
                (yields_resource_monitoring_test env fuel (arg_duration args))
                eq_refl H)
      as (lines & C).
    exists lines. exact C.
  - unfold run_full_test_suite. do 4 rewrite bind_run.
    match goal with
    | |- context [and_then ?a ?b ?s] =>
        destruct (yields_tests env sched turns fuel s) as [R V];
        set (s3 := s) in *;
        set (r := and_then a b s3) in *
    end.
    destruct (run_grows _ _ _ _ R) as ((lines & C) & _).
    assert (E : latencies (results (snd r)) = []).
    { exact (run_without_success _ _ _ _ N R eq_refl). }
    destruct (fst r) as [| msg |].
    + intros _. rewrite (print_results_empty _ E).
      cbn [snd console set_console]. rewrite C. eexists. reflexivity.
    + exfalso. exact (V msg eq_refl).
    + intros H. exfalso. apply H. reflexivity.
Qed.

(** An instance: the monitoring mode for one second, with a hook binary
    that rejects every document at once. *)
Lemma main_without_success_witness :
  let args :=
    {| arg_hook_binary := "irrlicht-hook"; arg_test := Monitoring;
       arg_duration := 1; arg_rate := 10 |} in
  let r :=
    main rejecting_hook true args in_time_order 0 20
      (PyFloat.of_int 1700000000) in
  events_processed (results (snd r)) = 0
  /\ latencies (results (snd r)) = []
  /\ exists lines,
      console (snd r) = (lines ++ ["No successful events processed"])%list.
Proof.
  cbn zeta.
  destruct (main_without_success rejecting_hook
              {| arg_hook_binary := "irrlicht-hook"; arg_test := Monitoring;
                 arg_duration := 1; arg_rate := 10 |}
              in_time_order 0 20 (PyFloat.of_int 1700000000))
    as (H1 & H2 & H3).
  - intros k doc timeout stdout stderr elapsed. cbn. discriminate.
  - cbn. right. right. left. reflexivity.
  - split; [exact H1 | split; [exact H2 |]].
    apply H3. vm_compute. discriminate.
Defined.

(** ** The P95 latency of [print_results] *)

Lemma leb_at a b e :
  e <= PyFloat.expo a -> e <= PyFloat.expo b ->
  PyFloat.leb a b
  = (PyFloat.mant a * 2 ^ (PyFloat.expo a - e)
     <=? PyFloat.mant b * 2 ^ (PyFloat.expo b - e)).
Proof.
  intros Ha Hb. unfold PyFloat.leb, PyFloat.align.
  set (e0 := Z.min (PyFloat.expo a) (PyFloat.expo b)).
  assert (E0 : e <= e0) by (subst e0; lia).
  assert (A0 : e0 <= PyFloat.expo a) by (subst e0; lia).
  assert (B0 : e0 <= PyFloat.expo b) by (subst e0; lia).
  replace (PyFloat.expo a - e) with ((PyFloat.expo a - e0) + (e0 - e)) by lia.
  replace (PyFloat.expo b - e) with ((PyFloat.expo b - e0) + (e0 - e)) by lia.
  rewrite !Z.pow_add_r by lia.
  assert (P : 0 < 2 ^ (e0 - e)) by (apply Z.pow_pos_nonneg; lia).
  set (x := PyFloat.mant a * 2 ^ (PyFloat.expo a - e0)).
  set (y := PyFloat.mant b * 2 ^ (PyFloat.expo b - e0)).
  rewrite !Z.mul_assoc. fold x y.
  destruct (x <=? y) eqn:L; symmetry.
  - apply Z.leb_le in L. apply Z.leb_le. nia.
  - apply Z.leb_gt in L. apply Z.leb_gt. nia.
Qed.

Lemma leb_refl a : PyFloat.leb a a = true.
Proof.
  rewrite (leb_at a a (PyFloat.expo a)) by lia. apply Z.leb_refl.
Qed.

Lemma leb_total a b : PyFloat.leb a b = false -> PyFloat.leb b a = true.
Proof.
  set (e := Z.min (PyFloat.expo a) (PyFloat.expo b)).
  rewrite (leb_at a b e), (leb_at b a e) by (subst e; lia).
  rewrite Z.leb_gt, Z.leb_le. lia.
Qed.

Lemma leb_trans a b c :
  PyFloat.leb a b = true -> PyFloat.leb b c = true -> PyFloat.leb a c = true.
Proof.
  set (e := Z.min (PyFloat.expo a) (Z.min (PyFloat.expo b) (PyFloat.expo c))).
  rewrite (leb_at a b e), (leb_at b c e), (leb_at a c e) by (subst e; lia).
  rewrite !Z.leb_le. lia.
Qed.

Lemma insert_sorted_In x y l : In y (insert_sorted x l) <-> y = x \/ In y l.
Proof.
  induction l as [| z l IH]; cbn [insert_sorted].
  - cbn. intuition congruence.
  - destruct (PyFloat.leb x z); cbn [In]; [intuition congruence |].
    rewrite IH. intuition congruence.
Qed.

Lemma sorted_In y l : In y (sorted l) <-> In y l.
Proof.
  induction l as [| x l IH]; [reflexivity |].
  cbn [sorted fold_right]. fold (sorted l).
  rewrite insert_sorted_In, IH. cbn [In]. intuition congruence.
Qed.

Lemma insert_sorted_ascending x l :
  ascending l -> ascending (insert_sorted x l).
Proof.
  induction l as [| z l IH]; intros S; cbn [insert_sorted].
  - split; constructor.
  - destruct S as [F S]. destruct (PyFloat.leb x z) eqn:L.
    + split; [| split; assumption].
      constructor; [exact L |].
      rewrite Forall_forall in *. intros y Hy.
      exact (leb_trans _ _ _ L (F y Hy)).
    + split; [| exact (IH S)].
      rewrite Forall_forall in *. intros y Hy.
      apply insert_sorted_In in Hy. destruct Hy as [-> | Hy];
        [exact (leb_total _ _ L) | exact (F y Hy)].
Qed.

Lemma sorted_ascending l : ascending (sorted l).
Proof.
  induction l as [| x l IH]; [exact I |].
  cbn [sorted fold_right]. fold (sorted l).
  apply insert_sorted_ascending, IH.
Qed.

(** The last element of an ascending list is its greatest. *)
Lemma ascending_last l m :
  ascending l ->
  nth_error l (Nat.pred (List.length l)) = Some m ->
  forall x, In x l -> PyFloat.leb x m = true.
Proof.
  induction l as [| y l IH]; intros S N x Hx; [destruct Hx |].
  destruct S as [F S].
  destruct l as [| z l].
  - cbn in N. injection N as <-. destruct Hx as [-> | []]. apply leb_refl.
  - cbn [List.length Nat.pred nth_error] in N, IH.
    destruct Hx as [-> | Hx]; [| exact (IH S N x Hx)].
    rewrite Forall_forall in F. apply F.
    exact (nth_error_In _ _ N).
Qed.

Lemma p95_index_small :
  Forall (fun n => p95_index n = n - 1) (map Z.of_nat (seq 1 20))
  /\ p95_index 21 = 19.
Proof.
  split; [| vm_compute; reflexivity].
  cbn [map seq]. repeat (constructor; [vm_compute; reflexivity |]).
  constructor.
Qed.

(** X9.  The P95 latency of [print_results] is one of the latencies;
    and with 20 latencies or fewer it is the greatest of them: the index
    [int(n * 0.95)] is then [n - 1], the last of the sorted list.  (With
    21 latencies it is the index 19, the one before the last.) *)
Theorem p95_latency_is_a_latency res :
  latencies res <> [] ->
  exists p95,
    p95_latency_of res = Some p95
    /\ In p95 (latencies res)
    /\ ((List.length (latencies res) <= 20)%nat ->
        forall x, In x (latencies res) -> PyFloat.leb x p95 = true).
Proof.
  intros H.
  destruct (statistics_defined res H) as [_ [p95 P]].
  exists p95. split; [exact P |].
  unfold p95_latency_of, py_index in P.
  set (n := List.length (latencies res)) in *.
  assert (Hn : (1 <= n)%nat).
  { subst n. destruct (latencies res); [congruence | cbn; lia]. }
  destruct (p95_index_in_range (Z.of_nat n) ltac:(lia)) as [I0 I1].
  destruct (p95_index (Z.of_nat n) <? 0) eqn:Neg;
    [apply Z.ltb_lt in Neg; lia |].
  destruct ((0 <=? p95_index (Z.of_nat n))
            && (p95_index (Z.of_nat n) <? Z.of_nat (List.length (sorted (latencies res)))));
    [| discriminate].
  split.
  - apply sorted_In. exact (nth_error_In _ _ P).
  - intros Le x Hx.
    assert (E : p95_index (Z.of_nat n) = Z.of_nat n - 1).
    { destruct p95_index_small as [F _]. rewrite Forall_forall in F.
      apply F. apply in_map, in_seq. lia. }
    rewrite E in P.
    apply (ascending_last (sorted (latencies res)) p95 (sorted_ascending _)).
    + rewrite sorted_length. fold n.
      replace (Nat.pred n) with (Z.to_nat (Z.of_nat n - 1)) by lia.
      exact P.
    + apply sorted_In. exact Hx.
Qed.

(** An instance: three latencies. *)
Lemma p95_latency_is_a_latency_witness :
  let res :=
    {| events_processed := 3; errors := 0; timeouts := 0;
       latencies := [PyFloat.of_int 7; PyFloat.of_int 9; PyFloat.of_int 8];
       start_time := None; end_time := None |} in
  exists p95,
    p95_latency_of res = Some p95
    /\ In p95 (latencies res)
    /\ ((List.length (latencies res) <= 20)%nat ->
        forall x, In x (latencies res) -> PyFloat.leb x p95 = true).
Proof.
  apply (p95_latency_is_a_latency
           {| events_processed := 3; errors := 0; timeouts := 0;
              latencies :=
                [PyFloat.of_int 7; PyFloat.of_int 9; PyFloat.of_int 8];
              start_time := None; end_time := None |}).
  cbn. discriminate.
Defined.

(** ** [generate_event]: the payload *)

(** X10.  [generate_event] returns the four entries [hook_event_name],
    [session_id], [timestamp] and [data], in this order.  The session id
    is the argument, or [sess_stress_] and a random number of six digits
    when none is given; the timestamp is the time in microseconds; the
    data has the transcript path and the working directory of the
    session, under the home of [$USER] (of [testuser] when it is not
    set), and one of the three models; then, for a [UserPromptSubmit],
    a prompt length from 10 to 5000, the attachment flag and a message
    id [msg_] with a number from 1000 to 9999, and for a [Notification]
    one of the two notification types, the message and the context. *)
Theorem generate_event_payload env session_id event_type s :
  exists sid ty model extra,
    fst (generate_event env session_id event_type s)
    = [ ("hook_event_name", JStr ty);
        ("session_id", JStr sid);
        ("timestamp", JStr (timestamp_of (now s)));
        ("data",
         JObj (base_data
                 (match env_user env with Some u => u | None => "testuser" end)
                 sid model ++ extra)) ]
    /\ session_id_for session_id sid
    /\ event_type_for event_type ty
    /\ In model MODELS
    /\ extra_data ty extra.
Proof.
  destruct (generate_event_contents env session_id event_type s)
    as [(sid & ty & ts & model & extra & E & S & T & M & X) TS].
  exists sid, ty, model, extra.
  rewrite E in TS. cbn in TS. injection TS as ->.
  repeat split; assumption.
Qed.

(** ** [print_results] without the times *)

Lemma print_results_untimed s :
  end_time (results s) = None ->
  latencies (results s) <> [] ->
  exists avg p95,
    avg_latency_of (results s) = Some avg
    /\ p95_latency_of (results s) = Some p95
    /\ print_results s
       = (Finished,
          set_console
            (console s ++ summary_without_times (results s) avg p95) s).
Proof.
  intros E N.
  destruct (statistics_defined (results s) N) as [[avg A] [p95 P]].
  exists avg, p95. split; [exact A | split; [exact P |]].
  unfold print_results. rewrite bind_run.
  change (fst (get results s)) with (results s).
  change (snd (get results s)) with s.
  destruct (latencies (results s)) as [| x l] eqn:L; [congruence |].
  rewrite <- L in *. rewrite A, P.
  unfold duration_of. rewrite E.
  rewrite !bind_run.
  change (PyFloat.ltb PyFloat.zero PyFloat.zero) with false.
  change (PyStr.of_float_1f PyFloat.zero) with "0.0".
  unfold summary_without_times.
  destruct (PyFloat.ltb avg (PyFloat.of_int 50));
    [| destruct (PyFloat.ltb avg (PyFloat.of_int 200))];
    destruct (PyFloat.ltb p95 (PyFloat.of_int 200));
    cbn [when print modify ret fst snd console set_console];
    rewrite <- !app_assoc; reflexivity.
Qed.

(** X11.  In the monitoring mode of [main] no time is ever set:
    [resource_monitoring_test] leaves [start_time] and [end_time] as
    [None].  So the summary that follows, when an event has been
    processed, reports a duration of 0.0s and has no line for the
    throughput: it is the ten lines of [summary_without_times]. *)
Theorem monitoring_mode_summary env args sched turns fuel t :
  arg_test args = Monitoring ->
  let s1 :=
    snd (resource_monitoring_test env fuel (arg_duration args) (init t)) in
  let r := main env true args sched turns fuel t in
  start_time (results s1) = None
  /\ end_time (results s1) = None
  /\ (fst r = Ran Finished ->
      latencies (results s1) <> [] ->
      exists avg p95,
        avg_latency_of (results s1) = Some avg
        /\ p95_latency_of (results s1) = Some p95
        /\ console (snd r)
           = (console s1 ++ summary_without_times (results s1) avg p95)%list).
Proof.
  intros Mode. cbn zeta.
  destruct (yields_resource_monitoring_test env fuel (arg_duration args)
              (init t)) as [R _].
  destruct (run_keeps_times _ _ _ _ ltac:(intros H; exact H)
              ltac:(intros H; exact H) R) as [T1 T2].
  split; [exact T1 | split; [exact T2 |]].
  unfold main. cbn [negb]. rewrite Mode, bind_run. cbn [ret fst snd].
  unfold and_then. rewrite bind_run.
  set (rm := resource_monitoring_test env fuel (arg_duration args) (init t))
    in *.
  destruct (fst rm) as [| msg |]; cbn [ret fst snd];
    [| discriminate | discriminate].
  intros _ N.
  destruct (print_results_untimed (snd rm) T2 N) as (avg & p95 & A & P & E).
  exists avg, p95. split; [exact A | split; [exact P |]].
  rewrite E. reflexivity.
Qed.

(** An instance: the monitoring mode for one second, with a hook binary
    that accepts every document at once. *)
Lemma monitoring_mode_summary_witness :
  let args :=
    {| arg_hook_binary := "irrlicht-hook"; arg_test := Monitoring;
       arg_duration := 1; arg_rate := 10 |} in
  let r :=
    main accepting_hook true args in_time_order 0 20
      (PyFloat.of_int 1700000000) in
  In "  Duration: 0.0s" (console (snd r)).
Proof.
  cbn zeta.
  destruct (monitoring_mode_summary accepting_hook
              {| arg_hook_binary := "irrlicht-hook"; arg_test := Monitoring;
                 arg_duration := 1; arg_rate := 10 |}
              in_time_order 0 20 (PyFloat.of_int 1700000000) eq_refl)
    as (_ & _ & H).
  destruct H as (avg & p95 & _ & _ & E).
  - vm_compute. reflexivity.
  - vm_compute. discriminate.
  - rewrite E. apply in_or_app. right. right. left. reflexivity.
Defined.

(** ** [performance_stress_test] without a rate *)

(** For a rate of zero [1.0 / events_per_second] raises, and for a
    negative rate it is negative, so that the sleep raises. *)
Lemma sender_delay_fails events_per_second :
  events_per_second <= 0 ->
  match PyFloat.div PyFloat.lit_1_0 (PyFloat.of_int events_per_second) with
  | Some d => PyFloat.ltb d PyFloat.zero = true
  | None => True
  end.
Proof.
  intros H. destruct (Z.eq_dec events_per_second 0) as [-> | N];
    [vm_compute; exact I |].
  unfold PyFloat.of_int, PyFloat.round.
  destruct (events_per_second <? 0) eqn:E; [| apply Z.ltb_ge in E; lia].
  pose proof (round_pos_pos (- events_per_second) 0 ltac:(lia)) as P.
  set (f := PyFloat.round_pos (- events_per_second) 0) in *. cbn zeta.
  unfold PyFloat.div. cbn [PyFloat.mant PyFloat.expo].
  destruct (- PyFloat.mant f =? 0) eqn:Z0; [apply Z.eqb_eq in Z0; lia |].
  change (PyFloat.mant PyFloat.lit_1_0) with 1.
  rewrite (Z.sgn_neg (- PyFloat.mant f)) by lia.
  change (Z.sgn 1 * -1) with (-1).
  rewrite Z.abs_opp, (Z.abs_eq (PyFloat.mant f)) by lia.
  change (Z.abs 1) with 1. rewrite Z.mul_1_l.
  set (m := PyFloat.mant f) in *.
  assert (Q : 0 < 2 ^ (56 + Z.log2 m) / m).
  { apply Z.div_str_pos. split; [exact P |].
    destruct (Z.log2_spec m P) as [_ U].
    apply Z.lt_le_incl, (Z.lt_le_trans _ _ _ U).
    apply Z.pow_le_mono_r; lia. }
  match goal with
  | |- context [2 * (?n / m) + ?k] =>
      assert (K : 0 <= k)
        by (match goal with
            | |- context [if ?c then _ else _] => destruct c
            end; lia);
      set (p := 2 * (n / m) + k) in *
  end.
  assert (Hp : 0 < p) by lia.
  unfold PyFloat.round.
  destruct (-1 * p <? 0) eqn:Neg; [| apply Z.ltb_ge in Neg; lia].
  replace (- (-1 * p)) with p by lia.
  pose proof (round_pos_pos p
                (PyFloat.expo PyFloat.lit_1_0 - PyFloat.expo f
                 - (56 + Z.log2 m) - 1) Hp) as M.
  set (d := PyFloat.round_pos p _) in *. cbn zeta.
  unfold PyFloat.ltb, PyFloat.align.
  cbn [PyFloat.mant PyFloat.expo PyFloat.zero].
  apply Z.ltb_lt. rewrite Z.mul_0_l.
  apply Z.mul_neg_pos; [lia |]. apply Z.pow_pos_nonneg; lia.
Qed.

(** A sender without a rate ends at its first turn, after one event at
    most. *)
Lemma event_sender_without_rate env end_time events_per_second session_pool s :
  events_per_second <= 0 ->
  fst (event_sender env end_time events_per_second session_pool s) = false
  /\ (List.length
        (spawned (snd (event_sender env end_time events_per_second
                         session_pool s)))
      <= S (List.length (spawned s)))%nat.
Proof.
  intros R. pose proof (sender_delay_fails events_per_second R) as D.
  unfold event_sender. rewrite bind_run, bind_run.
  change (snd (time_time s)) with s.
  change (snd (get running s)) with s.
  destruct (PyFloat.ltb (fst (time_time s)) end_time && fst (get running s));
    [| split; [reflexivity | cbn; lia]].
  rewrite bind_run.
  pose proof (choice_state env session_pool "" s) as E1.
  destruct (choice env session_pool "" s) as [session_id s1].
  cbn [fst snd] in E1 |- *.
  rewrite bind_run.
  pose proof (generate_event_state env (Some session_id) None s1) as E2.
  destruct (generate_event env (Some session_id) None s1) as [event s2].
  cbn [fst snd] in E2 |- *.
  assert (S2 : spawned s2 = spawned s) by (rewrite E2, E1; reflexivity).
  rewrite bind_run.
  pose proof (send_event_frame env (Dict event) 5 s2) as (_ & _ & _ & F).
  destruct (send_event env (Dict event) 5 s2)
    as [[[success latency] output] s3].
  cbn [fst snd] in F |- *.
  rewrite bind_run.
  assert (W : forall b line st,
             spawned (snd (when b (print line) st)) = spawned st)
    by (intros [|] ? ?; reflexivity).
  specialize (W (negb success
                 && negb (PyStr.contains "validation failed" output))
                ("⚠️  Event failed: " ++ PyStr.take 100 output) s3).
  destruct (PyFloat.div PyFloat.lit_1_0 (PyFloat.of_int events_per_second))
    as [d |]; [rewrite D |]; cbn [ret fst snd];
    (split; [reflexivity |]);
    rewrite W, F, S2, length_app; cbn; lia.
Qed.

Lemma progress_monitor_spawned end_time i s :
  spawned (snd (progress_monitor end_time i s)) = spawned s.
Proof.
  unfold progress_monitor. do 3 rewrite bind_run.
  assert (W : spawned (snd (when (0 <? i)%nat report_progress s)) = spawned s).
  { destruct (0 <? i)%nat; [| reflexivity].
    unfold when, report_progress. rewrite !bind_run. reflexivity. }
  match goal with
  | |- context [if ?c then _ else _] => destruct c
  end; rewrite !bind_run; exact W.
Qed.

(** X12.  With a rate of zero, or a negative one,
    [performance_stress_test] hands at most three documents to the hook
    binary, one for each of its three senders: the division
    [1.0 / events_per_second] (or the sleep of a negative time) raises
    in the thread of the sender after its first event, and nothing looks
    at the exception. *)
Theorem performance_stress_test_without_rate env sched turns duration eps s :
  eps <= 0 ->
  (List.length
     (spawned (snd (performance_stress_test env sched turns duration eps s)))
   <= List.length (spawned s) + 3)%nat.
Proof.
  intros R. unfold performance_stress_test. do 5 rewrite bind_run.
  match goal with
  | |- context [time_time ?s0] =>
      set (s4 := s0);
      change (fst (time_time s4)) with (now s);
      change (snd (time_time s4)) with s4
  end.
  rewrite bind_run.
  set (s1 := snd (modify (set_results (set_start_time (now s))) s4)).
  rewrite bind_run.
  set (end_time := PyFloat.add (now s) (PyFloat.of_int duration)).
  set (u := fun th : thread => if th_done th then 0%nat else 1%nat).
  set (Inv := fun (ths : list thread) (st : state) =>
                exists a b c d,
                  ths = [a; b; c; d]
                  /\ (List.length (spawned st) + u a + u b + u c
                      <= List.length (spawned s) + 3)%nat).
  match goal with
  | |- context [run_threads ?b ?el sched turns 0%nat ?ths s1] =>
      set (body := b);
      set (r := run_threads body el sched turns 0%nat ths s1);
      assert (K : Inv (fst r) (snd r))
  end.
  { apply run_threads_keeps.
    - intros j ths st (a & b & c & d & -> & B).
      assert (Snd : forall th,
                 th_done th = false ->
                 let r := event_sender env end_time eps perf_session_pool
                            (set_now (th_clock th) st) in
                 negb (fst r) = true
                 /\ (List.length (spawned (snd r))
                     <= S (List.length (spawned st)))%nat).
      { intros th _. cbn zeta.
        destruct (event_sender_without_rate env end_time eps perf_session_pool
                    (set_now (th_clock th) st) R) as [F L].
        rewrite F. split; [reflexivity | exact L]. }
      destruct j as [| [| [| [| j]]]].
      + destruct (th_done a) eqn:D;
          [rewrite step_thread_idle;
           [exists a, b, c, d; split; [reflexivity | exact B]
           | intros th' H'; cbn in H'; congruence] |].
        rewrite (step_thread_unfinished body 0%nat [a; b; c; d] a st eq_refl D). cbn zeta.
        cbn [fst snd list_update].
        destruct (Snd a D) as [F L]. cbn zeta in F, L.
        eexists _, b, c, d. split; [reflexivity |].
        unfold u in *. cbn [th_done]. rewrite D in B.
        change (body 0%nat (th_iter a))
          with (event_sender env end_time eps perf_session_pool).
        rewrite F. lia.
      + destruct (th_done b) eqn:D;
          [rewrite step_thread_idle;
           [exists a, b, c, d; split; [reflexivity | exact B]
           | intros th' H'; cbn in H'; congruence] |].
        rewrite (step_thread_unfinished body 1%nat [a; b; c; d] b st eq_refl D). cbn zeta.
        cbn [fst snd list_update].
        destruct (Snd b D) as [F L]. cbn zeta in F, L.
        eexists a, _, c, d. split; [reflexivity |].
        unfold u in *. cbn [th_done]. rewrite D in B.
        change (body 1%nat (th_iter b))
          with (event_sender env end_time eps perf_session_pool).
        rewrite F. lia.
      + destruct (th_done c) eqn:D;
          [rewrite step_thread_idle;
           [exists a, b, c, d; split; [reflexivity | exact B]
           | intros th' H'; cbn in H'; congruence] |].
        rewrite (step_thread_unfinished body 2%nat [a; b; c; d] c st eq_refl D). cbn zeta.
        cbn [fst snd list_update].
        destruct (Snd c D) as [F L]. cbn zeta in F, L.
        eexists a, b, _, d. split; [reflexivity |].
        unfold u in *. cbn [th_done]. rewrite D in B.
        change (body 2%nat (th_iter c))
          with (event_sender env end_time eps perf_session_pool).
        rewrite F. lia.
      + destruct (th_done d) eqn:D;
          [rewrite step_thread_idle;
           [exists a, b, c, d; split; [reflexivity | exact B]
           | intros th' H'; cbn in H'; congruence] |].
        rewrite (step_thread_unfinished body 3%nat [a; b; c; d] d st eq_refl D). cbn zeta.
        cbn [fst snd list_update].
        eexists a, b, c, _. split; [reflexivity |].
        change (body 3%nat (th_iter d))
          with (progress_monitor end_time (th_iter d)).
        rewrite progress_monitor_spawned. exact B.
      + rewrite step_thread_idle;
          [exists a, b, c, d; split; [reflexivity | exact B] |].
        intros th' H'. cbn in H'. destruct j; discriminate H'.
    - exists (spawn_thread (now s)), (spawn_thread (now s)),
        (spawn_thread (now s)), (spawn_thread (now s)).
      split; [reflexivity |]. cbn. lia. }
  destruct K as (a & b & c & d & _ & B).
  destruct (all_done (fst r)); rewrite ?bind_run;
    cbn [modify time_time get ret print fst snd spawned
         set_now set_results set_console];
    lia.
Qed.

(** An instance: the rate 0. *)
Lemma performance_stress_test_without_rate_witness :
  (List.length
     (spawned (snd (performance_stress_test quick_hook in_time_order 60 1 0
                      (init (PyFloat.of_int 1700000000)))))
   <= 0 + 3)%nat.
Proof.
  apply (performance_stress_test_without_rate quick_hook in_time_order 60 1 0
           (init (PyFloat.of_int 1700000000))).
  lia.
Defined.

(** ** [concurrent_sessions_test]: no sessions, no events *)

(** X13.  [concurrent_sessions_test] at its edges.  With no session
    ([num_sessions <= 0]) the thread pool refuses its size: the test
    prints its three lines and raises, and nothing else has happened.
    With sessions but no event for each ([events_per_session <= 0])
    every worker ends at once: no document is handed to the hook binary
    and the results are as they were. *)
Theorem concurrent_sessions_test_edges env sched turns n e s :
  (n <= 0 ->
   concurrent_sessions_test env sched turns n e s
   = (Raised "max_workers must be greater than 0",
      set_console
        (console s
           ++ [ "Starting concurrent sessions test:";
                "  Sessions: " ++ PyStr.of_int n;
                "  Events per session: " ++ PyStr.of_int e ])
        s))
  /\ (1 <= n -> e <= 0 ->
      spawned (snd (concurrent_sessions_test env sched turns n e s))
      = spawned s
      /\ results (snd (concurrent_sessions_test env sched turns n e s))
         = results s).
Proof.
  split.
  - intros H. unfold concurrent_sessions_test. rewrite !bind_run.
    apply Z.leb_le in H. rewrite H.
    cbn [print modify ret fst snd console set_console].
    rewrite <- !app_assoc. reflexivity.
  - intros Hn He. unfold concurrent_sessions_test. do 3 rewrite bind_run.
    destruct (n <=? 0) eqn:N; [apply Z.leb_le in N; lia |].
    do 2 rewrite bind_run.
    match goal with
    | |- context [time_time ?s0] =>
        set (s3 := s0);
        change (fst (time_time s3)) with (now s);
        change (snd (time_time s3)) with s3
    end.
    set (Inv := fun (ths : list thread) (st : state) =>
                  spawned st = spawned s /\ results st = results s).
    match goal with
    | |- context [run_threads ?b ?el sched turns 0%nat ?ths s3] =>
        set (body := b);
        set (r := run_threads body el sched turns 0%nat ths s3);
        assert (K : Inv (fst r) (snd r))
    end.
    { apply run_threads_keeps; [| split; reflexivity].
      intros j ths st I0.
      destruct (nth_error ths j) as [thj |] eqn:Nj;
        [| rewrite step_thread_idle;
           [exact I0 | intros th' H'; congruence]].
      destruct (th_done thj) eqn:D;
        [rewrite step_thread_idle;
         [exact I0 | intros th' H'; congruence] |].
      rewrite (step_thread_unfinished _ _ _ _ _ Nj D). cbn zeta.
      cbn [fst snd]. unfold body, session_worker.
      destruct (Z.of_nat (th_iter thj) <? e) eqn:L;
        [apply Z.ltb_lt in L; lia |].
      exact I0. }
    destruct (all_done (fst r)); rewrite ?bind_run; exact K.
Qed.

(** An instance: no session, and eight sessions without events. *)
Lemma concurrent_sessions_test_edges_witness :
  fst (concurrent_sessions_test quick_hook in_time_order 20 0 10
         (init PyFloat.zero))
  = Raised "max_workers must be greater than 0"
  /\ spawned (snd (concurrent_sessions_test quick_hook in_time_order 20 8 0
                     (init PyFloat.zero)))
     = [].
Proof.
  split.
  - destruct (concurrent_sessions_test_edges quick_hook in_time_order 20 0 10
                (init PyFloat.zero)) as [H _].
    rewrite H by lia. reflexivity.
  - destruct (concurrent_sessions_test_edges quick_hook in_time_order 20 8 0
                (init PyFloat.zero)) as [_ H].
    destruct H as [H _]; [lia | lia |]. exact H.
Defined.

(** ** The documents of the whole suite *)

Lemma run_no_send env A s s' :
  (forall ed, ~ A (Send ed)) -> run env A s s' -> spawned s' = spawned s.
Proof.
  intros N R.
  destruct (run_spawned env A (fun _ => False) s s' N R) as (eds & E & F).
  destruct eds as [| ed eds]; [| inversion F; contradiction].
  rewrite E. apply app_nil_r.
Qed.

Lemma print_results_spawned s : spawned (snd (print_results s)) = spawned s.
Proof.
  destruct (yields_print_results accepting_hook (fun _ => False) s) as [R _].
  exact (run_no_send _ _ _ _ (fun _ H => H) R).
Qed.

Lemma and_then_Finished c1 c2 s :
  fst (and_then c1 c2 s) = Finished ->
  fst (c1 s) = Finished /\ and_then c1 c2 s = c2 (snd (c1 s)).
Proof.
  unfold and_then. rewrite bind_run.
  destruct (fst (c1 s)); cbn [ret fst];
    [split; reflexivity | discriminate | discriminate].
Qed.

(** When [concurrent_sessions_test] returns, every worker has sent its
    events, all of them valid events of its session. *)
Lemma concurrent_sessions_test_sent env sched turns n e s :
  1 <= n -> 0 <= e ->
  fst (concurrent_sessions_test env sched turns n e s) = Finished ->
  exists sent,
    spawned (snd (concurrent_sessions_test env sched turns n e s))
    = (spawned s ++ map doc_of sent)%list
    /\ Z.of_nat (List.length sent) = n * e
    /\ (forall j, (j < Z.to_nat n)%nat -> Z.of_nat (sent_by j sent) = e)
    /\ (forall j event,
           In (j, event) sent ->
           valid_event_of (nth j (concurrent_session_ids n) "") event).
Proof.
  intros Hn He.
  rewrite concurrent_sessions_test_pool by exact Hn. cbn zeta.
  destruct (concurrent_session_ids_distinct n) as [L D].
  set (session_ids := concurrent_session_ids n) in *.
  set (sp := snd (print _ (snd (print _ (snd (print _ s)))))).
  assert (NE : forall j, (j < List.length session_ids)%nat ->
                         nth j session_ids "" <> "").
  { intros j H. apply concurrent_session_id_not_empty. lia. }
  destruct (initial_pool session_ids (Z.to_nat e) s sp (now sp) eq_refl)
    as [Inv0 _].
  destruct (run_threads_inv env e session_ids s NE (Z.to_nat e) eq_refl
              (has_worker (Z.to_nat n)) sched turns 0%nat _ sp [] Inv0)
    as (sent & Inv).
  match goal with
  | |- context [all_done (fst ?x)] => set (rt := x) in *
  end.
  destruct (all_done (fst rt)) eqn:A; [| discriminate].
  intros _. cbn [fst snd].
  destruct Inv as (Ln & Sp & W & T & V).
  exists sent.
  assert (Dn : forall j th, nth_error (fst rt) j = Some th ->
                            th_done th = true ->
                            th_iter th = S (Z.to_nat e)).
  { intros j th N Dt. destruct (W j th N) as [_ Wi].
    now rewrite Dt in Wi. }
  split; [exact Sp |]. split; [| split].
  - rewrite T, (sent_total_done _ _ A Dn), Ln, L. nia.
  - intros j H.
    destruct (nth_error (fst rt) j) as [th |] eqn:N.
    + destruct (W j th N) as [Wc _].
      rewrite Wc, (Dn j th N (all_done_nth _ _ _ A N)). lia.
    + apply nth_error_None in N. lia.
  - intros j event H. exact (V (j, event) H).
Qed.

(** [log_rotation_test] sends its large event 100 times. *)
Lemma log_rotation_test_spawned env s :
  spawned (snd (log_rotation_test env s))
  = (spawned s
       ++ List.repeat
            (dumps (JObj (with_large_field
                            (fst (generate_event env None None
                                    (snd (print "Starting log rotation test..."
                                            s)))))))
            100)%list.
Proof.
  unfold log_rotation_test. do 4 rewrite bind_run.
  match goal with
  | |- context [for_each (range 100) ?b ?s3] =>
      match b with
      | context [send_event env ?ed 5] =>
          pose proof (for_each_send_event env ed 5
                        (fun i => i mod 10 =? 0)
                        (fun i => "    Sent " ++ PyStr.of_int i ++ " events...")
                        (range 100) s3) as [L _];
          set (s4 := snd (for_each (range 100) b s3)) in *
      end
  end.
  rewrite bind_run.
  assert (E : spawned (snd (print "✅ Log rotation test completed"
                              (snd (match env_log_files env with
                                    | Some log_files =>
                                        print
                                          ("  Found "
                                             ++ PyStr.of_int
                                                  (Z.of_nat
                                                     (List.length log_files))
                                             ++ " log files: ["
                                             ++ PyStr.join ", "
                                                  (map (fun f =>
                                                          "'" ++ f ++ "'")
                                                     log_files)
                                             ++ "]")
                                    | None => ret tt
                                    end s4))))
              = spawned s4)
    by (destruct (env_log_files env); reflexivity).
  rewrite E, L.
  change (List.length (range 100)) with 100%nat.
  f_equal. rewrite generate_event_state. reflexivity.
Qed.

(** X14.  When [run_full_test_suite] finishes it has run its five
    tests one after the other, each from the state that the one before
    has left, and then [print_results]; and of the documents handed to
    the hook binary, the error injection has sent its five, the
    concurrent sessions test 80 valid events, ten of each of its eight
    sessions, the performance stress test valid events of its eight
    sessions, the resource monitoring test none, and the log rotation
    test 100 times its large event. *)
Theorem run_full_test_suite_documents env hook_binary sched turns fuel s :
  let s1 :=
    snd (print (PyStr.repeat "=" 60)
           (snd (print ("Hook binary: " ++ hook_binary)
                   (snd (print
                           "🧪 Starting Irrlicht Hook Receiver Stress Test Suite"
                           s))))) in
  let t1 := error_injection_test env s1 in
  let s2 := snd (print "" (snd t1)) in
  let t2 :=
    concurrent_sessions_test env sched turns
      DEFAULT_NUM_SESSIONS DEFAULT_EVENTS_PER_SESSION s2 in
  let s3 := snd (print "" (snd t2)) in
  let t3 := performance_stress_test env sched turns 30 10 s3 in
  let s4 := snd (print "" (snd t3)) in
  let t4 := resource_monitoring_test env fuel 20 s4 in
  let s5 := snd (print "" (snd t4)) in
  let t5 := log_rotation_test env s5 in
  let s6 := snd (print "" (snd t5)) in
  fst (run_full_test_suite env hook_binary sched turns fuel s) = Finished ->
  run_full_test_suite env hook_binary sched turns fuel s = print_results s6
  /\ spawned (snd (run_full_test_suite env hook_binary sched turns fuel s))
     = spawned (snd t5)
  /\ (exists malformed t t',
         In malformed malformed_types
         /\ spawned (snd t1)
            = (spawned s
                 ++ [ malformed; oversized_payload; "";
                      dumps (JObj (invalid_type_event t));
                      dumps (JObj (missing_session_id_event t')) ])%list)
  /\ (exists sent,
         spawned (snd t2) = (spawned (snd t1) ++ map doc_of sent)%list
         /\ List.length sent = 80%nat
         /\ (forall j, (j < 8)%nat -> sent_by j sent = 10%nat)
         /\ (forall j event,
                In (j, event) sent ->
                valid_event_of
                  (nth j (concurrent_session_ids DEFAULT_NUM_SESSIONS) "")
                  event))
  /\ (exists events,
         spawned (snd t3)
         = (spawned (snd t2)
              ++ map (fun event => dumps (JObj event)) events)%list
         /\ Forall (fun event =>
                      exists sid,
                        In sid perf_session_pool /\ valid_event_of sid event)
              events)
  /\ spawned (snd t4) = spawned (snd t3)
  /\ spawned (snd t5)
     = (spawned (snd t4)
          ++ List.repeat
               (dumps (JObj (with_large_field
                               (fst (generate_event env None None
                                       (snd (print
                                               "Starting log rotation test..."
                                               s5)))))))
               100)%list.
Proof.
  intros s1 t1 s2 t2 s3 t3 s4 t4 s5 t5 s6 F.
  (* the tests that have returned *)
  assert (R : exists r,
             run_full_test_suite env hook_binary sched turns fuel s
             = match fst r with
               | Pending => ret Pending (snd r)
               | Finished => print_results (snd r)
               | Raised msg =>
                   (c' <- print_results ;;
                    match c' with
                    | Finished => ret (Raised msg)
                    | _ => ret c'
                    end) (snd r)
               end
             /\ (fst r = Finished ->
                 fst t2 = Finished /\ fst t3 = Finished /\ fst t4 = Finished
                 /\ snd r = s6)).
  { unfold run_full_test_suite. do 4 rewrite bind_run. fold s1.
    match goal with
    | |- context [and_then ?a ?b s1] =>
        exists (and_then a b s1); set (r := and_then a b s1)
    end.
    split; [destruct (fst r); reflexivity |]. subst r. intros Fr.
    destruct (and_then_Finished _ _ _ Fr) as [_ E1]. rewrite E1 in Fr |- *.
    clear E1. rewrite !bind_run in Fr |- *. fold t1 in Fr |- *.
    change (snd (ret Finished (snd (print "" (snd t1))))) with s2 in Fr |- *.
    destruct (and_then_Finished _ _ _ Fr) as [F2 E2]. rewrite E2 in Fr |- *.
    clear E2.
    destruct (and_then_Finished _ _ _ F2) as [F2' E2'].
    rewrite E2' in Fr |- *. clear E2' F2. fold t2 in F2', Fr |- *.
    rewrite !bind_run in Fr |- *.
    change (snd (ret Finished (snd (print "" (snd t2))))) with s3 in Fr |- *.
    destruct (and_then_Finished _ _ _ Fr) as [F3 E3]. rewrite E3 in Fr |- *.
    clear E3.
    destruct (and_then_Finished _ _ _ F3) as [F3' E3'].
    rewrite E3' in Fr |- *. clear E3' F3. fold t3 in F3', Fr |- *.
    rewrite !bind_run in Fr |- *.
    change (snd (ret Finished (snd (print "" (snd t3))))) with s4 in Fr |- *.
    destruct (and_then_Finished _ _ _ Fr) as [F4 E4]. rewrite E4 in Fr |- *.
    clear E4.
    destruct (and_then_Finished _ _ _ F4) as [F4' E4'].
    rewrite E4' in Fr |- *. clear E4' F4. fold t4 in F4', Fr |- *.
    rewrite !bind_run in Fr |- *.
    change (snd (ret Finished (snd (print "" (snd t4))))) with s5 in Fr |- *.
    fold t5. repeat split; assumption. }
  destruct R as (r & E & Rf).
  rewrite E in F |- *.
  destruct (fst r) as [| msg |].
  2: { exfalso. revert F. rewrite bind_run.
       destruct (fst (print_results (snd r))); cbn [ret fst]; discriminate. }
  2: { exfalso. revert F. cbn [ret fst]. discriminate. }
  destruct (Rf eq_refl) as (F2 & F3 & F4 & ->). clear Rf E.
  split; [reflexivity |].
  split; [rewrite print_results_spawned; reflexivity |].
  split.
  { pose proof (error_injection_test_documents env s1) as D. cbn zeta in D.
    fold t1 in D. change (spawned s1) with (spawned s) in D.
    eexists _, _, _. split; [| exact D].
    apply nth_In. apply Nat.mod_upper_bound. discriminate. }
  split.
  { destruct (concurrent_sessions_test_sent env sched turns
                DEFAULT_NUM_SESSIONS DEFAULT_EVENTS_PER_SESSION s2
                ltac:(unfold DEFAULT_NUM_SESSIONS; lia)
                ltac:(unfold DEFAULT_EVENTS_PER_SESSION; lia) F2)
      as (sent & Sp & Ln & By & V).
    fold t2 in Sp. exists sent.
    split; [exact Sp |].
    split; [apply Nat2Z.inj; rewrite Ln; reflexivity |].
    split; [| exact V].
    intros j H. apply Nat2Z.inj. rewrite (By j H). reflexivity. }
  split.
  { destruct (yields_performance_stress_test env sched turns 30 10 s3)
      as [Rp _].
    destruct (run_spawned _ _ (valid_in (fun sid => In sid perf_session_pool))
                _ _ ltac:(intros ed H; exact H) Rp) as (eds & Ed & Fd).
    exact (valid_events_spawned _ _ _ _ Ed Fd). }
  split.
  { destruct (performance_stress_test_post env sched turns 30 10 s3 F3)
      as (Rn & _).
    assert (Pf : (0 < fuel)%nat).
    { destruct fuel; [| lia]. exfalso. revert F4. unfold t4.
      unfold resource_monitoring_test. rewrite !bind_run. discriminate. }
    unfold t4.
    rewrite (resource_monitoring_test_stopped env fuel 20 s4 Rn Pf).
    reflexivity. }
  exact (log_rotation_test_spawned env s5).
Qed.

(** An instance: the suite with a hook binary that answers in 1/128 of
    a second. *)
Lemma run_full_test_suite_documents_witness :
  let s := init (PyFloat.of_int 1700000000) in
  let r :=
    run_full_test_suite quick_hook "irrlicht-hook" in_time_order 900 10 s in
  exists t3 t4 : completion * state,
    fst t3 = Finished
    /\ spawned (snd t4) = spawned (snd t3)
    /\ List.length (spawned (snd r)) = (List.length (spawned (snd t4)) + 100)%nat.
Proof.
  cbn zeta.
  destruct (run_full_test_suite_documents quick_hook "irrlicht-hook"
              in_time_order 900 10 (init (PyFloat.of_int 1700000000)))
    as (_ & E & _ & _ & _ & E4 & E5); [vm_compute; reflexivity |].
  eexists _, (resource_monitoring_test quick_hook 10 20 _).
  split; [| split; [exact E4 |]].
  - vm_compute. reflexivity.
  - rewrite E, E5, length_app, repeat_length. reflexivity.
Defined.

(** ** [resource_monitoring_test]: when it ends *)

Lemma resource_monitoring_loop_lasts env fuel end_time session_pool s :
  running s = true ->
  fst (resource_monitoring_loop env fuel end_time session_pool s) = Finished ->
  running (snd (resource_monitoring_loop env fuel end_time session_pool s))
  = true
  /\ PyFloat.ltb
       (now (snd (resource_monitoring_loop env fuel end_time session_pool s)))
       end_time
     = false.
Proof.
  revert s. induction fuel as [| fuel IH]; intros s Run;
    [cbn; discriminate |].
  cbn [resource_monitoring_loop]. rewrite bind_run, bind_run.
  change (fst (time_time s)) with (now s).
  change (snd (time_time s)) with s.
  change (fst (get running s)) with (running s).
  change (snd (get running s)) with s.
  rewrite Run, Bool.andb_true_r.
  destruct (PyFloat.ltb (now s) end_time) eqn:L;
    [| intros _; split; [exact Run | exact L]].
  rewrite bind_run.
  pose proof (choice_state env session_pool "" s) as E1.
  destruct (choice env session_pool "" s) as [session_id s1].
  cbn [fst snd] in E1 |- *.
  rewrite bind_run.
  pose proof (generate_event_state env (Some session_id) None s1) as E2.
  destruct (generate_event env (Some session_id) None s1) as [event s2].
  cbn [fst snd] in E2 |- *.
  assert (R2 : running s2 = true) by (rewrite E2, E1; exact Run).
  rewrite bind_run.
  pose proof (send_event_frame env (Dict event) 5 s2) as (_ & _ & F & _).
  destruct (send_event env (Dict event) 5 s2)
    as [[[success latency] output] s3].
  cbn [fst snd] in F |- *.
  rewrite bind_run, bind_run.
  apply IH.
  assert (W : forall b line st,
             running (snd (when b (print line) st)) = running st)
    by (intros [|] ? ?; reflexivity).
  change (running (snd (sleep ?d ?st))) with (running st).
  rewrite W, F. exact R2.
Qed.

(** X15.  [resource_monitoring_test] on a running runner never clears
    [self.running], and it does not return before the time of its call
    plus [duration]: the loop ends on the clock alone.  On a runner that
    is stopped it sends nothing: it prints its first and its last line
    and returns. *)
Theorem resource_monitoring_test_ends env fuel duration s :
  (running s = true ->
   fst (resource_monitoring_test env fuel duration s) = Finished ->
   running (snd (resource_monitoring_test env fuel duration s)) = true
   /\ PyFloat.ltb (now (snd (resource_monitoring_test env fuel duration s)))
        (PyFloat.add (now s) (PyFloat.of_int duration))
      = false)
  /\ (running s = false -> (0 < fuel)%nat ->
      resource_monitoring_test env fuel duration s
      = (Finished,
         set_console
           (console s
              ++ [ "Starting resource monitoring test for "
                     ++ PyStr.of_int duration ++ "s...";
                   "✅ Resource monitoring test completed" ])
           s)).
Proof.
  split.
  - intros Run. unfold resource_monitoring_test. do 3 rewrite bind_run.
    match goal with
    | |- context [time_time ?s0] =>
        set (s1 := s0);
        change (fst (time_time s1)) with (now s);
        change (snd (time_time s1)) with s1
    end.
    pose proof (resource_monitoring_loop_lasts env fuel
                  (PyFloat.add (now s) (PyFloat.of_int duration))
                  (map (fun i => "sess_monitor_" ++ PyStr.of_int i) (range 4))
                  s1 Run) as H.
    destruct (fst (resource_monitoring_loop env fuel _ _ s1)) as [| msg |];
      [| cbn [ret fst]; discriminate | cbn [ret fst]; discriminate].
    intros _. rewrite !bind_run. exact (H eq_refl).
  - intros Stop F.
    rewrite (resource_monitoring_test_stopped env fuel duration s Stop F).
    rewrite !bind_run.
    cbn [print modify ret fst snd console set_console].
    rewrite <- !app_assoc. reflexivity.
Qed.

(** An instance: one second of monitoring of a running runner, and a
    stopped runner. *)
Lemma resource_monitoring_test_ends_witness :
  let s := init (PyFloat.of_int 1700000000) in
  running (snd (resource_monitoring_test quick_hook 20 1 s)) = true
  /\ spawned (snd (resource_monitoring_test quick_hook 20 1
                     (set_running false s)))
     = [].
Proof.
  cbn zeta.
  destruct (resource_monitoring_test_ends quick_hook 20 1
              (init (PyFloat.of_int 1700000000))) as [H _].
  destruct (resource_monitoring_test_ends quick_hook 20 1
              (set_running false (init (PyFloat.of_int 1700000000))))
    as [_ H'].
  split.
  - apply H; vm_compute; reflexivity.
  - rewrite H'; [reflexivity | reflexivity | lia].
Defined.

(** ** What only [performance_stress_test] touches *)

Lemma run_untouched env (P : event_data -> Prop) s s' :
  run env (sends P) s s' ->
  running s' = running s
  /\ start_time (results s') = start_time (results s)
  /\ end_time (results s') = end_time (results s).
Proof.
  intros R. split.
  - exact (run_keeps_running _ _ _ _ (fun H => H) R).
  - exact (run_keeps_times _ _ _ _ (fun H => H) (fun H => H) R).
Qed.

(** X16.  Of the five tests only [performance_stress_test] touches
    [self.running] and the two times: [error_injection_test],
    [concurrent_sessions_test], [resource_monitoring_test] and
    [log_rotation_test] leave [self.running], [start_time] and
    [end_time] as they find them. *)
Theorem other_tests_leave_running_and_times env sched turns fuel n e duration s :
  let untouched (s' : state) :=
    running s' = running s
    /\ start_time (results s') = start_time (results s)
    /\ end_time (results s') = end_time (results s) in
  untouched (snd (error_injection_test env s))
  /\ untouched (snd (concurrent_sessions_test env sched turns n e s))
  /\ untouched (snd (resource_monitoring_test env fuel duration s))
  /\ untouched (snd (log_rotation_test env s)).
Proof.
  cbn zeta. repeat split;
    first
      [ apply (run_untouched env _ s _
                 (proj1 (yields_error_injection_test env s)))
      | apply (run_untouched env _ s _
                 (proj1 (yields_concurrent_sessions_test env sched turns n e
                           s)))
      | apply (run_untouched env _ s _
                 (proj1 (yields_resource_monitoring_test env fuel duration
                           s)))
      | apply (run_untouched env _ s _
                 (proj1 (yields_log_rotation_test env s))) ].
Qed.
